(** * Checkpoint lifecycle of gpt-neox: naming, retention, validation, load

    A shallow embedding of [megatron/checkpointing.py].  Python objects are
    embedded as inductive values, the [state_dict] handed to and received
    from the training engine as a finite map keyed by strings, and every
    function that prints, raises, deletes directories or touches generator
    state as a computation in a state-and-exception monad over an explicit
    [World].  Everything the file calls but does not define (torch, the
    engine, the model, the process group) is an interface whose results are
    supplied by an environment record. *)

From Stdlib Require Import ZArith NArith String Ascii List Lia.
From stdpp Require Import base strings gmap list.

Local Open Scope string_scope.
Local Open Scope Z_scope.

(** ** Python strings *)

Module PyStr.

Definition digit_char (d : N) : ascii := ascii_of_N (48 + d).

(** The decimal digits of [n], most significant first; [fuel] bounds their
    number. *)
Fixpoint digits_of (fuel : nat) (n : N) : string :=
  match fuel with
  | O => ""
  | S fuel' =>
      (if (n <? 10)%N then "" else digits_of fuel' (n / 10)%N)
      +:+ String (digit_char (n mod 10)%N) ""
  end.

(** [str(n)] for a non-negative integer: a number has no more decimal
    digits than binary ones. *)
Definition of_N (n : N) : string := digits_of (S (N.to_nat (N.log2 n))) n.

Fixpoint zeros (k : nat) : string :=
  match k with
  | O => ""
  | S k' => String "0" (zeros k')
  end.

(** [s.zfill(w)] for a string [s] without a sign. *)
Definition zfill (w : nat) (s : string) : string :=
  zeros (w - String.length s) +:+ s.

(** ['{:0wd}'.format(z)]: sign-aware zero padding up to a minimal width
    [w]; longer numbers are printed in full. *)
Definition format_0d (w : nat) (z : Z) : string :=
  if z <? 0
  then String "-" (zfill (w - 1) (of_N (Z.to_N (- z))))
  else zfill w (of_N (Z.to_N z)).

(** [str(z)]. *)
Definition of_Z (z : Z) : string := format_0d 0 z.

Fixpoint startswith (p s : string) : bool :=
  match p, s with
  | "", _ => true
  | String a p', String b s' => if Ascii.eqb a b then startswith p' s' else false
  | String _ _, "" => false
  end.

Definition endswith (p s : string) : bool :=
  startswith (String.rev p) (String.rev s).

(** [p in s] on strings. *)
Fixpoint contains (p s : string) : bool :=
  startswith p s ||
  match s with
  | "" => false
  | String _ s' => contains p s'
  end.

Fixpoint lstrip (c : ascii) (s : string) : string :=
  match s with
  | "" => ""
  | String a s' => if Ascii.eqb a c then lstrip c s' else s
  end.

Definition rstrip (c : ascii) (s : string) : string :=
  String.rev (lstrip c (String.rev s)).

(** [s.strip(c)] for a one-character set: every leading and every trailing
    occurrence goes. *)
Definition strip (c : ascii) (s : string) : string := rstrip c (lstrip c s).

(** [sep.join(l)]. *)
Fixpoint join (sep : string) (l : list string) : string :=
  match l with
  | [] => ""
  | [x] => x
  | x :: l' => x +:+ sep +:+ join sep l'
  end.

Definition is_digit (a : ascii) : bool :=
  let n := N_of_ascii a in ((48 <=? n) && (n <=? 57))%N.

Definition newline : string := String (ascii_of_nat 10) "".
Definition tab : string := String (ascii_of_nat 9) "".

End PyStr.

(** ** [os.path.join] (posixpath) *)

Definition path_join_step (path b : string) : string :=
  if PyStr.startswith "/" b then b
  else if (String.eqb path "" || PyStr.endswith "/" path)%bool then path +:+ b
  else path +:+ "/" +:+ b.

Definition path_join (a : string) (p : list string) : string :=
  fold_left path_join_step p a.

(** ** Checkpoint naming *)

(** The caller's own model-parallel rank, [mpu.get_model_parallel_rank()],
    is passed in as [own_rank]; it is only consulted when [mp_rank] is
    [None]. *)
Definition get_checkpoint_name (own_rank : Z) (checkpoints_path : string)
    (iteration : Z) (release : bool) (mp_rank : option Z) : string :=
  let directory :=
    if release then "release"
    else "iter_" +:+ PyStr.format_0d 7 iteration in
  path_join checkpoints_path
    [ directory;
      "mp_rank_" +:+ PyStr.format_0d 2 (match mp_rank with
                                        | None => own_rank
                                        | Some r => r
                                        end);
      "model_optim_rng.pt" ].

(** ** Python values *)

(** The immutable scalars that configuration attributes and the entries of
    a checkpoint's ['args'] dictionary hold. *)
Inductive scalar :=
| SNone
| SBool (b : bool)
| SInt (z : Z)
| SStr (s : string).

(** [a == b].  [bool] is a subclass of [int]: [True == 1]. *)
Definition py_eq (a b : scalar) : bool :=
  match a, b with
  | SNone, SNone => true
  | SBool x, SBool y => Bool.eqb x y
  | SBool x, SInt y | SInt y, SBool x => (if x then 1 else 0) =? y
  | SInt x, SInt y => x =? y
  | SStr x, SStr y => String.eqb x y
  | _, _ => false
  end.

(** [str(a)], as ['{}'.format(a)] renders it. *)
Definition py_str (a : scalar) : string :=
  match a with
  | SNone => "None"
  | SBool true => "True"
  | SBool false => "False"
  | SInt z => PyStr.of_Z z
  | SStr s => s
  end.

(** A dictionary whose iteration order matters: insertion-ordered pairs. *)
Definition dict_get {A} (k : string) (d : list (string * A)) : option A :=
  snd <$> List.find (fun kv => String.eqb (fst kv) k) d.

(** ** Exceptions and the computation monad *)

Inductive exn :=
| ValueError (msg : string)
| AssertionError (msg : string)
| AttributeError (name : string)
| KeyError (key : string)
| TypeError (msg : string)
| RuntimeError (msg : string)
| FileNotFoundError (path : string)
| PermissionError (path : string)
| SystemExit.

Inductive outcome (A : Type) :=
| Ok (a : A)
| Raise (e : exn).
Arguments Ok {A} a.
Arguments Raise {A} e.

Definition is_ok {A} (o : outcome A) : bool :=
  match o with Ok _ => true | Raise _ => false end.

(** The tensor library.  Tensors, the reductions of an elementwise
    comparison to one Python bool and the rendering of a tensor as text are
    torch's; this development only fixes their signatures. *)
Class Torch := {
  tensor : Type;
  (** [(a == b).all().item()] for two tensors *)
  tensor_equal_all : tensor -> tensor -> bool;
  (** [(a == n).all().item()] for a tensor and a number *)
  tensor_equal_all_number : tensor -> Z -> bool;
  (** [torch.isclose(a, b).all().item()] *)
  tensor_isclose_all : tensor -> tensor -> bool;
  (** [bool(a == x)] for a tensor and a scalar: the truth value that
      [assert a == x] tests, an error when torch finds it ambiguous *)
  tensor_eq_scalar_truth : tensor -> scalar -> outcome bool;
  (** [str(a)] *)
  tensor_str : tensor -> string;
  (** [t.to(torch.int64)], [t.cuda()], [t.detach().cpu()] *)
  to_int64 : tensor -> tensor;
  cuda : tensor -> tensor;
  detach_cpu : tensor -> tensor;
}.

(** What a dictionary stored in the [state_dict] holds under a key: a scalar
    (the entries of ['args']; the logits of a non-final pipeline stage, which
    are [None]) or a tensor (the entries of ['checkpoint_validation']). *)
Inductive item `{Torch} :=
| IScalar (a : scalar)
| ITensor (t : tensor).

(** What a [state_dict] key holds: a scalar, a dictionary of items, or a
    generator state, which stays opaque. *)
Inductive value `{Torch} :=
| VScalar (a : scalar)
| VDict (d : list (string * item))
| VState (n : N).

(** The generator states that a save captures and a load restores, each an
    opaque token. *)
Record RngBundle := {
  random_rng_state : N;
  np_rng_state : N;
  torch_rng_state : N;
  cuda_rng_state : N;
  rng_tracker_states : N;
}.

(** The mutable state one process can observe. *)
Record World `{Torch} := {
  stdout : list string;                 (** what [print] wrote, oldest first *)
  training : bool;                      (** [model.training] *)
  rng : RngBundle;
  fs : list (string * bool);            (** existing paths, with [isdir] *)
  rmtree_calls : list string;           (** arguments of [shutil.rmtree], oldest first *)
  barriers : nat;                       (** completed [torch.distributed.barrier()] calls *)
  engine_saved : list (string * gmap string value);
                                        (** [model.save_checkpoint(path, client_state)] calls *)
}.

Definition M `{Torch} (A : Type) : Type := World -> outcome A * World.

Definition ret `{Torch} {A} (a : A) : M A := fun w => (Ok a, w).
Definition raise `{Torch} {A} (e : exn) : M A := fun w => (Raise e, w).
Definition bind `{Torch} {A B} (c : M A) (k : A -> M B) : M B :=
  fun w =>
    match c w with
    | (Ok a, w') => k a w'
    | (Raise e, w') => (Raise e, w')
    end.

Notation "'let!' x ':=' c 'in' k" := (bind c (fun x => k))
  (at level 10, x name, c at level 100, k at level 200).
Notation "'let!' ' pat ':=' c 'in' k" := (bind c (fun x => match x with pat => k end))
  (at level 10, pat pattern, c at level 100, k at level 200).
Notation "c '>>' k" := (bind c (fun _ => k))
  (at level 90, right associativity).

(** [try: c except E: h], where [handler] tells which exceptions [E]
    catches. *)
Definition try_except `{Torch} {A} (c : M A) (handler : exn -> option (M A)) : M A :=
  fun w =>
    match c w with
    | (Ok a, w') => (Ok a, w')
    | (Raise e, w') =>
        match handler e with
        | Some h => h w'
        | None => (Raise e, w')
        end
    end.

(** [assert cond, msg] *)
Definition py_assert `{Torch} (cond : bool) (msg : string) : M unit :=
  if cond then ret tt else raise (AssertionError msg).

(** [for x in l: body(x)] *)
Fixpoint for_each `{Torch} {A} (l : list A) (body : A -> M unit) : M unit :=
  match l with
  | [] => ret tt
  | x :: l' => body x >> for_each l' body
  end.

Definition get `{Torch} {A} (f : World -> A) : M A := fun w => (Ok (f w), w).
Definition modify `{Torch} (f : World -> World) : M unit := fun w => (Ok tt, f w).

(** Field updates of [World]. *)
Definition with_stdout `{Torch} (f : list string -> list string) (w : World) : World :=
  {| stdout := f (stdout w); training := training w; rng := rng w; fs := fs w;
     rmtree_calls := rmtree_calls w; barriers := barriers w;
     engine_saved := engine_saved w |}.
Definition with_training `{Torch} (b : bool) (w : World) : World :=
  {| stdout := stdout w; training := b; rng := rng w; fs := fs w;
     rmtree_calls := rmtree_calls w; barriers := barriers w;
     engine_saved := engine_saved w |}.
Definition with_rng `{Torch} (f : RngBundle -> RngBundle) (w : World) : World :=
  {| stdout := stdout w; training := training w; rng := f (rng w); fs := fs w;
     rmtree_calls := rmtree_calls w; barriers := barriers w;
     engine_saved := engine_saved w |}.
Definition with_fs `{Torch} (f : list (string * bool) -> list (string * bool))
    (w : World) : World :=
  {| stdout := stdout w; training := training w; rng := rng w; fs := f (fs w);
     rmtree_calls := rmtree_calls w; barriers := barriers w;
     engine_saved := engine_saved w |}.
Definition with_rmtree_calls `{Torch} (f : list string -> list string) (w : World) : World :=
  {| stdout := stdout w; training := training w; rng := rng w; fs := fs w;
     rmtree_calls := f (rmtree_calls w); barriers := barriers w;
     engine_saved := engine_saved w |}.
Definition with_barriers `{Torch} (f : nat -> nat) (w : World) : World :=
  {| stdout := stdout w; training := training w; rng := rng w; fs := fs w;
     rmtree_calls := rmtree_calls w; barriers := f (barriers w);
     engine_saved := engine_saved w |}.
Definition with_engine_saved `{Torch}
    (f : list (string * gmap string value) -> list (string * gmap string value))
    (w : World) : World :=
  {| stdout := stdout w; training := training w; rng := rng w; fs := fs w;
     rmtree_calls := rmtree_calls w; barriers := barriers w;
     engine_saved := f (engine_saved w) |}.

(** Setting one generator's state. *)
Definition set_random (n : N) (r : RngBundle) : RngBundle :=
  {| random_rng_state := n; np_rng_state := np_rng_state r;
     torch_rng_state := torch_rng_state r; cuda_rng_state := cuda_rng_state r;
     rng_tracker_states := rng_tracker_states r |}.
Definition set_np (n : N) (r : RngBundle) : RngBundle :=
  {| random_rng_state := random_rng_state r; np_rng_state := n;
     torch_rng_state := torch_rng_state r; cuda_rng_state := cuda_rng_state r;
     rng_tracker_states := rng_tracker_states r |}.
Definition set_torch (n : N) (r : RngBundle) : RngBundle :=
  {| random_rng_state := random_rng_state r; np_rng_state := np_rng_state r;
     torch_rng_state := n; cuda_rng_state := cuda_rng_state r;
     rng_tracker_states := rng_tracker_states r |}.
Definition set_cuda (n : N) (r : RngBundle) : RngBundle :=
  {| random_rng_state := random_rng_state r; np_rng_state := np_rng_state r;
     torch_rng_state := torch_rng_state r; cuda_rng_state := n;
     rng_tracker_states := rng_tracker_states r |}.
Definition set_tracker (n : N) (r : RngBundle) : RngBundle :=
  {| random_rng_state := random_rng_state r; np_rng_state := np_rng_state r;
     torch_rng_state := torch_rng_state r; cuda_rng_state := cuda_rng_state r;
     rng_tracker_states := n |}.

(** ** The run configuration *)

(** The attributes of [neox_args] that the checkpoint code reads by name,
    and [other_attrs] for every further attribute the object carries. *)
Record NeoXArgs := {
  deepspeed : bool;
  no_load_optim : bool;
  load : string;
  save : string;
  finetune : bool;
  no_load_rng : bool;
  no_save_rng : bool;
  checkpoint_validation_with_forward_pass : bool;
  keep_last_n_checkpoints : option Z;
  is_pipe_parallel : bool;
  seq_length : Z;
  padded_vocab_size : Z;
  num_layers : scalar;
  hidden_size : scalar;
  num_attention_heads : scalar;
  max_position_embeddings : scalar;
  make_vocab_size_divisible_by : scalar;
  tokenizer_type : scalar;
  model_parallel_size : scalar;
  other_attrs : list (string * scalar);
}.

Definition attrs (a : NeoXArgs) : list (string * scalar) :=
  ([ ("deepspeed", SBool (deepspeed a));
    ("no_load_optim", SBool (no_load_optim a));
    ("load", SStr (load a));
    ("save", SStr (save a));
    ("finetune", SBool (finetune a));
    ("no_load_rng", SBool (no_load_rng a));
    ("no_save_rng", SBool (no_save_rng a));
    ("checkpoint_validation_with_forward_pass",
       SBool (checkpoint_validation_with_forward_pass a));
    ("keep_last_n_checkpoints",
       match keep_last_n_checkpoints a with Some n => SInt n | None => SNone end);
    ("is_pipe_parallel", SBool (is_pipe_parallel a));
    ("seq_length", SInt (seq_length a));
    ("padded_vocab_size", SInt (padded_vocab_size a));
    ("num_layers", num_layers a);
    ("hidden_size", hidden_size a);
    ("num_attention_heads", num_attention_heads a);
    ("max_position_embeddings", max_position_embeddings a);
    ("make_vocab_size_divisible_by", make_vocab_size_divisible_by a);
    ("tokenizer_type", tokenizer_type a);
    ("model_parallel_size", model_parallel_size a) ]
  ++ other_attrs a)%list.

(** [getattr(neox_args, name)]; [None] when the attribute does not exist. *)
Definition getattr (a : NeoXArgs) (name : string) : option scalar :=
  dict_get name (attrs a).

(** ** The environment of one process *)

(** Results of the calls that leave this file: the process group, the
    model, the training engine and the operating system. *)
Record Env `{Torch} := {
  get_rank : Z;                          (** [torch.distributed.get_rank()] *)
  get_data_parallel_rank : Z;            (** [mpu.get_data_parallel_rank()] *)
  get_model_parallel_rank : Z;           (** [mpu.get_model_parallel_rank()] *)
  get_model_parallel_src_rank : Z;       (** [mpu.get_model_parallel_src_rank()] *)
  (** [torch.randint(low, high, size)] with torch's default generator in
      state [g]: the tensor drawn and the state the generator is left in *)
  randint : N -> Z -> Z -> Z * Z -> tensor * N;
  (** what the buffer holds once [torch.distributed.broadcast] returns *)
  broadcast : tensor -> Z -> tensor;
  (** [get_batch(neox_args, context_tokens)]:
      tokens, attention mask, position ids *)
  get_batch : NeoXArgs -> tensor -> tensor * tensor * tensor;
  (** logits of [model.eval_batch(data_iter, return_logits=True)] *)
  model_eval_batch : tensor -> outcome (option tensor);
  (** [model((tokens, position_ids, attention_mask))] *)
  model_call : tensor * tensor * tensor -> outcome tensor;
  model_is_last_stage : bool;
  (** [model.load_checkpoint(load_dir, load_optimizer_states,
      load_lr_scheduler_states)]: checkpoint name and client state *)
  model_load_checkpoint :
    string -> bool -> bool -> option string * gmap string value;
  (** what the file system holds once the engine's
      [save_checkpoint(path, client_state)] has returned *)
  model_save_files :
    string -> gmap string value -> list (string * bool) -> list (string * bool);
  (** the directories that [glob] finds for a directory pattern, that is a
      path with one of the characters [*], [?] and [[] in it *)
  glob_dirs : string -> list (string * bool) -> list string;
  (** an error the operating system injects into [shutil.rmtree(path)] *)
  rmtree_fault : string -> option exn;
}.

(** ** Natural sort *)

Module NaturalSort.

(** One run of a key: text, or the number a digit run denotes. *)
Inductive chunk := Text (s : string) | Num (n : N).

Definition digit_val (a : ascii) : N := (N_of_ascii a - 48)%N.

(** Chunks of [s], where [cur] is the run being read (reversed text, or
    the number read so far). *)
Fixpoint chunks_go (cur : string + N) (s : string) : list chunk :=
  match s with
  | "" => match cur with inl t => [Text (String.rev t)] | inr n => [Num n; Text ""] end
  | String a s' =>
      if PyStr.is_digit a then
        match cur with
        | inl t => Text (String.rev t) :: chunks_go (inr (digit_val a)) s'
        | inr n => chunks_go (inr (10 * n + digit_val a)%N) s'
        end
      else
        match cur with
        | inl t => chunks_go (inl (String a t)) s'
        | inr n => Num n :: chunks_go (inl (String a "")) s'
        end
  end.

(** Text and digit runs alternate, starting and ending with text (which
    may be empty). *)
Definition key (s : string) : list chunk := chunks_go (inl "") s.

Definition chunk_compare (a b : chunk) : comparison :=
  match a, b with
  | Text x, Text y => String.compare x y
  | Num x, Num y => N.compare x y
  | Text _, Num _ => Gt
  | Num _, Text _ => Lt
  end.

Fixpoint key_compare (k1 k2 : list chunk) : comparison :=
  match k1, k2 with
  | [], [] => Eq
  | [], _ :: _ => Lt
  | _ :: _, [] => Gt
  | a :: k1', b :: k2' =>
      match chunk_compare a b with
      | Eq => key_compare k1' k2'
      | c => c
      end
  end.

Definition leb (a b : string) : bool :=
  match key_compare (key a) (key b) with Gt => false | _ => true end.

Fixpoint insert (x : string) (l : list string) : list string :=
  match l with
  | [] => [x]
  | y :: l' => if leb x y then x :: l else y :: insert x l'
  end.

End NaturalSort.

(** Modelled from the spec: [megatron.utils.natural_sort], which this file
    imports and whose source is not at hand.  The spec asks for a sort in
    natural, numeric-aware order, in which [step_10] comes after [step_9]:
    names are cut into text and digit runs, digit runs compare as numbers
    and text runs as text.  Names that compare equal keep their order. *)
Definition natural_sort (l : list string) : list string :=
  fold_right NaturalSort.insert [] l.

(** [l[:n]]: a negative [n] counts from the end. *)
Definition py_slice_to {A} (l : list A) (n : Z) : list A :=
  if n <? 0 then take (Z.to_nat (Z.of_nat (length l) + n)) l
  else take (Z.to_nat n) l.

(** ** Retention: discovery of checkpoint directories *)

Fixpoint take_digits (s : string) : string :=
  match s with
  | "" => ""
  | String a s' => if PyStr.is_digit a then String a (take_digits s') else ""
  end.

Fixpoint drop_str (n : nat) (s : string) : string :=
  match n, s with
  | O, _ => s
  | S n', String _ s' => drop_str n' s'
  | S _, "" => ""
  end.

(** [re.search(r'global_step[\d]*', s)]: the text of the leftmost match,
    its digit run taken greedily, or [None].  Only whether there is a match
    is used by the caller. *)
Fixpoint re_search_ckpt_dir (s : string) : option string :=
  if PyStr.startswith "global_step" s
  then Some ("global_step" +:+ take_digits (drop_str 11 s))
  else match s with
       | "" => None
       | String _ s' => re_search_ckpt_dir s'
       end.

Definition is_slash (a : ascii) : bool := Ascii.eqb a "/".

Fixpoint only_slashes (s : string) : bool :=
  match s with
  | "" => true
  | String a s' => is_slash a && only_slashes s'
  end.

(** [glob.has_magic]: one of the characters that make a path a pattern. *)
Definition has_magic (s : string) : bool :=
  PyStr.contains "*" s || PyStr.contains "?" s || PyStr.contains "[" s.

(** The directory part of the pattern [d/*], as [os.path.split] cuts it
    and as [os.path.join] puts it back before an entry: [d] without its
    trailing slashes, unless [d] consists of slashes only. *)
Definition glob_parent (d : string) : string :=
  if only_slashes d then d else PyStr.rstrip "/" d.

(** Whether [p] is an entry of directory [d] that the pattern [d/*]
    matches: one more path component, not hidden. *)
Definition is_child_of (d p : string) : bool :=
  PyStr.startswith (d +:+ "/") p &&
  let name := drop_str (String.length d + 1) p in
  negb (String.eqb name "") && negb (PyStr.contains "/" name)
  && negb (PyStr.startswith "." name).

Section Checkpointing.
Context `{Torch} (env : Env).

(** *** Primitive effects *)

Definition print (line : string) : M unit :=
  modify (with_stdout (fun out => (out ++ [line])%list)).

(** Modelled from the spec: [megatron.print_rank_0], whose source is not
    at hand.  The spec has non-fatal conditions logged on rank 0 only. *)
Definition print_rank_0 (line : string) : M unit :=
  if get_rank env =? 0 then print line else ret tt.

Definition barrier : M unit := modify (with_barriers S).

Definition model_eval : M unit := modify (with_training false).
Definition model_train : M unit := modify (with_training true).

Definition lift {A} (o : outcome A) : M A := fun w => (o, w).

(** The entries of directory [dir] that [*] matches, in the order the file
    system lists them; the directories [glob] produces never end with a
    slash. *)
Definition glob_children (f : list (string * bool)) (dir : string) : list string :=
  fst <$> List.filter (fun e => is_child_of dir (fst e)) f.

(** [glob(f'{d}/*')]: the directory part is taken as it stands when it
    holds no pattern character, and otherwise stands for every directory
    that [glob] finds for it. *)
Definition glob_star_in (w : World) (d : string) : list string :=
  let dir := glob_parent d in
  if has_magic dir
  then concat (glob_children (fs w) <$> glob_dirs env dir (fs w))
  else glob_children (fs w) dir.

Definition glob_star (d : string) : M (list string) :=
  get (fun w => glob_star_in w d).

(** [torch.randint(low, high, size)]: a draw from torch's default
    generator, which moves on. *)
Definition torch_randint (low high : Z) (size : Z * Z) : M tensor :=
  let! g := get (fun w => torch_rng_state (rng w)) in
  let drawn := randint env g low high size in
  modify (with_rng (set_torch (snd drawn))) >>
  ret (fst drawn).

Definition isdir (w : World) (p : string) : bool :=
  existsb (fun e => String.eqb (fst e) p && snd e) (fs w).

(** [shutil.rmtree(p)]: the tree rooted at [p] goes, unless the path does
    not exist or the operating system reports another error. *)
Definition rmtree (p : string) : M unit :=
  modify (with_rmtree_calls (fun c => (c ++ [p])%list)) >>
  match rmtree_fault env p with
  | Some e => raise e
  | None =>
      let! present := get (fun w => existsb (fun e => String.eqb (fst e) p) (fs w)) in
      if present
      then modify (with_fs (List.filter (fun e =>
             negb (String.eqb (fst e) p || PyStr.startswith (p +:+ "/") (fst e)))))
      else raise (FileNotFoundError p)
  end.

(** *** check_checkpoint_args *)

Definition args_error_message (name ckpt_value args_value : string) : string :=
  name +:+ " value from checkpoint (" +:+ ckpt_value
    +:+ ") is not equal to the currently set argument value ("
    +:+ args_value +:+ ").".

Definition item_str (i : item) : string :=
  match i with
  | IScalar a => py_str a
  | ITensor t => tensor_str t
  end.

Definition check_checkpoint_args (neox_args : NeoXArgs) (checkpoint_args : value)
    : M unit :=
  match checkpoint_args with
  | VDict d =>
      for_each d (fun kv =>
        let checkpoint_arg_name := fst kv in
        let checkpoint_arg_value := snd kv in
        match getattr neox_args checkpoint_arg_name with
        | None => raise (AttributeError checkpoint_arg_name)
        | Some args_value =>
            let error_message :=
              args_error_message checkpoint_arg_name
                (item_str checkpoint_arg_value) (py_str args_value) in
            let! equal :=
              match checkpoint_arg_value with
              | IScalar a => ret (py_eq a args_value)
              | ITensor t => lift (tensor_eq_scalar_truth t args_value)
              end in
            py_assert equal error_message
        end)
  | _ => raise (AssertionError "args stored in checkpoint is a dict")
  end.

(** *** do_forward_pass *)

Definition do_forward_pass (neox_args : NeoXArgs) (context_tokens : item)
    : M (tensor * option tensor) :=
  barrier >>
  let! model_was_in_train := get training in
  model_eval >>
  let! context_tokens_tensor :=
    match context_tokens with
    | IScalar SNone =>
        if is_pipe_parallel neox_args
        then
          let! t := torch_randint 0 (padded_vocab_size neox_args)
                      (4, seq_length neox_args + 1) in
          ret (to_int64 t)
        else
          let! t := torch_randint 0 (padded_vocab_size neox_args)
                      (4, seq_length neox_args) in
          ret (to_int64 t)
    | ITensor t => ret t
    | IScalar _ => raise (AttributeError "cuda")
    end in
  let context_tokens_tensor := cuda context_tokens_tensor in
  let context_tokens_tensor :=
    broadcast env context_tokens_tensor (get_model_parallel_src_rank env) in
  barrier >>
  let! logits :=
    if is_pipe_parallel neox_args then
      let! logits := lift (model_eval_batch env context_tokens_tensor) in
      if model_is_last_stage env then
        match logits with
        | Some l => ret (Some (detach_cpu l))
        | None => raise (AttributeError "detach")
        end
      else ret logits
    else
      let '(tokens, attention_mask, position_ids) :=
        get_batch env neox_args context_tokens_tensor in
      let! logits := lift (model_call env (tokens, position_ids, attention_mask)) in
      ret (Some (detach_cpu logits)) in
  barrier >>
  (if model_was_in_train then model_train else ret tt) >>
  ret (detach_cpu context_tokens_tensor, logits).

(** *** check_forward_pass *)

Definition forward_warning : string :=
  " > WARNING: validate_checkpoint_forward() forward after load of checkpoint does not yield exactly same result".

Definition forward_error : string :=
  "validate_checkpoint_forward() forward after load of checkpoint does not yield a close result".

Definition check_forward_pass (neox_args : NeoXArgs)
    (checkpoint_context_tokens checkpoint_logits : item) : M unit :=
  let! r := do_forward_pass neox_args checkpoint_context_tokens in
  match snd r with
  | Some logits =>
      let! exactly_equal :=
        match checkpoint_logits with
        | ITensor saved => ret (tensor_equal_all logits saved)
        | IScalar (SInt n) => ret (tensor_equal_all_number logits n)
        | IScalar (SBool b) => ret (tensor_equal_all_number logits (if b then 1 else 0))
        | IScalar _ => raise (AttributeError "all")
        end in
      if negb exactly_equal then
        (if get_data_parallel_rank env =? 0 then print forward_warning else ret tt) >>
        match checkpoint_logits with
        | ITensor saved => py_assert (tensor_isclose_all logits saved) forward_error
        | IScalar _ => raise (TypeError "isclose(): argument 'other' must be Tensor")
        end
      else ret tt
  | None => ret tt
  end.

(** *** delete_old_checkpoints *)

(** [save_dir], with every leading and trailing slash gone when it ends
    with one. *)
Definition normalized_save_dir (save_dir : string) : string :=
  if PyStr.endswith "/" save_dir then PyStr.strip "/" save_dir else save_dir.

Definition is_ckpt_dir (w : World) (i : string) : bool :=
  isdir w i && bool_decide (is_Some (re_search_ckpt_dir i)).

(** The sorted list [all_ckpts] that the function builds in world [w]. *)
Definition all_ckpts_in (w : World) (save_dir : string) : list string :=
  natural_sort
    (List.filter (is_ckpt_dir w) (glob_star_in w (normalized_save_dir save_dir))).

Definition deleting_message (to_delete : list string) : string :=
  "WARNING: Deleting old checkpoints: " +:+ PyStr.newline +:+ PyStr.tab
    +:+ PyStr.join ", " to_delete.

Definition swallow_file_not_found (e : exn) : option (M unit) :=
  match e with
  | FileNotFoundError _ => Some (ret tt)
  | _ => None
  end.

(** The body of the removal loop: [try: shutil.rmtree(ckpt)], passing
    over [FileNotFoundError]. *)
Definition remove_checkpoint (ckpt : string) : M unit :=
  try_except (rmtree ckpt) swallow_file_not_found.

Definition delete_old_checkpoints (save_dir : string) (n_to_keep : Z) : M unit :=
  if get_rank env =? 0 then
    let save_dir := normalized_save_dir save_dir in
    let! listed := glob_star save_dir in
    let! w := get id in
    let all_ckpts := natural_sort (List.filter (is_ckpt_dir w) listed) in
    let n_to_delete := Z.of_nat (length all_ckpts) - n_to_keep in
    if n_to_delete >? 0 then
      let to_delete := py_slice_to all_ckpts n_to_delete in
      print (deleting_message to_delete) >>
      for_each to_delete remove_checkpoint
    else ret tt
  else ret tt.

(** *** save_ds_checkpoint and save_checkpoint *)

Definition architecture_args (neox_args : NeoXArgs) : list (string * item) :=
  [ ("num_layers", IScalar (num_layers neox_args));
    ("hidden_size", IScalar (hidden_size neox_args));
    ("num_attention_heads", IScalar (num_attention_heads neox_args));
    ("max_position_embeddings", IScalar (max_position_embeddings neox_args));
    ("make_vocab_size_divisible_by",
       IScalar (make_vocab_size_divisible_by neox_args));
    ("padded_vocab_size", IScalar (SInt (padded_vocab_size neox_args)));
    ("tokenizer_type", IScalar (tokenizer_type neox_args));
    ("model_parallel_size", IScalar (model_parallel_size neox_args)) ].

Definition option_item (o : option tensor) : item :=
  match o with
  | Some t => ITensor t
  | None => IScalar SNone
  end.

(** [model.save_checkpoint(path, client_state=sd)]: the call is recorded
    and the engine writes its files. *)
Definition model_save_checkpoint (path : string) (sd : gmap string value) : M unit :=
  modify (with_engine_saved (fun l => (l ++ [(path, sd)])%list)) >>
  modify (with_fs (model_save_files env path sd)).

Definition save_ds_checkpoint (iteration : Z) (neox_args : NeoXArgs) : M unit :=
  let sd : gmap string value :=
    <["args" := VDict (architecture_args neox_args)]>
      (<["iteration" := VScalar (SInt iteration)]> ∅) in
  let! sd :=
    if negb (no_save_rng neox_args) then
      let! r := get rng in
      ret (<["rng_tracker_states" := VState (rng_tracker_states r)]>
          (<["cuda_rng_state" := VState (cuda_rng_state r)]>
          (<["torch_rng_state" := VState (torch_rng_state r)]>
          (<["np_rng_state" := VState (np_rng_state r)]>
          (<["random_rng_state" := VState (random_rng_state r)]> sd)))))
    else ret sd in
  let! sd :=
    if checkpoint_validation_with_forward_pass neox_args then
      let! r := do_forward_pass neox_args (IScalar SNone) in
      ret (<["checkpoint_validation" :=
               VDict [ ("context_tokens", ITensor (fst r));
                       ("logits", option_item (snd r)) ]]> sd)
    else ret sd in
  model_save_checkpoint (save neox_args) sd.

Definition save_checkpoint (neox_args : NeoXArgs) (iteration : Z) : M unit :=
  (if deepspeed neox_args
   then save_ds_checkpoint iteration neox_args
   else raise (ValueError "Must be using deepspeed to use neox")) >>
  barrier >>
  match keep_last_n_checkpoints neox_args with
  | Some n => delete_old_checkpoints (save neox_args) n
  | None => ret tt
  end >>
  barrier.

(** *** load_checkpoint *)

Definition scalar_truthy (a : scalar) : bool :=
  match a with
  | SNone => false
  | SBool b => b
  | SInt z => negb (z =? 0)
  | SStr s => negb (String.eqb s "")
  end.

Definition truthy (v : value) : bool :=
  match v with
  | VScalar a => scalar_truthy a
  | VDict d => match d with [] => false | _ :: _ => true end
  | VState _ => true
  end.

(** [d.get(k)] *)
Definition state_get (d : gmap string value) (k : string) : value :=
  default (VScalar SNone) (d !! k).

(** [a or b] *)
Definition py_or (a b : value) : value := if truthy a then a else b.

Definition is_none (v : value) : bool :=
  match v with
  | VScalar SNone => true
  | _ => false
  end.

(** [d[k]] on the state dict *)
Definition state_subscript (d : gmap string value) (k : string) : M value :=
  match d !! k with
  | Some v => ret v
  | None => raise (KeyError k)
  end.

(** [v[k]] on a value taken from the state dict *)
Definition value_subscript (v : value) (k : string) : M item :=
  match v with
  | VDict d =>
      match dict_get k d with
      | Some i => ret i
      | None => raise (KeyError k)
      end
  | _ => raise (TypeError "object is not subscriptable")
  end.

(** A generator's [setstate]; only a generator state is accepted. *)
Definition set_state (update : N -> RngBundle -> RngBundle) (v : value) : M unit :=
  match v with
  | VState n => modify (with_rng (update n))
  | _ => raise (TypeError "not a generator state")
  end.

Definition restore_rng (state_dict : gmap string value) : M unit :=
  (let! v := state_subscript state_dict "random_rng_state" in set_state set_random v) >>
  (let! v := state_subscript state_dict "np_rng_state" in set_state set_np v) >>
  (let! v := state_subscript state_dict "torch_rng_state" in set_state set_torch v) >>
  (let! v := state_subscript state_dict "cuda_rng_state" in set_state set_cuda v) >>
  (let! v := state_subscript state_dict "rng_tracker_states" in set_state set_tracker v).

Definition missing_iteration_message (checkpoint_name : string) : string :=
  "Unable to load iteration from checkpoint " +:+ checkpoint_name +:+ ", exiting".

Definition missing_rng_message (checkpoint_name : string) : string :=
  "Unable to load optimizer from checkpoint " +:+ checkpoint_name +:+ ". "
    +:+ "Specify --no-load-rng or --finetune to prevent "
    +:+ "attempting to load the optimizer state, "
    +:+ "exiting ...".

Definition missing_validation_message (checkpoint_name : string) : string :=
  " > WARNING: checkpoint_validation_with_forward_pass is configured but no checkpoint validation data available in checkpoint "
    +:+ checkpoint_name.

Definition exit_on_key_error (checkpoint_name : string) (e : exn) : option (M unit) :=
  match e with
  | KeyError _ =>
      Some (print_rank_0 (missing_rng_message checkpoint_name) >> raise SystemExit)
  | _ => None
  end.

(** The four steps of [load_checkpoint] that run once the engine has
    found a checkpoint, under the comments that head them in the source. *)

(** Set iteration. *)
Definition resolve_iteration (neox_args : NeoXArgs) (checkpoint_name : string)
    (state_dict : gmap string value) : M value :=
  if finetune neox_args then ret (VScalar (SInt 0))
  else
    let iteration :=
      py_or (state_get state_dict "iteration") (state_get state_dict "total_iters") in
    if is_none iteration
    then raise (ValueError (missing_iteration_message checkpoint_name))
    else ret iteration.

Definition args_validated : string :=
  " > validated currently set args with arguments in the checkpoint ...".

Definition args_not_found : string :=
  " > could not find arguments in the checkpoint for validation...".

(** Check arguments. *)
Definition validate_args (neox_args : NeoXArgs) (state_dict : gmap string value)
    : M unit :=
  match state_dict !! "args" with
  | Some checkpoint_args =>
      check_checkpoint_args neox_args checkpoint_args >>
      print_rank_0 args_validated
  | None => print_rank_0 args_not_found
  end.

(** Check loaded checkpoint with forward pass. *)
Definition validate_forward (neox_args : NeoXArgs) (checkpoint_name : string)
    (state_dict : gmap string value) : M unit :=
  if checkpoint_validation_with_forward_pass neox_args then
    match state_dict !! "checkpoint_validation" with
    | Some validation =>
        let! checkpoint_context_tokens := value_subscript validation "context_tokens" in
        let! checkpoint_logits := value_subscript validation "logits" in
        check_forward_pass neox_args checkpoint_context_tokens checkpoint_logits >>
        print_rank_0 " > validated loaded checkpoint with forward pass ..."
    | None =>
        if get_data_parallel_rank env =? 0
        then print (missing_validation_message checkpoint_name)
        else ret tt
    end
  else ret tt.

(** rng states. *)
Definition restore_rng_states (neox_args : NeoXArgs) (checkpoint_name : string)
    (state_dict : gmap string value) : M unit :=
  if negb (finetune neox_args) && negb (no_load_rng neox_args)
  then try_except (restore_rng state_dict) (exit_on_key_error checkpoint_name)
  else ret tt.

Definition load_found (neox_args : NeoXArgs) (checkpoint_name : string)
    (state_dict : gmap string value) : M value :=
  let! iteration := resolve_iteration neox_args checkpoint_name state_dict in
  validate_args neox_args state_dict >>
  validate_forward neox_args checkpoint_name state_dict >>
  restore_rng_states neox_args checkpoint_name state_dict >>
  barrier >>
  (if get_data_parallel_rank env =? 0
   then print ("  successfully loaded " +:+ checkpoint_name)
   else ret tt) >>
  ret iteration.

Definition load_checkpoint (neox_args : NeoXArgs) : M value :=
  if deepspeed neox_args then
    let load_optim_and_scheduler := negb (no_load_optim neox_args) in
    let '(checkpoint_name, state_dict) :=
      model_load_checkpoint env (load neox_args)
        load_optim_and_scheduler load_optim_and_scheduler in
    match checkpoint_name with
    | None =>
        (if get_data_parallel_rank env =? 0
         then print "Unable to load checkpoint."
         else ret tt) >>
        ret (VScalar (SInt 0))
    | Some checkpoint_name => load_found neox_args checkpoint_name state_dict
    end
  else raise (ValueError "Must be using deepspeed to use neox").

End Checkpointing.

Arguments load_checkpoint {_} env neox_args w.
Arguments load_found {_} env neox_args checkpoint_name state_dict w.
Arguments save_checkpoint {_} env neox_args iteration w.
Arguments save_ds_checkpoint {_} env iteration neox_args w.
Arguments delete_old_checkpoints {_} env save_dir n_to_keep w.
Arguments do_forward_pass {_} env neox_args context_tokens w.
Arguments check_forward_pass {_} env neox_args checkpoint_context_tokens checkpoint_logits w.
Arguments check_checkpoint_args {_} neox_args checkpoint_args w.
Arguments validate_args {_} env neox_args state_dict w.
Arguments validate_forward {_} env neox_args checkpoint_name state_dict w.
Arguments resolve_iteration {_} neox_args checkpoint_name state_dict w.
Arguments restore_rng_states {_} env neox_args checkpoint_name state_dict w.

(** ** A concrete instance, for running the definitions *)

Module Sample.

(** Tensors of integers, compared with the tolerances [torch.isclose]
    defaults to ([rtol] 1e-05, [atol] 1e-08), both sides scaled by 1e8. *)
Definition close (a b : Z) : bool :=
  100000000 * Z.abs (a - b) <=? 1 + 1000 * Z.abs b.

Fixpoint all2 (f : Z -> Z -> bool) (a b : list Z) : bool :=
  match a, b with
  | [], [] => true
  | x :: a', y :: b' => f x y && all2 f a' b'
  | _, _ => false
  end.

#[global] Instance int_tensors : Torch := {|
  tensor := list Z;
  tensor_equal_all := all2 Z.eqb;
  tensor_equal_all_number := fun a n => forallb (fun x => x =? n) a;
  tensor_isclose_all := all2 close;
  tensor_eq_scalar_truth := fun a x =>
    match a, x with
    | [y], SInt n => Ok (y =? n)
    | [y], SBool b => Ok (y =? (if b then 1 else 0))
    | _, _ => Raise (RuntimeError "Boolean value of Tensor is ambiguous")
    end;
  tensor_str := fun a => "tensor([" +:+ PyStr.join ", " (PyStr.of_Z <$> a) +:+ "])";
  to_int64 := id;
  cuda := id;
  detach_cpu := id;
|}.

Definition args : NeoXArgs := {|
  deepspeed := true;
  no_load_optim := false;
  load := "ckpts";
  save := "ckpts";
  finetune := false;
  no_load_rng := false;
  no_save_rng := false;
  checkpoint_validation_with_forward_pass := false;
  keep_last_n_checkpoints := Some 2;
  is_pipe_parallel := false;
  seq_length := 2048;
  padded_vocab_size := 50304;
  num_layers := SInt 12;
  hidden_size := SInt 768;
  num_attention_heads := SInt 12;
  max_position_embeddings := SInt 2048;
  make_vocab_size_divisible_by := SInt 128;
  tokenizer_type := SStr "GPT2BPETokenizer";
  model_parallel_size := SInt 1;
  other_attrs := [];
|}.

Definition set_finetune (b : bool) (a : NeoXArgs) : NeoXArgs := {|
  deepspeed := deepspeed a; no_load_optim := no_load_optim a;
  load := load a; save := save a; finetune := b;
  no_load_rng := no_load_rng a; no_save_rng := no_save_rng a;
  checkpoint_validation_with_forward_pass :=
    checkpoint_validation_with_forward_pass a;
  keep_last_n_checkpoints := keep_last_n_checkpoints a;
  is_pipe_parallel := is_pipe_parallel a; seq_length := seq_length a;
  padded_vocab_size := padded_vocab_size a; num_layers := num_layers a;
  hidden_size := hidden_size a; num_attention_heads := num_attention_heads a;
  max_position_embeddings := max_position_embeddings a;
  make_vocab_size_divisible_by := make_vocab_size_divisible_by a;
  tokenizer_type := tokenizer_type a;
  model_parallel_size := model_parallel_size a; other_attrs := other_attrs a;
|}.

Definition set_keep (k : option Z) (a : NeoXArgs) : NeoXArgs := {|
  deepspeed := deepspeed a; no_load_optim := no_load_optim a;
  load := load a; save := save a; finetune := finetune a;
  no_load_rng := no_load_rng a; no_save_rng := no_save_rng a;
  checkpoint_validation_with_forward_pass :=
    checkpoint_validation_with_forward_pass a;
  keep_last_n_checkpoints := k;
  is_pipe_parallel := is_pipe_parallel a; seq_length := seq_length a;
  padded_vocab_size := padded_vocab_size a; num_layers := num_layers a;
  hidden_size := hidden_size a; num_attention_heads := num_attention_heads a;
  max_position_embeddings := max_position_embeddings a;
  make_vocab_size_divisible_by := make_vocab_size_divisible_by a;
  tokenizer_type := tokenizer_type a;
  model_parallel_size := model_parallel_size a; other_attrs := other_attrs a;
|}.

Definition set_validation (b : bool) (a : NeoXArgs) : NeoXArgs := {|
  deepspeed := deepspeed a; no_load_optim := no_load_optim a;
  load := load a; save := save a; finetune := finetune a;
  no_load_rng := no_load_rng a; no_save_rng := no_save_rng a;
  checkpoint_validation_with_forward_pass := b;
  keep_last_n_checkpoints := keep_last_n_checkpoints a;
  is_pipe_parallel := is_pipe_parallel a; seq_length := seq_length a;
  padded_vocab_size := padded_vocab_size a; num_layers := num_layers a;
  hidden_size := hidden_size a; num_attention_heads := num_attention_heads a;
  max_position_embeddings := max_position_embeddings a;
  make_vocab_size_divisible_by := make_vocab_size_divisible_by a;
  tokenizer_type := tokenizer_type a;
  model_parallel_size := model_parallel_size a; other_attrs := other_attrs a;
|}.

Definition set_num_layers (n : scalar) (a : NeoXArgs) : NeoXArgs := {|
  deepspeed := deepspeed a; no_load_optim := no_load_optim a;
  load := load a; save := save a; finetune := finetune a;
  no_load_rng := no_load_rng a; no_save_rng := no_save_rng a;
  checkpoint_validation_with_forward_pass :=
    checkpoint_validation_with_forward_pass a;
  keep_last_n_checkpoints := keep_last_n_checkpoints a;
  is_pipe_parallel := is_pipe_parallel a; seq_length := seq_length a;
  padded_vocab_size := padded_vocab_size a; num_layers := n;
  hidden_size := hidden_size a; num_attention_heads := num_attention_heads a;
  max_position_embeddings := max_position_embeddings a;
  make_vocab_size_divisible_by := make_vocab_size_divisible_by a;
  tokenizer_type := tokenizer_type a;
  model_parallel_size := model_parallel_size a; other_attrs := other_attrs a;
|}.

Definition set_pipe_parallel (b : bool) (a : NeoXArgs) : NeoXArgs := {|
  deepspeed := deepspeed a; no_load_optim := no_load_optim a;
  load := load a; save := save a; finetune := finetune a;
  no_load_rng := no_load_rng a; no_save_rng := no_save_rng a;
  checkpoint_validation_with_forward_pass :=
    checkpoint_validation_with_forward_pass a;
  keep_last_n_checkpoints := keep_last_n_checkpoints a;
  is_pipe_parallel := b; seq_length := seq_length a;
  padded_vocab_size := padded_vocab_size a; num_layers := num_layers a;
  hidden_size := hidden_size a; num_attention_heads := num_attention_heads a;
  max_position_embeddings := max_position_embeddings a;
  make_vocab_size_divisible_by := make_vocab_size_divisible_by a;
  tokenizer_type := tokenizer_type a;
  model_parallel_size := model_parallel_size a; other_attrs := other_attrs a;
|}.

(** An engine that is at step 13: a save writes the directory of that
    step, one file in it, and the [latest] marker, as far as they are not
    there yet. *)
Definition engine_files (path : string) (sd : gmap string value)
    (f : list (string * bool)) : list (string * bool) :=
  (f ++ List.filter
          (fun e => negb (existsb (fun e' => String.eqb (fst e') (fst e)) f))
          [ (path +:+ "/global_step13", true);
            (path +:+ "/global_step13/mp_rank_00_model_states.pt", false);
            (path +:+ "/latest", false) ])%list.

(** Directory patterns as far as the examples need them: [ck[1]pts], in
    which the bracket stands for the character it holds, finds the
    directory [ck1pts] when there is one; no other pattern finds
    anything. *)
Definition glob_dirs_sample (pattern : string) (f : list (string * bool))
    : list string :=
  if String.eqb pattern "ck[1]pts"
  then (if existsb (fun e => String.eqb (fst e) "ck1pts" && snd e) f
        then ["ck1pts"] else [])
  else [].

(** A process of rank 0 whose model answers every input with [logits] (or
    fails with [failure]), and whose engine returns [found]. *)
Definition env_with (logits : outcome (list Z))
    (found : option string * gmap string value)
    (fault : string -> option exn) : Env := {|
  get_rank := 0;
  get_data_parallel_rank := 0;
  get_model_parallel_rank := 0;
  get_model_parallel_src_rank := 0;
  randint := fun g _ _ _ => ([1; 2; 3; 4], N.succ g);
  broadcast := fun t _ => t;
  get_batch := fun _ t => (t, t, t);
  model_eval_batch := fun _ =>
    match logits with Ok l => Ok (Some l) | Raise e => Raise e end;
  model_call := fun _ => logits;
  model_is_last_stage := true;
  model_load_checkpoint := fun _ _ _ => found;
  model_save_files := engine_files;
  glob_dirs := glob_dirs_sample;
  rmtree_fault := fault;
|}.

(** A process on a pipeline stage that is not the last one: its
    [eval_batch] yields no logits. *)
Definition env_inner_stage : Env := {|
  get_rank := 0;
  get_data_parallel_rank := 0;
  get_model_parallel_rank := 0;
  get_model_parallel_src_rank := 0;
  randint := fun g _ _ _ => ([1; 2; 3; 4], N.succ g);
  broadcast := fun t _ => t;
  get_batch := fun _ t => (t, t, t);
  model_eval_batch := fun _ => Ok None;
  model_call := fun _ => Raise (RuntimeError "not called under pipeline parallelism");
  model_is_last_stage := false;
  model_load_checkpoint := fun _ _ _ => (None, ∅);
  model_save_files := engine_files;
  glob_dirs := glob_dirs_sample;
  rmtree_fault := fun _ => None;
|}.

Definition no_fault : string -> option exn := fun _ => None.

(** The operating system fails the removal of [p] with [e]. *)
Definition fault_on (p : string) (e : exn) : string -> option exn :=
  fun q => if String.eqb q p then Some e else None.

Definition rng0 : RngBundle := {|
  random_rng_state := 1; np_rng_state := 2; torch_rng_state := 3;
  cuda_rng_state := 4; rng_tracker_states := 5;
|}.

(** A save directory with five checkpoint directories, listed out of
    order, each holding a file, next to a plain file and a directory that
    is not a checkpoint. *)
Definition world0 : World := {|
  stdout := [];
  training := true;
  rng := rng0;
  fs := [ ("ckpts/global_step10", true);
          ("ckpts/global_step9", true);
          ("ckpts/global_step12", true);
          ("ckpts/latest", false);
          ("ckpts/global_step8", true);
          ("ckpts/global_step11", true);
          ("ckpts/configs", true);
          ("ckpts/global_step8/mp_rank_00_model_states.pt", false);
          ("ckpts/global_step9/mp_rank_00_model_states.pt", false);
          ("ckpts/global_step10/mp_rank_00_model_states.pt", false);
          ("ckpts/global_step11/mp_rank_00_model_states.pt", false);
          ("ckpts/global_step12/mp_rank_00_model_states.pt", false) ];
  rmtree_calls := [];
  barriers := 0;
  engine_saved := [];
|}.

(** A save directory whose own path contains [global_step]. *)
Definition world_sweep : World := {|
  stdout := [];
  training := true;
  rng := rng0;
  fs := [ ("runs/global_step_sweep/logs", true);
          ("runs/global_step_sweep/configs", true);
          ("runs/global_step_sweep/global_step100", true);
          ("runs/global_step_sweep/notes.txt", false) ];
  rmtree_calls := [];
  barriers := 0;
  engine_saved := [];
|}.


(** Five checkpoint directories under an absolute save directory. *)
Definition world_absolute : World := {|
  stdout := [];
  training := true;
  rng := rng0;
  fs := [ ("/data/ckpts/global_step1", true);
          ("/data/ckpts/global_step2", true);
          ("/data/ckpts/global_step3", true);
          ("/data/ckpts/global_step4", true);
          ("/data/ckpts/global_step5", true) ];
  rmtree_calls := [];
  barriers := 0;
  engine_saved := [];
|}.

(** Two runs side by side, the name of one of them with brackets in it. *)
Definition world_brackets : World := {|
  stdout := [];
  training := true;
  rng := rng0;
  fs := [ ("ck1pts", true);
          ("ck1pts/global_step1", true);
          ("ck[1]pts", true);
          ("ck[1]pts/global_step1", true) ];
  rmtree_calls := [];
  barriers := 0;
  engine_saved := [];
|}.

(** Client states as a load may receive them. *)
Definition sd_iteration (it : scalar) : gmap string value :=
  <["iteration" := VScalar it]> ∅.

Definition sd_full (it : Z) : gmap string value :=
  <["rng_tracker_states" := VState 15]>
    (<["cuda_rng_state" := VState 14]>
    (<["torch_rng_state" := VState 13]>
    (<["np_rng_state" := VState 12]>
    (<["random_rng_state" := VState 11]>
    (<["args" := VDict (architecture_args args)]>
    (<["iteration" := VScalar (SInt it)]> ∅)))))).

(** The client state that a save at iteration [it] hands to the engine,
    starting from [world0]. *)
Definition saved_client_state (it : Z) : gmap string value :=
  match engine_saved
          (snd (save_ds_checkpoint (env_with (Ok [1]) (None, ∅) no_fault)
                  it args world0)) with
  | [(_, sd)] => sd
  | _ => ∅
  end.

(** Further variations of [args]. *)
Definition set_rng_flags (no_save no_load : bool) (a : NeoXArgs) : NeoXArgs := {|
  deepspeed := deepspeed a; no_load_optim := no_load_optim a;
  load := load a; save := save a; finetune := finetune a;
  no_load_rng := no_load; no_save_rng := no_save;
  checkpoint_validation_with_forward_pass :=
    checkpoint_validation_with_forward_pass a;
  keep_last_n_checkpoints := keep_last_n_checkpoints a;
  is_pipe_parallel := is_pipe_parallel a; seq_length := seq_length a;
  padded_vocab_size := padded_vocab_size a; num_layers := num_layers a;
  hidden_size := hidden_size a; num_attention_heads := num_attention_heads a;
  max_position_embeddings := max_position_embeddings a;
  make_vocab_size_divisible_by := make_vocab_size_divisible_by a;
  tokenizer_type := tokenizer_type a;
  model_parallel_size := model_parallel_size a; other_attrs := other_attrs a;
|}.


(** A world whose generators are in other states than those of [world0]. *)
Definition world_fresh : World := {|
  stdout := [];
  training := true;
  rng := {| random_rng_state := 91; np_rng_state := 92; torch_rng_state := 93;
            cuda_rng_state := 94; rng_tracker_states := 95 |};
  fs := [];
  rmtree_calls := [];
  barriers := 0;
  engine_saved := [];
|}.

(** A stand-in for [os.makedirs] that refuses the empty path, as the
    operating system does, and otherwise records the directory itself. *)
Definition makedirs_leaf (d : string) : M unit :=
  if String.eqb d "" then raise (FileNotFoundError "")
  else modify (with_fs (fun f => (f ++ [(d, true)])%list)).

End Sample.

(** ** ensure_directory_exists *)

(** The part of [p] up to and including its last slash; empty when [p]
    holds no slash. *)
Fixpoint head_to_last_slash (p : string) : string :=
  match p with
  | "" => ""
  | String a p' =>
      let h := head_to_last_slash p' in
      if (Ascii.eqb a "/" || negb (String.eqb h ""))%bool then String a h else ""
  end.

(** [os.path.dirname(p)] (posixpath): the head up to the last slash,
    without its trailing slashes unless it consists of slashes only. *)
Definition os_path_dirname (p : string) : string :=
  let head := head_to_last_slash p in
  if (negb (String.eqb head "") && negb (only_slashes head))%bool
  then PyStr.rstrip "/" head
  else head.

(** [os.path.exists(p)]; the empty path never exists. *)
Definition path_exists `{Torch} (w : World) (p : string) : bool :=
  negb (String.eqb p "") && existsb (fun e => String.eqb (fst e) p) (fs w).

(** [os.makedirs] is the operating system's and is passed in. *)
Definition ensure_directory_exists `{Torch} (makedirs : string -> M unit)
    (filename : string) : M unit :=
  let dirname := os_path_dirname filename in
  bind (get (fun w => path_exists w dirname)) (fun present =>
    if negb present then makedirs dirname else ret tt).

(** ** train_pipeline.py: prepare_dataset *)


(** ** benchmarking/gpt-benchmark.py: benchmark_model *)

Module Benchmark.

(** [s.split(sep)] for a one-character separator, with [cur] the piece
    being read (reversed). *)
Fixpoint split_go (sep : ascii) (cur : string) (s : string) : list string :=
  match s with
  | "" => [String.rev cur]
  | String a s' =>
      if Ascii.eqb a sep then String.rev cur :: split_go sep "" s'
      else split_go sep (String a cur) s'
  end.

Definition split (sep : ascii) (s : string) : list string := split_go sep "" s.

(** [l[-1]] and [l[1]] on the result of a split, which is never empty;
    [None] stands for [IndexError]. *)
Definition last_piece (l : list string) : option string := List.last (Some <$> l) None.
Definition second_piece (l : list string) : option string := l !! 1%nat.

Inductive dtype := Int8 | Float16 | Float32.

(** [str(dtype)] of a torch dtype. *)
Definition dtype_str (d : dtype) : string :=
  match d with
  | Int8 => "torch.int8"
  | Float16 => "torch.float16"
  | Float32 => "torch.float32"
  end.

(** The [if dtype == "int8" ... else] cascade. *)
Definition parse_dtype (name : string) : dtype :=
  if String.eqb name "int8" then Int8
  else if String.eqb name "fp16" then Float16
  else Float32.

Definition py_bool_str (b : bool) : string := if b then "True" else "False".

(** Python floats, as far as the function computes with them. *)
Class Floats := {
  float : Type;
  (** [t / n] for a non-zero integer [n] *)
  fdiv : float -> Z -> float;
}.

Inductive error :=
| ZeroDivisionError
| UnboundLocalError (name : string)
| IndexError
| LibraryError (msg : string).

Inductive result (A : Type) :=
| Done (a : A)
| Fail (e : error).
Arguments Done {A} a.
Arguments Fail {A} e.

(** A [pandas.DataFrame]: column names and rows. *)
Record frame `{Floats} := {
  columns : list string;
  rows : list (list float);
}.

(** What the function leaves behind. *)
Record State `{Floats} := {
  printed : list string;              (** lines written by [print] *)
  generations : nat;                  (** calls of the text-generation pipeline *)
  made_dirs : list string;            (** [os.makedirs(path, exist_ok=True)] calls *)
  csv_files : list (string * frame);  (** [df.to_csv(path, index=False)] calls *)
}.

(** The libraries: how long the [i]-th generation takes end to end, the
    model time deepspeed reports for it, or the error it raises. *)
Record Lib `{Floats} := {
  (** [pipeline("text-generation", model=model, framework="pt",
      device=local_rank)] *)
  make_pipeline : string -> Z -> result unit;
  (** [deepspeed.init_inference(...)] and [profile_model_time()] *)
  init_inference : result unit;
  (** the outcome of the [i]-th generation of the process: the time between
      [start] and [end] *)
  generate : nat -> result float;
  (** [sum(pipe.model.model_times())] after the [i]-th generation *)
  model_time : nat -> float;
}.

Definition B `{Floats} (A : Type) : Type := State -> result A * State.

Definition bret `{Floats} {A} (a : A) : B A := fun s => (Done a, s).
Definition bfail `{Floats} {A} (e : error) : B A := fun s => (Fail e, s).
Definition bbind `{Floats} {A C} (c : B A) (k : A -> B C) : B C :=
  fun s =>
    match c s with
    | (Done a, s') => k a s'
    | (Fail e, s') => (Fail e, s')
    end.

Notation "'do!' x ':=' c 'in' k" := (bbind c (fun x => k))
  (at level 10, x name, c at level 100, k at level 200).
Notation "c '>>>' k" := (bbind c (fun _ => k))
  (at level 90, right associativity).

Definition bprint `{Floats} (line : string) : B unit :=
  fun s => (Done tt,
            {| printed := (printed s ++ [line])%list; generations := generations s;
               made_dirs := made_dirs s; csv_files := csv_files s |}).

Definition makedirs_exist_ok `{Floats} (path : string) : B unit :=
  fun s => (Done tt,
            {| printed := printed s; generations := generations s;
               made_dirs := (made_dirs s ++ [path])%list; csv_files := csv_files s |}).

Definition to_csv `{Floats} (df : frame) (path : string) : B unit :=
  fun s => (Done tt,
            {| printed := printed s; generations := generations s;
               made_dirs := made_dirs s;
               csv_files := (csv_files s ++ [(path, df)])%list |}).

Definition blift `{Floats} {A} (r : result A) : B A := fun s => (r, s).

(** One pass of the trial loop: the generation, timed; the answer carries
    the number of the generation. *)
Definition trial `{Floats} (lib : Lib) : B (nat * float) :=
  fun s =>
    (match generate lib (generations s) with
     | Done t => Done (generations s, t)
     | Fail e => Fail e
     end,
     {| printed := printed s; generations := S (generations s);
        made_dirs := made_dirs s; csv_files := csv_files s |}).

(** [for i in range(trials)]: the end-to-end times and, with deepspeed,
    the model times. *)
Fixpoint trials_loop `{Floats} (lib : Lib) (use_deepspeed : bool) (n : nat)
    (times mtimes : list float) : B (list float * list float) :=
  match n with
  | O => bret (times, mtimes)
  | S n' =>
      do! r := trial lib in
      let mtimes' :=
        if use_deepspeed then (mtimes ++ [model_time lib (fst r)])%list else mtimes in
      trials_loop lib use_deepspeed n' (times ++ [snd r])%list mtimes'
  end.

(** [list(map(lambda t: t / (max_tokens - 3), times))] *)
Definition per_token `{Floats} (max_tokens : Z) (times : list float) : B (list float) :=
  match times with
  | [] => bret []
  | _ :: _ =>
      if max_tokens - 3 =? 0 then bfail ZeroDivisionError
      else bret ((fun t => fdiv t (max_tokens - 3)) <$> times)
  end.

(** [np.vstack((a, b)).T] and [np.vstack((a, b, c)).T] on lists of one
    length: the rows of the transposed array. *)
Fixpoint rows2 {A} (a b : list A) : list (list A) :=
  match a, b with
  | x :: a', y :: b' => [x; y] :: rows2 a' b'
  | _, _ => []
  end.

Fixpoint rows3 {A} (a b c : list A) : list (list A) :=
  match a, b, c with
  | x :: a', y :: b', z :: c' => [x; y; z] :: rows3 a' b' c'
  | _, _, _ => []
  end.

Definition settings_lines (model : string) (max_tokens : Z) (dtype_name : string)
    (graphs kernel_inject : bool) (world_size : Z) : list string :=
  [ "BENCHMARK SETTINGS:";
    PyStr.tab +:+ "MODEL: " +:+ model;
    PyStr.tab +:+ "MAX_TOKENS: " +:+ PyStr.of_Z max_tokens;
    PyStr.tab +:+ "DTYPE: " +:+ dtype_name;
    PyStr.tab +:+ "CUDA_GRAPHS: " +:+ py_bool_str graphs;
    PyStr.tab +:+ "KERNEL_INJECT: " +:+ py_bool_str kernel_inject;
    PyStr.tab +:+ "WORLD_SIZE: " +:+ PyStr.of_Z world_size ].

Fixpoint print_all `{Floats} (lines : list string) : B unit :=
  match lines with
  | [] => bret tt
  | l :: lines' => bprint l >>> print_all lines'
  end.

(** The directory the result goes to. *)
Definition world_size_dir (output_dir : string) (use_deepspeed : bool)
    (max_tokens world_size : Z) : string :=
  let deepspeed_str := if use_deepspeed then "deepspeed" else "hf" in
  let deepspeed_dir := path_join output_dir [deepspeed_str] in
  let max_tokens_dir :=
    path_join deepspeed_dir ["max_tokens_" +:+ PyStr.of_Z max_tokens] in
  path_join max_tokens_dir ["world_size_" +:+ PyStr.of_Z world_size].

(** The file name inside it; [None] stands for an [IndexError] of one of
    the two subscripts. *)
Definition csv_name (model : string) (d : dtype) : option string :=
  match last_piece (split "/" model), second_piece (split "." (dtype_str d)) with
  | Some m, Some t => Some (m +:+ "_" +:+ t +:+ "_benchmark.csv")
  | _, _ => None
  end.

(** The part of [benchmark_model] after the trial loop: the table, the
    output directory, the file. *)
Definition report `{Floats} (model output_dir : string) (use_deepspeed : bool)
    (d : dtype) (max_tokens local_rank world_size : Z)
    (times mtimes : list float) : B frame :=
  do! for_dataframe :=
    (do! per := per_token max_tokens times in
     if use_deepspeed
     then bret {| columns := ["(e2e) latency"; "(model-only) latency";
                              "(e2e) per token latency"];
                  rows := rows3 times mtimes per |}
     else bret {| columns := ["(e2e) latency"; "(e2e) per token latency"];
                  rows := rows2 times per |}) in
  let df := if local_rank =? 0 then Some for_dataframe else None in
  let dir := world_size_dir output_dir use_deepspeed max_tokens world_size in
  makedirs_exist_ok dir >>>
  do! fname :=
    match csv_name model d with
    | Some name => bret (path_join dir [name])
    | None => bfail IndexError
    end in
  bprint ("saving benchmark to " +:+ fname) >>>
  match df with
  | Some df => to_csv df fname >>> bret df
  | None => bfail (UnboundLocalError "df")
  end.

(** [deepspeed.init_distributed()], [pipe.model.half()] and the
    accelerator's [synchronize()] leave nothing behind that the function
    reads and are left out. *)
Definition benchmark_model `{Floats} (lib : Lib) (model output_dir : string)
    (use_deepspeed : bool) (dtype_name : string) (graphs kernel_inject : bool)
    (max_tokens local_rank world_size trials : Z) : B frame :=
  (if local_rank =? 0
   then print_all (settings_lines model max_tokens dtype_name graphs kernel_inject
                     world_size)
   else bret tt) >>>
  let d := parse_dtype dtype_name in
  blift (make_pipeline lib model local_rank) >>>
  bprint "" >>>
  (if use_deepspeed then blift (init_inference lib) else bret tt) >>>
  do! collected := trials_loop lib use_deepspeed (Z.to_nat trials) [] [] in
  report model output_dir use_deepspeed d max_tokens local_rank world_size
    (fst collected) (snd collected).

(** The path of the file a run writes. *)
Definition csv_path (output_dir : string) (use_deepspeed : bool)
    (max_tokens world_size : Z) (model dtype_name : string) : option string :=
  match csv_name model (parse_dtype dtype_name) with
  | Some name =>
      Some (path_join (world_size_dir output_dir use_deepspeed max_tokens world_size)
              [name])
  | None => None
  end.

End Benchmark.

(** Times in whole microseconds, for running [benchmark_model]. *)
Module BenchmarkSample.

#[global] Instance micros : Benchmark.Floats := {|
  Benchmark.float := Z;
  Benchmark.fdiv := Z.div;
|}.

(** Libraries that never fail: each generation takes a second more than
    the one before. *)
Definition lib : Benchmark.Lib := {|
  Benchmark.make_pipeline := fun _ _ => Benchmark.Done tt;
  Benchmark.init_inference := Benchmark.Done tt;
  Benchmark.generate := fun i => Benchmark.Done (1000000 * (Z.of_nat i + 1));
  Benchmark.model_time := fun i => 900000 * (Z.of_nat i + 1);
|}.

Definition start : Benchmark.State := {|
  Benchmark.printed := [];
  Benchmark.generations := 0;
  Benchmark.made_dirs := [];
  Benchmark.csv_files := [];
|}.

End BenchmarkSample.

(** ** Notions used to state the properties *)

(** An entry of the checkpoint's ['args'] that is a scalar, names an
    attribute of the configuration and equals it. *)
Definition entry_agrees `{Torch} (neox_args : NeoXArgs) (kv : string * item) : bool :=
  match snd kv, getattr neox_args (fst kv) with
  | IScalar a, Some args_value => py_eq a args_value
  | _, _ => false
  end.

(** What a successful [shutil.rmtree(p)] leaves of the file system. *)
Definition rmtree_effect (p : string) (f : list (string * bool)) : list (string * bool) :=
  if existsb (fun e => String.eqb (fst e) p) f
  then List.filter (fun e =>
         negb (String.eqb (fst e) p || PyStr.startswith (p +:+ "/") (fst e))) f
  else f.

(** A removal that does not stop the retention loop: no injected error, or
    the missing-directory one. *)
Definition tolerated `{Torch} (env : Env) (p : string) : bool :=
  match rmtree_fault env p with
  | None | Some (FileNotFoundError _) => true
  | Some _ => false
  end.

(** The file system after the loop has dealt with [p]. *)
Definition removal `{Torch} (env : Env) (f : list (string * bool)) (p : string)
    : list (string * bool) :=
  match rmtree_fault env p with
  | None => rmtree_effect p f
  | Some _ => f
  end.

(** The oldest entries of [all_ckpts] beyond the [keep_n] newest. *)
Definition oldest_beyond `{Torch} (env : Env) (w : World) (save_dir : string)
    (keep_n : Z) : list string :=
  let all := all_ckpts_in env w save_dir in
  take (Z.to_nat (Z.of_nat (length all) - keep_n)) all.

(** The number a string of decimal digits denotes, continuing from [acc]. *)
Fixpoint digits_value (s : string) (acc : N) : N :=
  match s with
  | "" => acc
  | String a s' => digits_value s' (10 * acc + NaturalSort.digit_val a)%N
  end.

Fixpoint all_chars (P : ascii -> bool) (s : string) : bool :=
  match s with
  | "" => true
  | String a s' => P a && all_chars P s'
  end.

Definition not_slash (a : ascii) : bool := negb (Ascii.eqb a "/").

(** What [os.path.join(root, ...)] starts with when no later component is
    absolute. *)
Definition join_base (root : string) : string :=
  if (String.eqb root "" || PyStr.endswith "/" root)%bool then root else root +:+ "/".

(** The rank a name is computed for. *)
Definition effective_rank (own_rank : Z) (mp_rank : option Z) : Z :=
  match mp_rank with
  | None => own_rank
  | Some r => r
  end.

(** The generator states once the forward pass has drawn its tokens. *)
Definition after_draw `{Torch} (env : Env) (neox_args : NeoXArgs) (r : RngBundle)
    : RngBundle :=
  set_torch
    (snd (randint env (torch_rng_state r) 0 (padded_vocab_size neox_args)
            (4, if is_pipe_parallel neox_args
                then seq_length neox_args + 1 else seq_length neox_args)))
    r.

(** Whether the forward pass draws its tokens: it is given [None]. *)
Definition draws `{Torch} (tokens : item) : bool :=
  match tokens with
  | IScalar SNone => true
  | _ => false
  end.

(** Whether validating a loaded record makes a draw: validation is on and
    the record stores [None] for its context tokens. *)
Definition validation_draws `{Torch} (neox_args : NeoXArgs) (sd : gmap string value)
    : bool :=
  checkpoint_validation_with_forward_pass neox_args &&
  match sd !! "checkpoint_validation" with
  | Some (VDict d) =>
      match dict_get "context_tokens" d, dict_get "logits" d with
      | Some tokens, Some _ => draws tokens
      | _, _ => false
      end
  | _ => false
  end.

(** A computation leaves the observation [f] of the world alone. *)
Definition frames `{Torch} {A B} (f : World -> B) (c : M A) : Prop :=
  forall w, f (snd (c w)) = f w.

(** The keys under which a record carries the generator states. *)
Definition rng_keys : list string :=
  [ "random_rng_state"; "np_rng_state"; "torch_rng_state"; "cuda_rng_state";
    "rng_tracker_states" ].

(** The generator states as a record carries them. *)
Definition with_rng_entries `{Torch} (r : RngBundle) (sd : gmap string value)
    : gmap string value :=
  <["rng_tracker_states" := VState (rng_tracker_states r)]>
    (<["cuda_rng_state" := VState (cuda_rng_state r)]>
    (<["torch_rng_state" := VState (torch_rng_state r)]>
    (<["np_rng_state" := VState (np_rng_state r)]>
    (<["random_rng_state" := VState (random_rng_state r)]> sd)))).

(** Iteration and architecture arguments, the entries every record has. *)
Definition base_entries `{Torch} (neox_args : NeoXArgs) (iteration : Z)
    : gmap string value :=
  <["args" := VDict (architecture_args neox_args)]>
    (<["iteration" := VScalar (SInt iteration)]> ∅).

(** * Properties *)

(** ** The computation monad *)

Section MonadFacts.
Context `{Torch}.

Lemma bind_ok {A B} (c : M A) (k : A -> M B) w a w' :
  c w = (Ok a, w') -> bind c k w = k a w'.
Proof. intros E. unfold bind. now rewrite E. Qed.

Lemma bind_raise {A B} (c : M A) (k : A -> M B) w e w' :
  c w = (Raise e, w') -> bind c k w = (Raise e, w').
Proof. intros E. unfold bind. now rewrite E. Qed.

Lemma frames_ret {A B} (f : World -> B) (a : A) : frames f (ret a).
Proof. now intros w. Qed.

Lemma frames_raise {A B} (f : World -> B) e : frames f (@raise _ A e).
Proof. now intros w. Qed.

Lemma frames_lift {A B} (f : World -> B) (o : outcome A) : frames f (lift o).
Proof. now intros w. Qed.

Lemma frames_get {B C} (f : World -> B) (g : World -> C) : frames f (get g).
Proof. now intros w. Qed.

Lemma frames_modify {B} (f : World -> B) (g : World -> World) :
  (forall w, f (g w) = f w) -> frames f (modify g).
Proof. intros E w. apply E. Qed.

Lemma frames_bind {A B C} (f : World -> C) (c : M A) (k : A -> M B) :
  frames f c -> (forall a, frames f (k a)) -> frames f (bind c k).
Proof.
  intros Hc Hk w. unfold bind. specialize (Hc w).
  destruct (c w) as [[a|e] w']; simpl in *.
  - now rewrite Hk.
  - exact Hc.
Qed.

Lemma frames_try_except {A C} (f : World -> C) (c : M A) handler :
  frames f c -> (forall e h, handler e = Some h -> frames f h) ->
  frames f (try_except c handler).
Proof.
  intros Hc Hh w. unfold try_except. specialize (Hc w).
  destruct (c w) as [[a|e] w']; simpl in *; [exact Hc|].
  destruct (handler e) as [h|] eqn:E; simpl; [|exact Hc].
  now rewrite (Hh _ _ E).
Qed.

Lemma frames_for_each {A C} (f : World -> C) (l : list A) body :
  (forall x, frames f (body x)) -> frames f (for_each l body).
Proof.
  intros Hb. induction l as [|x l IH]; simpl.
  - apply frames_ret.
  - apply frames_bind; auto.
Qed.

Lemma frames_py_assert {C} (f : World -> C) cond msg : frames f (py_assert cond msg).
Proof. destruct cond; [apply frames_ret | apply frames_raise]. Qed.

End MonadFacts.

Create HintDb frames discriminated.
#[export] Hint Resolve frames_ret frames_raise frames_lift frames_get
  frames_py_assert : frames.
#[export] Hint Extern 2 (frames _ (bind _ _)) =>
  apply frames_bind; [|intros ?] : frames.
#[export] Hint Extern 2 (frames _ (modify _)) =>
  apply frames_modify; intros []; reflexivity : frames.
#[export] Hint Extern 2 (frames _ (for_each _ _)) =>
  apply frames_for_each; intros ? : frames.
#[export] Hint Extern 3 (frames _ (if ?b then _ else _)) => destruct b : frames.
#[export] Hint Extern 3 (frames _ (match ?x with _ => _ end)) =>
  destruct x : frames.

(** ** What each step of a load leaves alone *)

Section LoadFrames.
Context `{Torch} (env : Env).

Lemma frames_print {B} (f : World -> B) line :
  (forall g w, f (with_stdout g w) = f w) -> frames f (print line).
Proof. intros E. apply frames_modify. intros w. apply E. Qed.

Lemma frames_print_rank_0 {B} (f : World -> B) line :
  (forall g w, f (with_stdout g w) = f w) -> frames f (print_rank_0 env line).
Proof.
  intros E. unfold print_rank_0.
  destruct (get_rank env =? 0); [now apply frames_print | apply frames_ret].
Qed.

Lemma frames_check_checkpoint_args {B} (f : World -> B) neox_args checkpoint_args :
  frames f (fun w => check_checkpoint_args neox_args checkpoint_args w).
Proof.
  unfold check_checkpoint_args.
  destruct checkpoint_args as [a|d|n]; auto with frames.
  apply frames_for_each. intros [name v]. simpl.
  destruct (getattr neox_args name); auto with frames.
Qed.

Lemma frames_do_forward_pass {B} (f : World -> B) neox_args tokens :
  (forall g w, f (with_barriers g w) = f w) ->
  (forall b w, f (with_training b w) = f w) ->
  (forall g w, f (with_rng g w) = f w) ->
  frames f (fun w => do_forward_pass env neox_args tokens w).
Proof.
  intros Eb Et Er.
  unfold do_forward_pass, torch_randint, barrier, model_eval, model_train.
  repeat first
    [ apply frames_ret | apply frames_raise | apply frames_lift | apply frames_get
    | apply frames_modify; intros ?; first [apply Eb | apply Et | apply Er]
    | apply frames_bind; [|intros ?]
    | match goal with
      | |- frames _ (if ?b then _ else _) => destruct b
      | |- frames _ (match ?x with _ => _ end) => destruct x
      | |- frames _ (let (_, _) := ?x in _) => destruct x
      end ].
Qed.

Lemma frames_check_forward_pass {B} (f : World -> B) neox_args tokens logits :
  (forall g w, f (with_barriers g w) = f w) ->
  (forall b w, f (with_training b w) = f w) ->
  (forall g w, f (with_stdout g w) = f w) ->
  (forall g w, f (with_rng g w) = f w) ->
  frames f (fun w => check_forward_pass env neox_args tokens logits w).
Proof.
  intros Eb Et Es Er. unfold check_forward_pass.
  apply frames_bind; [now apply frames_do_forward_pass|].
  intros [ct [l|]]; simpl; [|apply frames_ret].
  apply frames_bind.
  - destruct logits as [[]|]; auto with frames.
  - intros []; simpl; [apply frames_ret|].
    apply frames_bind.
    + destruct (get_data_parallel_rank env =? 0);
        [now apply frames_print | apply frames_ret].
    + intros _. destruct logits; auto with frames.
Qed.

Lemma frames_validate_args {B} (f : World -> B) neox_args sd :
  (forall g w, f (with_stdout g w) = f w) ->
  frames f (fun w => validate_args env neox_args sd w).
Proof.
  intros Es. unfold validate_args.
  destruct (sd !! "args").
  - apply frames_bind; [apply frames_check_checkpoint_args|].
    intros _. now apply frames_print_rank_0.
  - now apply frames_print_rank_0.
Qed.

Lemma frames_value_subscript {B} (f : World -> B) v k :
  frames f (value_subscript v k).
Proof. unfold value_subscript. destruct v; auto with frames. Qed.

Lemma frames_validate_forward {B} (f : World -> B) neox_args name sd :
  (forall g w, f (with_barriers g w) = f w) ->
  (forall b w, f (with_training b w) = f w) ->
  (forall g w, f (with_stdout g w) = f w) ->
  (forall g w, f (with_rng g w) = f w) ->
  frames f (fun w => validate_forward env neox_args name sd w).
Proof.
  intros Eb Et Es Er. unfold validate_forward.
  destruct (checkpoint_validation_with_forward_pass neox_args); [|apply frames_ret].
  destruct (sd !! "checkpoint_validation").
  - apply frames_bind; [apply frames_value_subscript|intros ?].
    apply frames_bind; [apply frames_value_subscript|intros ?].
    apply frames_bind; [now apply frames_check_forward_pass|intros ?].
    now apply frames_print_rank_0.
  - destruct (get_data_parallel_rank env =? 0);
      [now apply frames_print | apply frames_ret].
Qed.

(** The forward pass touches the generators by its draw only. *)
Lemma do_forward_pass_rng neox_args tokens w :
  rng (snd (do_forward_pass env neox_args tokens w))
  = if draws tokens then after_draw env neox_args (rng w) else rng w.
Proof.
  unfold do_forward_pass, after_draw, torch_randint, barrier, model_eval, model_train,
    bind, ret, raise, get, modify, lift.
  destruct tokens as [[]|t]; simpl;
    destruct (is_pipe_parallel neox_args); simpl;
    repeat match goal with
    | |- context [match ?x with _ => _ end] =>
        match x with
        | model_eval_batch _ _ => destruct x as [[?|]|?]
        | model_call _ _ => destruct x as [?|?]
        | get_batch _ _ _ => destruct x as [[? ?] ?]
        | model_is_last_stage _ => destruct x
        | training _ => destruct x
        end; simpl
    end; reflexivity.
Qed.

Lemma check_forward_pass_rng neox_args tokens logits w :
  rng (snd (check_forward_pass env neox_args tokens logits w))
  = if draws tokens then after_draw env neox_args (rng w) else rng w.
Proof.
  rewrite <- do_forward_pass_rng. unfold check_forward_pass, bind.
  destruct (do_forward_pass env neox_args tokens w) as [[[ct [l|]]|e] w1]; simpl;
    [|reflexivity|reflexivity].
  assert (F : forall A (c : M A), frames rng c -> rng (snd (c w1)) = rng w1)
    by (intros A c Hc; apply Hc).
  change (rng (snd (bind
    (match logits with
     | ITensor saved => ret (tensor_equal_all l saved)
     | IScalar (SInt n) => ret (tensor_equal_all_number l n)
     | IScalar (SBool b) => ret (tensor_equal_all_number l (if b then 1 else 0))
     | IScalar _ => raise (AttributeError "all")
     end)
    (fun exactly_equal =>
       if negb exactly_equal
       then bind (if get_data_parallel_rank env =? 0
                  then print forward_warning else ret tt)
              (fun _ => match logits with
                        | ITensor saved =>
                            py_assert (tensor_isclose_all l saved) forward_error
                        | IScalar _ =>
                            raise (TypeError "isclose(): argument 'other' must be Tensor")
                        end)
       else ret tt) w1)) = rng w1).
  apply F. apply frames_bind.
  - destruct logits as [[]|]; auto with frames.
  - intros []; simpl; [apply frames_ret|].
    apply frames_bind.
    + destruct (get_data_parallel_rank env =? 0);
        [apply frames_print; now intros ? [] | apply frames_ret].
    + intros _. destruct logits; auto with frames.
Qed.

Lemma validate_forward_rng neox_args name sd w :
  rng (snd (validate_forward env neox_args name sd w))
  = if validation_draws neox_args sd then after_draw env neox_args (rng w) else rng w.
Proof.
  unfold validate_forward, validation_draws.
  destruct (checkpoint_validation_with_forward_pass neox_args); [|reflexivity].
  simpl. destruct (sd !! "checkpoint_validation") as [[a|d|n]|]; try reflexivity.
  - unfold value_subscript, bind. simpl.
    destruct (dict_get "context_tokens" d) as [tokens|]; [|reflexivity]. simpl.
    destruct (dict_get "logits" d) as [logits|]; [|reflexivity]. simpl.
    rewrite <- (check_forward_pass_rng neox_args tokens logits w).
    destruct (check_forward_pass env neox_args tokens logits w) as [[[]|e] w1];
      [|reflexivity].
    simpl. unfold print_rank_0, print, modify.
    destruct (get_rank env =? 0); [now destruct w1|reflexivity].
  - destruct (get_data_parallel_rank env =? 0); [now destruct w|reflexivity].
Qed.

Lemma resolve_iteration_pure neox_args name sd w :
  snd (resolve_iteration neox_args name sd w) = w.
Proof.
  unfold resolve_iteration.
  destruct (finetune neox_args); [reflexivity|].
  destruct (is_none _); reflexivity.
Qed.

End LoadFrames.

(** ** Loading: resume iteration *)

Section LoadIteration.
Context `{Torch} (env : Env).

(** Without fine-tuning the iteration is the first truthy one of the two
    fields, and the error is raised exactly when that leaves [None]. *)
Lemma resolve_iteration_spec neox_args name sd w :
  finetune neox_args = false ->
  resolve_iteration neox_args name sd w =
    let it := py_or (state_get sd "iteration") (state_get sd "total_iters") in
    (if is_none it then Raise (ValueError (missing_iteration_message name)) else Ok it, w).
Proof.
  intros F. unfold resolve_iteration. rewrite F. simpl.
  destruct (is_none _); reflexivity.
Qed.

(** A record whose ['iteration'] is a non-zero integer resolves to it. *)
Lemma resolve_iteration_nonzero neox_args name sd w n :
  finetune neox_args = false ->
  sd !! "iteration" = Some (VScalar (SInt n)) -> n <> 0 ->
  resolve_iteration neox_args name sd w = (Ok (VScalar (SInt n)), w).
Proof.
  intros F E N. rewrite resolve_iteration_spec by assumption.
  unfold state_get at 1. rewrite E. simpl. unfold py_or. simpl.
  destruct (Z.eqb_spec n 0); [contradiction|reflexivity].
Qed.

(** A record without ['iteration'] resolves to a non-zero ['total_iters']. *)
Lemma resolve_iteration_legacy neox_args name sd w n :
  finetune neox_args = false ->
  sd !! "iteration" = None ->
  sd !! "total_iters" = Some (VScalar (SInt n)) -> n <> 0 ->
  resolve_iteration neox_args name sd w = (Ok (VScalar (SInt n)), w).
Proof.
  intros F E1 E2 N. rewrite resolve_iteration_spec by assumption.
  unfold state_get. rewrite E1, E2. simpl. unfold py_or. simpl.
  destruct (Z.eqb_spec n 0); [contradiction|reflexivity].
Qed.

(** A record with neither field is refused. *)
Lemma resolve_iteration_missing neox_args name sd w :
  finetune neox_args = false ->
  sd !! "iteration" = None -> sd !! "total_iters" = None ->
  resolve_iteration neox_args name sd w
  = (Raise (ValueError (missing_iteration_message name)), w).
Proof.
  intros F E1 E2. rewrite resolve_iteration_spec by assumption.
  unfold state_get. now rewrite E1, E2.
Qed.

(** A record that stores iteration 0, and no ['total_iters'], is refused
    as well: [0 or None] is [None]. *)
Lemma resolve_iteration_zero neox_args name sd w :
  finetune neox_args = false ->
  sd !! "iteration" = Some (VScalar (SInt 0)) -> sd !! "total_iters" = None ->
  resolve_iteration neox_args name sd w
  = (Raise (ValueError (missing_iteration_message name)), w).
Proof.
  intros F E1 E2. rewrite resolve_iteration_spec by assumption.
  unfold state_get. now rewrite E1, E2.
Qed.

Lemma load_checkpoint_found neox_args name sd w :
  deepspeed neox_args = true ->
  model_load_checkpoint env (load neox_args)
    (negb (no_load_optim neox_args)) (negb (no_load_optim neox_args))
    = (Some name, sd) ->
  load_checkpoint env neox_args w = load_found env neox_args name sd w.
Proof. intros D E. unfold load_checkpoint. now rewrite D, E. Qed.

Lemma load_found_unresolved neox_args name sd w e :
  resolve_iteration neox_args name sd w = (Raise e, w) ->
  load_found env neox_args name sd w = (Raise e, w).
Proof. intros E. unfold load_found. now rewrite (bind_raise _ _ _ _ _ E). Qed.

(** Where the restore step is switched off, a load touches the generators
    by the draw of its validation only. *)
Lemma load_found_rng_skipped neox_args name sd w :
  (negb (finetune neox_args) && negb (no_load_rng neox_args))%bool = false ->
  let r := load_found env neox_args name sd w in
  rng (snd r) = rng w
  \/ (validation_draws neox_args sd = true
      /\ rng (snd r) = after_draw env neox_args (rng w)).
Proof.
  intros Hskip r.
  cut (forall x, x = rng (snd r) ->
         x = rng w \/ (validation_draws neox_args sd = true
                       /\ x = after_draw env neox_args (rng w)));
    [intros C; now apply C|].
  intros x Hx. subst r.
  unfold load_found, restore_rng_states in Hx. rewrite Hskip in Hx.
  unfold bind at 1 in Hx.
  pose proof (resolve_iteration_pure neox_args name sd w) as Hp.
  destruct (resolve_iteration neox_args name sd w) as [[it|e] w0]; simpl in Hp;
    subst w0; [|now left].
  unfold bind at 1 in Hx.
  pose proof (frames_validate_args env rng neox_args sd
                ltac:(now intros ? []) w) as Ha.
  destruct (validate_args env neox_args sd w) as [[[]|e] w1]; simpl in Ha;
    [|left; simpl in Hx; congruence].
  unfold bind at 1 in Hx.
  pose proof (validate_forward_rng env neox_args name sd w1) as Hf. rewrite Ha in Hf.
  destruct (validate_forward env neox_args name sd w1) as [[[]|e] w2]; simpl in Hf.
  - assert (Hrest : rng (snd (bind (ret tt) (fun _ => bind barrier (fun _ =>
               bind (if get_data_parallel_rank env =? 0
                     then print ("  successfully loaded " +:+ name) else ret tt)
                 (fun _ => ret it))) w2)) = rng w2).
    { unfold bind, ret, barrier, modify, print.
      destruct (get_data_parallel_rank env =? 0); now destruct w2. }
    rewrite Hrest, Hf in Hx.
    destruct (validation_draws neox_args sd); [right; now split | now left].
  - simpl in Hx. rewrite Hf in Hx.
    destruct (validation_draws neox_args sd); [right; now split | now left].
Qed.

End LoadIteration.

Example saved_client_state_has_iteration :
  Sample.saved_client_state 0 !! "iteration" = Some (VScalar (SInt 0))
  /\ Sample.saved_client_state 0 !! "total_iters" = None.
Proof. vm_compute. split; reflexivity. Qed.

(** C1, at the input on which the code departs from it: the record written
    by a save at iteration 0 carries the ['iteration'] field, yet a load
    without fine-tuning raises the missing-iteration error instead of
    returning 0. *)
Theorem load_checkpoint_iteration_zero :
  load_checkpoint
    (Sample.env_with (Ok [1]) (Some "ckpts/global_step0", Sample.saved_client_state 0)
       Sample.no_fault)
    Sample.args Sample.world0
  = (Raise (ValueError
       "Unable to load iteration from checkpoint ckpts/global_step0, exiting"),
     Sample.world0).
Proof. vm_compute. reflexivity. Qed.

(** The same load of the record saved at iteration 5000 returns 5000. *)
Example load_checkpoint_iteration_5000 :
  fst (load_checkpoint
         (Sample.env_with (Ok [1]) (Some "ckpts/global_step5000", Sample.saved_client_state 5000)
            Sample.no_fault)
         Sample.args Sample.world0)
  = Ok (VScalar (SInt 5000)).
Proof. vm_compute. reflexivity. Qed.

(** C8: when the engine locates no checkpoint, the load returns iteration 0
    and raises nothing; the only effect is the notice printed by
    data-parallel rank 0. *)
Theorem load_checkpoint_cold_start `{Torch} (env : Env) neox_args sd w :
  deepspeed neox_args = true ->
  model_load_checkpoint env (load neox_args)
    (negb (no_load_optim neox_args)) (negb (no_load_optim neox_args))
    = (None, sd) ->
  load_checkpoint env neox_args w
  = (Ok (VScalar (SInt 0)),
     if get_data_parallel_rank env =? 0
     then with_stdout (fun out => (out ++ ["Unable to load checkpoint."])%list) w
     else w).
Proof.
  intros D E. unfold load_checkpoint. rewrite D, E.
  destruct (get_data_parallel_rank env =? 0); reflexivity.
Qed.

Lemma load_checkpoint_cold_start_witness :
  load_checkpoint (Sample.env_with (Ok [1]) (None, ∅) Sample.no_fault)
    Sample.args Sample.world0
  = (Ok (VScalar (SInt 0)),
     with_stdout (fun out => (out ++ ["Unable to load checkpoint."])%list)
       Sample.world0).
Proof.
  exact (load_checkpoint_cold_start
           (Sample.env_with (Ok [1]) (None, ∅) Sample.no_fault)
           Sample.args ∅ Sample.world0 eq_refl eq_refl).
Defined.

(** C7: a fine-tune load of a found checkpoint never restores generator
    state: the generators are left as they were, or one draw of the
    forward-pass validation further when validation is on and the record
    stores no context tokens; whatever the record holds under the generator
    keys plays no part.  The load returns 0 whenever it returns, and does
    return 0 when the argument and forward-pass checks pass; the stored
    iteration plays no part. *)
Theorem load_checkpoint_finetune `{Torch} (env : Env) neox_args name sd w :
  deepspeed neox_args = true ->
  finetune neox_args = true ->
  model_load_checkpoint env (load neox_args)
    (negb (no_load_optim neox_args)) (negb (no_load_optim neox_args))
    = (Some name, sd) ->
  let r := load_checkpoint env neox_args w in
  (rng (snd r) = rng w \/ rng (snd r) = after_draw env neox_args (rng w))
  /\ (validation_draws neox_args sd = false -> rng (snd r) = rng w)
  /\ (forall v, fst r = Ok v -> v = VScalar (SInt 0))
  /\ (is_ok (fst (bind (fun w => validate_args env neox_args sd w)
                    (fun _ w => validate_forward env neox_args name sd w) w)) = true ->
      fst r = Ok (VScalar (SInt 0))).
Proof.
  intros D F E. rewrite (load_checkpoint_found env _ _ _ _ D E). cbv zeta.
  assert (Hskip : (negb (finetune neox_args) && negb (no_load_rng neox_args))%bool
                  = false) by now rewrite F.
  pose proof (load_found_rng_skipped env neox_args name sd w Hskip) as Hrng.
  cbv zeta in Hrng.
  split; [|split; [|split]].
  - destruct Hrng as [Hr|[_ Hr]]; [now left | now right].
  - intros Hno. destruct Hrng as [Hr|[Hd _]]; [exact Hr | congruence].
  - unfold load_found, resolve_iteration, restore_rng_states. rewrite F. simpl.
    intros v. unfold bind, ret.
    destruct (validate_args env neox_args sd w) as [[[]|e] w1]; [|discriminate].
    destruct (validate_forward env neox_args name sd w1) as [[[]|e] w2]; [|discriminate].
    simpl. destruct (get_data_parallel_rank env =? 0); simpl; congruence.
  - unfold load_found, resolve_iteration, restore_rng_states. rewrite F. simpl.
    unfold bind, ret.
    destruct (validate_args env neox_args sd w) as [[[]|e] w1]; [|discriminate].
    destruct (validate_forward env neox_args name sd w1) as [[[]|e] w2]; [|discriminate].
    intros _. simpl. destruct (get_data_parallel_rank env =? 0); reflexivity.
Qed.

Lemma load_checkpoint_finetune_witness :
  let env := Sample.env_with (Ok [1])
               (Some "ckpts/global_step5000", Sample.sd_full 5000) Sample.no_fault in
  let r := load_checkpoint env (Sample.set_finetune true Sample.args) Sample.world0 in
  rng (snd r) = Sample.rng0 /\ fst r = Ok (VScalar (SInt 0)).
Proof.
  intros env r.
  destruct (load_checkpoint_finetune env (Sample.set_finetune true Sample.args)
              "ckpts/global_step5000" (Sample.sd_full 5000) Sample.world0
              eq_refl eq_refl eq_refl) as (_ & Hrng & _ & Hret).
  split; [apply Hrng; reflexivity | apply Hret; vm_compute; reflexivity].
Defined.

(** ** Loading: architecture compatibility *)

Section ArchitectureCheck.
Context `{Torch} (env : Env).

Lemma py_eq_refl a : py_eq a a = true.
Proof.
  destruct a as [|b|z|s]; simpl.
  - reflexivity.
  - now destruct b.
  - apply Z.eqb_refl.
  - apply String.eqb_refl.
Qed.

Lemma check_entry_agrees neox_args kv w :
  entry_agrees neox_args kv = true ->
  (match getattr neox_args (fst kv) with
   | None => raise (AttributeError (fst kv))
   | Some args_value =>
       let error_message :=
         args_error_message (fst kv) (item_str (snd kv)) (py_str args_value) in
       bind (match snd kv with
             | IScalar a => ret (py_eq a args_value)
             | ITensor t => lift (tensor_eq_scalar_truth t args_value)
             end)
            (fun equal => py_assert equal error_message)
   end) w = (Ok tt, w).
Proof.
  unfold entry_agrees. destruct kv as [k [a|t]]; simpl; [|discriminate].
  destruct (getattr neox_args k) as [cur|]; [|discriminate].
  intros E. unfold bind, ret. simpl. now rewrite E.
Qed.

(** Entries that all agree with the configuration pass, silently. *)
Lemma check_checkpoint_args_agree neox_args d w :
  Forall (fun kv => entry_agrees neox_args kv = true) d ->
  check_checkpoint_args neox_args (VDict d) w = (Ok tt, w).
Proof.
  unfold check_checkpoint_args. induction 1 as [|kv d Hkv _ IH]; simpl.
  - reflexivity.
  - erewrite bind_ok by (apply check_entry_agrees; exact Hkv). exact IH.
Qed.

(** The first entry that differs stops the check with an error that names
    the field and both values. *)
Lemma check_checkpoint_args_mismatch neox_args d1 fld v cur d2 w :
  Forall (fun kv => entry_agrees neox_args kv = true) d1 ->
  getattr neox_args fld = Some cur ->
  py_eq v cur = false ->
  check_checkpoint_args neox_args (VDict (d1 ++ (fld, IScalar v) :: d2)%list) w
  = (Raise (AssertionError (args_error_message fld (py_str v) (py_str cur))), w).
Proof.
  intros Hd1 Hcur Hne. unfold check_checkpoint_args.
  induction Hd1 as [|kv d Hkv _ IH]; simpl.
  - rewrite Hcur. unfold bind, ret. simpl. now rewrite Hne.
  - erewrite bind_ok by (apply check_entry_agrees; exact Hkv). exact IH.
Qed.

(** The arguments a save records agree with the configuration they were
    taken from. *)
Lemma architecture_args_agree neox_args :
  Forall (fun kv => entry_agrees neox_args kv = true) (architecture_args neox_args).
Proof.
  unfold architecture_args.
  repeat first
    [ apply List.Forall_nil
    | apply List.Forall_cons;
      [unfold entry_agrees; simpl; first [apply py_eq_refl | apply Z.eqb_refl]|] ].
Qed.

Lemma validate_args_present neox_args sd ca w :
  sd !! "args" = Some ca ->
  validate_args env neox_args sd w
  = bind (fun w => check_checkpoint_args neox_args ca w)
         (fun _ => print_rank_0 env args_validated) w.
Proof. intros E. unfold validate_args. now rewrite E. Qed.

Lemma validate_args_absent neox_args sd w :
  sd !! "args" = None ->
  validate_args env neox_args sd w
  = (Ok tt, if get_rank env =? 0
            then with_stdout (fun out => (out ++ [args_not_found])%list) w
            else w).
Proof.
  intros E. unfold validate_args, print_rank_0. rewrite E.
  destruct (get_rank env =? 0); reflexivity.
Qed.

(** What a save hands to the engine carries the iteration and the
    architecture arguments of the configuration. *)
Lemma save_ds_checkpoint_client_state it neox_args w w' :
  save_ds_checkpoint env it neox_args w = (Ok tt, w') ->
  exists sd,
    engine_saved w' = (engine_saved w ++ [(save neox_args, sd)])%list
    /\ sd !! "iteration" = Some (VScalar (SInt it))
    /\ sd !! "args" = Some (VDict (architecture_args neox_args)).
Proof.
  unfold save_ds_checkpoint, model_save_checkpoint.
  pose proof (frames_do_forward_pass env engine_saved neox_args (IScalar SNone)
                ltac:(now intros ? []) ltac:(now intros ? [])
                ltac:(now intros ? [])) as Hfwd.
  destruct (no_save_rng neox_args), (checkpoint_validation_with_forward_pass neox_args);
    simpl; unfold bind, ret, get, modify; simpl.
  all: try (specialize (Hfwd w);
            destruct (do_forward_pass env neox_args (IScalar SNone) w)
              as [[[ct lg]|e] w1]; simpl in *; [|discriminate]).
  all: intros [= <-]; eexists; (split; [|split]); simpl;
       [ try rewrite Hfwd; reflexivity | | ];
       repeat (rewrite lookup_insert_ne by discriminate);
       try apply lookup_insert_eq.
Qed.

End ArchitectureCheck.

(** C4: on a load that reaches the argument check, a stored field that
    differs from the configuration raises an error naming the field, the
    stored value and the current value; a record without ['args'] passes
    with a notice on rank 0; and the record a save produces passes when
    loaded under the configuration that saved it. *)
Theorem load_checkpoint_architecture_check `{Torch} (env : Env) neox_args :
  (forall name sd w it d1 fld v cur d2,
     deepspeed neox_args = true ->
     model_load_checkpoint env (load neox_args)
       (negb (no_load_optim neox_args)) (negb (no_load_optim neox_args))
       = (Some name, sd) ->
     resolve_iteration neox_args name sd w = (Ok it, w) ->
     sd !! "args" = Some (VDict (d1 ++ (fld, IScalar v) :: d2)%list) ->
     Forall (fun kv => entry_agrees neox_args kv = true) d1 ->
     getattr neox_args fld = Some cur ->
     py_eq v cur = false ->
     load_checkpoint env neox_args w
     = (Raise (AssertionError
                 (fld +:+ " value from checkpoint (" +:+ py_str v
                    +:+ ") is not equal to the currently set argument value ("
                    +:+ py_str cur +:+ ").")), w))
  /\ (forall sd w,
        sd !! "args" = None ->
        validate_args env neox_args sd w
        = (Ok tt, if get_rank env =? 0
                  then with_stdout (fun out => (out ++ [args_not_found])%list) w
                  else w))
  /\ (forall it w w',
        save_ds_checkpoint env it neox_args w = (Ok tt, w') ->
        exists sd,
          engine_saved w' = (engine_saved w ++ [(save neox_args, sd)])%list
          /\ forall w2,
               validate_args env neox_args sd w2
               = (Ok tt, if get_rank env =? 0
                         then with_stdout (fun out => (out ++ [args_validated])%list) w2
                         else w2)).
Proof.
  split; [|split].
  - intros name sd w it d1 fld v cur d2 D E R A Hd1 Hcur Hne.
    rewrite (load_checkpoint_found env _ _ _ _ D E).
    unfold load_found. rewrite (bind_ok _ _ _ _ _ R).
    erewrite bind_raise; [reflexivity|].
    rewrite (validate_args_present env _ _ _ _ A).
    erewrite bind_raise; [reflexivity|].
    now apply check_checkpoint_args_mismatch.
  - intros sd w A. now apply validate_args_absent.
  - intros it w w' S.
    destruct (save_ds_checkpoint_client_state env _ _ _ _ S) as (sd & Hs & _ & Ha).
    exists sd. split; [exact Hs|]. intros w2.
    rewrite (validate_args_present env _ _ _ _ Ha).
    erewrite bind_ok by (apply check_checkpoint_args_agree, architecture_args_agree).
    unfold print_rank_0. destruct (get_rank env =? 0); reflexivity.
Qed.

Lemma load_checkpoint_architecture_check_witness :
  let found := (Some "ckpts/global_step5000", Sample.sd_full 5000) in
  let env := Sample.env_with (Ok [1]) found Sample.no_fault in
  load_checkpoint env (Sample.set_num_layers (SInt 24) Sample.args) Sample.world0
  = (Raise (AssertionError
      "num_layers value from checkpoint (12) is not equal to the currently set argument value (24)."),
     Sample.world0)
  /\ validate_args env Sample.args (Sample.sd_iteration (SInt 5)) Sample.world0
     = (Ok tt, with_stdout (fun out => (out ++ [args_not_found])%list) Sample.world0)
  /\ exists sd,
       engine_saved (snd (save_ds_checkpoint env 5000 Sample.args Sample.world0))
       = [("ckpts", sd)]
       /\ forall w2,
            validate_args env Sample.args sd w2
            = (Ok tt, with_stdout (fun out => (out ++ [args_validated])%list) w2).
Proof.
  intros found env. split; [|split].
  - destruct (load_checkpoint_architecture_check env
                (Sample.set_num_layers (SInt 24) Sample.args)) as (Hmis & _ & _).
    exact (Hmis "ckpts/global_step5000" (Sample.sd_full 5000) Sample.world0
             (VScalar (SInt 5000)) [] "num_layers" (SInt 12) (SInt 24)
             (tail (architecture_args Sample.args))
             eq_refl eq_refl eq_refl eq_refl (List.Forall_nil _) eq_refl eq_refl).
  - destruct (load_checkpoint_architecture_check env Sample.args) as (_ & Habs & _).
    exact (Habs (Sample.sd_iteration (SInt 5)) Sample.world0 eq_refl).
  - destruct (load_checkpoint_architecture_check env Sample.args) as (_ & _ & Hsave).
    exact (Hsave 5000 Sample.world0
             (snd (save_ds_checkpoint env 5000 Sample.args Sample.world0)) eq_refl).
Defined.

(** ** The forward-pass validator *)

Section ForwardPass.
Context `{Torch} (env : Env).

(** The run leaves the model in the mode it found it in when it returns,
    and in evaluation mode when it raises. *)
Lemma do_forward_pass_mode neox_args tokens w :
  training (snd (do_forward_pass env neox_args tokens w))
  = if is_ok (fst (do_forward_pass env neox_args tokens w))
    then training w else false.
Proof.
  unfold do_forward_pass, barrier, model_eval, model_train, bind, ret, raise,
    get, modify, lift.
  destruct w as [out tr rg f calls bar saved]. simpl.
  destruct tokens as [[]|t]; simpl; try reflexivity.
  all: destruct (is_pipe_parallel neox_args); simpl.
  all: repeat match goal with
       | |- context [model_eval_batch env ?x] => destruct (model_eval_batch env x) as [[?|]|?]
       | |- context [model_call env ?x] => destruct (model_call env x)
       | |- context [get_batch env ?a ?x] => destruct (get_batch env a x) as [[? ?] ?]
       | |- context [model_is_last_stage env] => destruct (model_is_last_stage env)
       end; simpl; try reflexivity.
  all: destruct tr; reflexivity.
Qed.

(** After a run that returned, the check only looks at the two tensors. *)
Lemma check_forward_pass_after neox_args tokens saved w ct logits w1 :
  do_forward_pass env neox_args tokens w = (Ok (ct, logits), w1) ->
  check_forward_pass env neox_args tokens saved w
  = match logits with
    | None => (Ok tt, w1)
    | Some l =>
        bind (match saved with
              | ITensor s => ret (tensor_equal_all l s)
              | IScalar (SInt n) => ret (tensor_equal_all_number l n)
              | IScalar (SBool b) => ret (tensor_equal_all_number l (if b then 1 else 0))
              | IScalar _ => raise (AttributeError "all")
              end)
          (fun exactly_equal =>
             if negb exactly_equal then
               bind (if get_data_parallel_rank env =? 0
                     then print forward_warning else ret tt)
                 (fun _ => match saved with
                           | ITensor s => py_assert (tensor_isclose_all l s) forward_error
                           | IScalar _ =>
                               raise (TypeError "isclose(): argument 'other' must be Tensor")
                           end)
             else ret tt) w1
    end.
Proof.
  intros E. unfold check_forward_pass. rewrite (bind_ok _ _ _ _ _ E). simpl.
  destruct logits; reflexivity.
Qed.

End ForwardPass.

(** C5: once the forward pass has returned, a rank without logits compares
    nothing and raises nothing; a rank with logits passes silently when they
    equal the saved ones, passes after the warning (printed by data-parallel
    rank 0) when they are only close, and raises the closeness assertion
    when they are not close. *)
Theorem check_forward_pass_policy `{Torch} (env : Env) neox_args tokens w ct logits w1 :
  do_forward_pass env neox_args tokens w = (Ok (ct, logits), w1) ->
  let warned :=
    if get_data_parallel_rank env =? 0
    then with_stdout (fun out => (out ++ [forward_warning])%list) w1
    else w1 in
  match logits with
  | None =>
      forall saved, check_forward_pass env neox_args tokens saved w = (Ok tt, w1)
  | Some l =>
      forall saved,
        check_forward_pass env neox_args tokens (ITensor saved) w
        = if tensor_equal_all l saved then (Ok tt, w1)
          else if tensor_isclose_all l saved then (Ok tt, warned)
          else (Raise (AssertionError forward_error), warned)
  end.
Proof.
  intros E warned. destruct logits as [l|]; intros saved;
    rewrite (check_forward_pass_after env _ _ _ _ _ _ _ E); [|reflexivity].
  unfold bind, ret, warned, print, modify, py_assert, raise. simpl.
  destruct (tensor_equal_all l saved); simpl; [reflexivity|].
  destruct (get_data_parallel_rank env =? 0); simpl;
    destruct (tensor_isclose_all l saved); reflexivity.
Qed.

Lemma check_forward_pass_policy_witness :
  let env l := Sample.env_with (Ok l) (None, ∅) Sample.no_fault in
  let warn := " > WARNING: validate_checkpoint_forward() forward after load of checkpoint does not yield exactly same result" in
  let run l := check_forward_pass (env l) Sample.args (ITensor [7; 8])
                 (ITensor [100000]) Sample.world0 in
  (fst (run [100000]) = Ok tt /\ stdout (snd (run [100000])) = [])
  /\ (fst (run [100001]) = Ok tt /\ stdout (snd (run [100001])) = [warn])
  /\ (fst (run [100002])
      = Raise (AssertionError
          "validate_checkpoint_forward() forward after load of checkpoint does not yield a close result")
      /\ stdout (snd (run [100002])) = [warn])
  /\ check_forward_pass Sample.env_inner_stage
       (Sample.set_pipe_parallel true Sample.args) (ITensor [7; 8])
       (ITensor [100000]) Sample.world0
     = (Ok tt, with_barriers (fun n => S (S (S n))) Sample.world0).
Proof.
  intros env warn run.
  pose proof (fun l => check_forward_pass_policy (env l) Sample.args (ITensor [7; 8])
                Sample.world0 [7; 8] (Some l)
                (with_barriers (fun n => S (S (S n))) Sample.world0) eq_refl [100000])
    as Hrun.
  pose proof (check_forward_pass_policy Sample.env_inner_stage
                (Sample.set_pipe_parallel true Sample.args) (ITensor [7; 8])
                Sample.world0 [7; 8] None
                (with_barriers (fun n => S (S (S n))) Sample.world0) eq_refl
                (ITensor [100000])) as Hnone.
  refine (conj (conj _ _) (conj (conj _ _) (conj (conj _ _) _))).
  - unfold run. now rewrite (Hrun [100000]).
  - unfold run. now rewrite (Hrun [100000]).
  - unfold run. now rewrite (Hrun [100001]).
  - unfold run. now rewrite (Hrun [100001]).
  - unfold run. now rewrite (Hrun [100002]).
  - unfold run. now rewrite (Hrun [100002]).
  - exact Hnone.
Defined.

(** C6, as the code has it: the model is back in the mode it was found in
    whenever the run returns; a run that raises after the switch leaves the
    model in evaluation mode. *)
Theorem do_forward_pass_restores_mode_on_return `{Torch} (env : Env) neox_args tokens w :
  let r := do_forward_pass env neox_args tokens w in
  (is_ok (fst r) = true -> training (snd r) = training w)
  /\ (is_ok (fst r) = false -> training (snd r) = false).
Proof.
  simpl. rewrite (do_forward_pass_mode env).
  destruct (is_ok _); split; intros; congruence.
Qed.

Lemma do_forward_pass_restores_mode_on_return_witness :
  let r := do_forward_pass (Sample.env_with (Ok [5]) (None, ∅) Sample.no_fault)
             Sample.args (IScalar SNone) Sample.world0 in
  fst r = Ok ([1; 2; 3; 4], Some [5]) /\ training (snd r) = true.
Proof.
  intros r. split; [reflexivity|].
  exact (proj1 (do_forward_pass_restores_mode_on_return
                  (Sample.env_with (Ok [5]) (None, ∅) Sample.no_fault)
                  Sample.args (IScalar SNone) Sample.world0) eq_refl).
Defined.

(** C6, refuted as stated: a model in training mode whose forward pass
    raises is in evaluation mode when [do_forward_pass] exits. *)
Lemma do_forward_pass_failure_keeps_eval_mode :
  let env := Sample.env_with (Raise (RuntimeError "CUDA out of memory")) (None, ∅)
               Sample.no_fault in
  let r := do_forward_pass env Sample.args (IScalar SNone) Sample.world0 in
  fst r = Raise (RuntimeError "CUDA out of memory")
  /\ training Sample.world0 = true
  /\ training (snd r) = false
  /\ training (snd r) <> training Sample.world0.
Proof. vm_compute. repeat split; discriminate. Qed.

(** ** Retention *)

Section Retention.
Context `{Torch} (env : Env).

Lemma remove_one_tolerated p w :
  tolerated env p = true ->
  exists w',
    remove_checkpoint env p w = (Ok tt, w')
    /\ rmtree_calls w' = (rmtree_calls w ++ [p])%list
    /\ fs w' = removal env (fs w) p
    /\ stdout w' = stdout w.
Proof.
  unfold remove_checkpoint, tolerated, removal, try_except, rmtree, rmtree_effect,
    bind, modify, get, raise, ret.
  destruct w as [out tr rg f calls bar saved]. simpl.
  destruct (rmtree_fault env p) as [e|]; simpl.
  - destruct e; try discriminate. intros _. eexists. simpl. repeat split.
  - intros _. destruct (existsb _ f); simpl; eexists; repeat split.
Qed.

Lemma remove_one_fatal p e w :
  rmtree_fault env p = Some e ->
  swallow_file_not_found e = None ->
  remove_checkpoint env p w = (Raise e, with_rmtree_calls (fun c => (c ++ [p])%list) w).
Proof.
  intros F S. unfold remove_checkpoint, try_except, rmtree, bind, modify, raise. simpl.
  rewrite F. simpl. now rewrite S.
Qed.

(** A loop over removals that are all tolerated runs to its end. *)
Lemma delete_loop_tolerated l : forall w,
  Forall (fun p => tolerated env p = true) l ->
  exists w',
    for_each l (remove_checkpoint env) w = (Ok tt, w')
    /\ rmtree_calls w' = (rmtree_calls w ++ l)%list
    /\ fs w' = fold_left (removal env) l (fs w)
    /\ stdout w' = stdout w.
Proof.
  induction l as [|p l IH]; intros w Hl; simpl.
  - exists w. rewrite app_nil_r. repeat split.
  - apply Forall_cons in Hl as [Hp Hl].
    destruct (remove_one_tolerated p w Hp) as (w1 & E1 & C1 & F1 & S1).
    destruct (IH w1 Hl) as (w2 & E2 & C2 & F2 & S2).
    exists w2. rewrite (bind_ok _ _ _ _ _ E1).
    split; [exact E2|]. rewrite C2, C1, F2, F1, S2, S1, <- app_assoc.
    repeat split.
Qed.

(** The first removal that fails otherwise ends the loop with that error;
    nothing after it is attempted. *)
Lemma delete_loop_fatal pre p post e : forall w,
  Forall (fun p => tolerated env p = true) pre ->
  rmtree_fault env p = Some e ->
  swallow_file_not_found e = None ->
  exists w',
    for_each (pre ++ p :: post)%list (remove_checkpoint env) w = (Raise e, w')
    /\ rmtree_calls w' = (rmtree_calls w ++ pre ++ [p])%list
    /\ fs w' = fold_left (removal env) pre (fs w).
Proof.
  induction pre as [|q pre IH]; intros w Hpre F S; simpl.
  - eexists. rewrite (bind_raise _ _ _ _ _ (remove_one_fatal p e w F S)).
    destruct w; repeat split.
  - apply Forall_cons in Hpre as [Hq Hpre].
    destruct (remove_one_tolerated q w Hq) as (w1 & E1 & C1 & F1 & _).
    destruct (IH w1 Hpre F S) as (w2 & E2 & C2 & F2).
    exists w2. rewrite (bind_ok _ _ _ _ _ E1).
    split; [exact E2|]. rewrite C2, C1, F2, F1, <- app_assoc. repeat split.
Qed.

Lemma py_slice_to_positive {A} (l : list A) n :
  0 <= n -> py_slice_to l n = take (Z.to_nat n) l.
Proof.
  intros Hn. unfold py_slice_to.
  destruct (Z.ltb_spec n 0); [lia|reflexivity].
Qed.

(** On rank 0 the function is the loop over the oldest entries, after the
    message that lists them; other ranks do nothing. *)
Lemma delete_old_checkpoints_unfold save_dir keep_n w :
  delete_old_checkpoints env save_dir keep_n w
  = if get_rank env =? 0 then
      if Z.of_nat (length (all_ckpts_in env w save_dir)) - keep_n >? 0 then
        bind (print (deleting_message (oldest_beyond env w save_dir keep_n)))
          (fun _ => for_each (oldest_beyond env w save_dir keep_n) (remove_checkpoint env)) w
      else (Ok tt, w)
    else (Ok tt, w).
Proof.
  unfold delete_old_checkpoints. destruct (get_rank env =? 0); [|reflexivity].
  unfold glob_star, bind at 1, get at 1. simpl.
  unfold bind at 1, get at 1. simpl.
  change (natural_sort (List.filter (is_ckpt_dir w) _)) with (all_ckpts_in env w save_dir).
  destruct (Z.gtb_spec (Z.of_nat (length (all_ckpts_in env w save_dir)) - keep_n) 0);
    [|reflexivity].
  unfold oldest_beyond. now rewrite py_slice_to_positive by lia.
Qed.

Lemma oldest_beyond_nil save_dir keep_n w :
  Z.of_nat (length (all_ckpts_in env w save_dir)) - keep_n <= 0 ->
  oldest_beyond env w save_dir keep_n = [].
Proof.
  intros Hle. unfold oldest_beyond.
  replace (Z.to_nat _) with O by lia. reflexivity.
Qed.

End Retention.

Section RetentionOnSave.
Context `{Torch} (env : Env).

Lemma frames_save_ds_checkpoint {B} (f : World -> B) it neox_args :
  (forall g w, f (with_barriers g w) = f w) ->
  (forall b w, f (with_training b w) = f w) ->
  (forall g w, f (with_engine_saved g w) = f w) ->
  (forall g w, f (with_rng g w) = f w) ->
  (forall g w, f (with_fs g w) = f w) ->
  frames f (fun w => save_ds_checkpoint env it neox_args w).
Proof.
  intros Eb Et Ee Er Ef. unfold save_ds_checkpoint, model_save_checkpoint.
  apply frames_bind.
  { destruct (negb (no_save_rng neox_args)); auto with frames. }
  intros sd. apply frames_bind.
  { destruct (checkpoint_validation_with_forward_pass neox_args); [|apply frames_ret].
    apply frames_bind; [now apply frames_do_forward_pass | intros ?; apply frames_ret]. }
  intros sd'. apply frames_bind; [|intros _]; apply frames_modify; intros w;
    [apply Ee | apply Ef].
Qed.

(** With retention switched off a save does what handing the record to the
    engine does, and passes two barriers. *)
Lemma save_checkpoint_without_retention {B} (f : World -> B) neox_args it w :
  (forall g w, f (with_barriers g w) = f w) ->
  keep_last_n_checkpoints neox_args = None ->
  f (snd (save_checkpoint env neox_args it w))
  = if deepspeed neox_args
    then f (snd (save_ds_checkpoint env it neox_args w))
    else f w.
Proof.
  intros Eb K. unfold save_checkpoint. rewrite K.
  destruct (deepspeed neox_args); [|reflexivity].
  unfold bind at 1.
  destruct (save_ds_checkpoint env it neox_args w) as [[[]|e] w1]; [|reflexivity].
  unfold bind, barrier, modify, ret. simpl. now rewrite !Eb.
Qed.


End RetentionOnSave.

(** X23: on rank 0, and unless a removal fails with an error other than a
    missing directory, the directories removed are the first
    [len(all) - keep_n] entries of the list [all] that the function builds,
    in that order, none when [keep_n] is not below [len(all)]; up to
    [keep_n = len(all)] that is the Python slice [all[: len(all) - keep_n]].
    The file system loses the trees of these directories and nothing
    else. *)
Theorem delete_old_checkpoints_removes_oldest `{Torch} (env : Env) save_dir keep_n w :
  get_rank env = 0 ->
  Forall (fun p => tolerated env p = true) (oldest_beyond env w save_dir keep_n) ->
  let all := all_ckpts_in env w save_dir in
  exists w',
    delete_old_checkpoints env save_dir keep_n w = (Ok tt, w')
    /\ rmtree_calls w' = (rmtree_calls w ++ oldest_beyond env w save_dir keep_n)%list
    /\ fs w' = fold_left (removal env) (oldest_beyond env w save_dir keep_n) (fs w)
    /\ oldest_beyond env w save_dir keep_n
       = take (Z.to_nat (Z.of_nat (length all) - keep_n)) all
    /\ (keep_n <= Z.of_nat (length all) ->
        oldest_beyond env w save_dir keep_n
        = py_slice_to all (Z.of_nat (length all) - keep_n)).
Proof.
  intros R Htol all. rewrite delete_old_checkpoints_unfold, R. simpl.
  fold all.
  assert (Hslice : keep_n <= Z.of_nat (length all) ->
            oldest_beyond env w save_dir keep_n
            = py_slice_to all (Z.of_nat (length all) - keep_n)).
  { intros Hk. unfold oldest_beyond. fold all.
    now rewrite py_slice_to_positive by lia. }
  destruct (Z.gtb_spec (Z.of_nat (length all) - keep_n) 0) as [Hpos|Hle].
  - destruct (delete_loop_tolerated env _
                (with_stdout (fun out =>
                   (out ++ [deleting_message (oldest_beyond env w save_dir keep_n)])%list) w)
                Htol) as (w' & E & C & F & _).
    exists w'. split; [exact E|]. split; [|split; [|split]].
    + rewrite C. now destruct w.
    + rewrite F. now destruct w.
    + reflexivity.
    + exact Hslice.
  - exists w. pose proof (oldest_beyond_nil env save_dir keep_n w Hle) as Hnil.
    split; [reflexivity|].
    split; [now rewrite Hnil, app_nil_r|].
    split; [now rewrite Hnil|].
    split; [reflexivity | exact Hslice].
Qed.

(** Keeping two of the five checkpoint directories of the sample world
    removes the three oldest in natural order. *)
Lemma delete_old_checkpoints_removes_oldest_witness :
  let env := Sample.env_with (Ok [1]) (None, ∅) Sample.no_fault in
  exists w',
    delete_old_checkpoints env "ckpts" 2 Sample.world0 = (Ok tt, w')
    /\ rmtree_calls w'
       = ["ckpts/global_step8"; "ckpts/global_step9"; "ckpts/global_step10"]
    /\ fs w'
       = [ ("ckpts/global_step12", true); ("ckpts/latest", false);
           ("ckpts/global_step11", true); ("ckpts/configs", true);
           ("ckpts/global_step11/mp_rank_00_model_states.pt", false);
           ("ckpts/global_step12/mp_rank_00_model_states.pt", false) ].
Proof.
  intros env.
  destruct (delete_old_checkpoints_removes_oldest env "ckpts" 2 Sample.world0 eq_refl)
    as (w' & E & C & F & _).
  - repeat first [apply List.Forall_nil | apply List.Forall_cons; [reflexivity|]].
  - exists w'. split; [exact E|]. split; [exact C | exact F].
Defined.

(** With five checkpoint directories and [keep_n = 7] the slice
    [all[: len(all) - keep_n]] is [all[:-2]], the three oldest, whereas the
    function, which tests [n_to_delete > 0] first, removes nothing. *)
Example delete_old_checkpoints_keep_above_count :
  let env := Sample.env_with (Ok [1]) (None, ∅) Sample.no_fault in
  let all := all_ckpts_in env Sample.world0 "ckpts" in
  let w' := snd (delete_old_checkpoints env "ckpts" 7 Sample.world0) in
  length all = 5%nat
  /\ py_slice_to all (Z.of_nat (length all) - 7)
     = ["ckpts/global_step8"; "ckpts/global_step9"; "ckpts/global_step10"]
  /\ rmtree_calls w' = []
  /\ fs w' = fs Sample.world0
  /\ rmtree_calls w' <> py_slice_to all (Z.of_nat (length all) - 7).
Proof. vm_compute. repeat split; discriminate. Qed.

(** C2, at an input on which the code departs from it: five checkpoint
    directories lie under [/data/ckpts] and two are to be kept.  Given the
    save directory as [/data/ckpts] the function removes the three oldest.
    Given it as [/data/ckpts/] the function strips the leading slash along
    with the trailing one, lists [data/ckpts/*] instead, finds no
    candidate and removes nothing. *)
Theorem delete_old_checkpoints_absolute_trailing_slash :
  let env := Sample.env_with (Ok [1]) (None, ∅) Sample.no_fault in
  let w := Sample.world_absolute in
  normalized_save_dir "/data/ckpts/" = "data/ckpts"
  /\ all_ckpts_in env w "/data/ckpts/" = []
  /\ delete_old_checkpoints env "/data/ckpts/" 2 w = (Ok tt, w)
  /\ all_ckpts_in env w "/data/ckpts"
     = [ "/data/ckpts/global_step1"; "/data/ckpts/global_step2";
         "/data/ckpts/global_step3"; "/data/ckpts/global_step4";
         "/data/ckpts/global_step5" ]
  /\ rmtree_calls (snd (delete_old_checkpoints env "/data/ckpts" 2 w))
     = [ "/data/ckpts/global_step1"; "/data/ckpts/global_step2";
         "/data/ckpts/global_step3" ].
Proof. vm_compute. repeat split. Qed.

(** C9: with no keep-last count a save makes no removal at all, and the
    file system is as handing the record to the engine left it; when the
    retention loop runs, a removal that fails because the directory is
    missing is passed over and the loop goes on to its end, while any other
    error of a removal leaves the function as it is, before the remaining
    directories are tried. *)
Theorem retention_is_best_effort `{Torch} (env : Env) :
  (forall neox_args it w,
     keep_last_n_checkpoints neox_args = None ->
     let w' := snd (save_checkpoint env neox_args it w) in
     rmtree_calls w' = rmtree_calls w
     /\ fs w' = if deepspeed neox_args
                then fs (snd (save_ds_checkpoint env it neox_args w))
                else fs w)
  /\ (forall save_dir keep_n w pre p q post,
        get_rank env = 0 ->
        oldest_beyond env w save_dir keep_n = (pre ++ p :: post)%list ->
        Forall (fun p => tolerated env p = true) pre ->
        rmtree_fault env p = Some (FileNotFoundError q) ->
        Forall (fun p => tolerated env p = true) post ->
        exists w',
          delete_old_checkpoints env save_dir keep_n w = (Ok tt, w')
          /\ rmtree_calls w' = (rmtree_calls w ++ pre ++ p :: post)%list)
  /\ (forall save_dir keep_n w pre p e post,
        get_rank env = 0 ->
        oldest_beyond env w save_dir keep_n = (pre ++ p :: post)%list ->
        Forall (fun p => tolerated env p = true) pre ->
        rmtree_fault env p = Some e ->
        (forall q, e <> FileNotFoundError q) ->
        exists w',
          delete_old_checkpoints env save_dir keep_n w = (Raise e, w')
          /\ rmtree_calls w' = (rmtree_calls w ++ pre ++ [p])%list).
Proof.
  split; [|split].
  - intros neox_args it w K. simpl. split.
    + rewrite (save_checkpoint_without_retention env rmtree_calls) by
        (assumption || now intros ? []).
      destruct (deepspeed neox_args); [|reflexivity].
      apply (frames_save_ds_checkpoint env rmtree_calls); now intros ? [].
    + apply (save_checkpoint_without_retention env fs); [now intros ? []|assumption].
  - intros save_dir keep_n w pre p q post R E Hpre Fp Hpost.
    assert (Htol : Forall (fun p => tolerated env p = true)
                     (oldest_beyond env w save_dir keep_n)).
    { rewrite E. apply Forall_app. split; [exact Hpre|].
      apply List.Forall_cons; [|exact Hpost]. unfold tolerated. now rewrite Fp. }
    rewrite delete_old_checkpoints_unfold, R. simpl.
    destruct (Z.gtb_spec (Z.of_nat (length (all_ckpts_in env w save_dir)) - keep_n) 0)
      as [Hpos|Hle].
    + destruct (delete_loop_tolerated env _
                  (with_stdout (fun out =>
                     (out ++ [deleting_message (oldest_beyond env w save_dir keep_n)])%list) w)
                  Htol) as (w' & E' & C & _).
      exists w'. split; [exact E'|]. rewrite C, E. now destruct w.
    + rewrite (oldest_beyond_nil env save_dir keep_n w Hle) in E.
      now destruct pre.
  - intros save_dir keep_n w pre p e post R E Hpre Fp Hne.
    assert (S : swallow_file_not_found e = None).
    { destruct e; try reflexivity. now destruct (Hne path). }
    rewrite delete_old_checkpoints_unfold, R. simpl.
    destruct (Z.gtb_spec (Z.of_nat (length (all_ckpts_in env w save_dir)) - keep_n) 0)
      as [Hpos|Hle].
    + rewrite E.
      destruct (delete_loop_fatal env pre p post e
                  (with_stdout (fun out =>
                     (out ++ [deleting_message (pre ++ p :: post)])%list) w)
                  Hpre Fp S) as (w' & E' & C & _).
      exists w'. split; [exact E'|]. rewrite C. now destruct w.
    + rewrite (oldest_beyond_nil env save_dir keep_n w Hle) in E.
      now destruct pre.
Qed.

Lemma retention_is_best_effort_witness :
  let env f := Sample.env_with (Ok [1]) (None, ∅) f in
  let gone := Sample.fault_on "ckpts/global_step9"
                (FileNotFoundError "ckpts/global_step9") in
  let denied := Sample.fault_on "ckpts/global_step9"
                  (PermissionError "ckpts/global_step9") in
  (let w' := snd (save_checkpoint (env Sample.no_fault)
                    (Sample.set_keep None Sample.args) 5000 Sample.world0) in
   rmtree_calls w' = []
   /\ fs w' = (fs Sample.world0
               ++ [ ("ckpts/global_step13", true);
                    ("ckpts/global_step13/mp_rank_00_model_states.pt", false) ])%list)
  /\ (exists w',
        delete_old_checkpoints (env gone) "ckpts" 2 Sample.world0 = (Ok tt, w')
        /\ rmtree_calls w'
           = ["ckpts/global_step8"; "ckpts/global_step9"; "ckpts/global_step10"])
  /\ (exists w',
        delete_old_checkpoints (env denied) "ckpts" 2 Sample.world0
        = (Raise (PermissionError "ckpts/global_step9"), w')
        /\ rmtree_calls w' = ["ckpts/global_step8"; "ckpts/global_step9"]).
Proof.
  intros env gone denied. split; [|split].
  - destruct (proj1 (retention_is_best_effort (env Sample.no_fault))
                (Sample.set_keep None Sample.args) 5000 Sample.world0 eq_refl)
      as [Hc Hf].
    split; [exact Hc|]. rewrite Hf. reflexivity.
  - refine (proj1 (proj2 (retention_is_best_effort (env gone)))
              "ckpts" 2 Sample.world0 ["ckpts/global_step8"] "ckpts/global_step9"
              "ckpts/global_step9" ["ckpts/global_step10"] eq_refl eq_refl _ eq_refl _);
      repeat first [apply List.Forall_nil | apply List.Forall_cons; [reflexivity|]].
  - refine (proj2 (proj2 (retention_is_best_effort (env denied)))
              "ckpts" 2 Sample.world0 ["ckpts/global_step8"] "ckpts/global_step9"
              (PermissionError "ckpts/global_step9") ["ckpts/global_step10"]
              eq_refl eq_refl _ eq_refl _);
      [ repeat first [apply List.Forall_nil | apply List.Forall_cons; [reflexivity|]]
      | intros q; discriminate ].
Defined.

(** ** Strings *)

Section StringFacts.

Lemma str_app_cons a s t : String a s +:+ t = String a (s +:+ t).
Proof. reflexivity. Qed.

Lemma str_app_nil_l s : "" +:+ s = s.
Proof. reflexivity. Qed.

Lemma str_app_nil_r s : s +:+ "" = s.
Proof. induction s as [|a s IH]; [reflexivity|]. now rewrite str_app_cons, IH. Qed.

Lemma str_app_assoc s t u : (s +:+ t) +:+ u = s +:+ (t +:+ u).
Proof.
  induction s as [|a s IH]; [reflexivity|]. now rewrite !str_app_cons, IH.
Qed.

Lemma str_length_app s t :
  String.length (s +:+ t) = (String.length s + String.length t)%nat.
Proof.
  induction s as [|a s IH]; [reflexivity|].
  rewrite str_app_cons. simpl. now rewrite IH.
Qed.

Lemma startswith_app p r : PyStr.startswith p (p +:+ r) = true.
Proof.
  induction p as [|a p IH]; [now destruct r|].
  rewrite str_app_cons. simpl. now rewrite Ascii.eqb_refl.
Qed.

Lemma startswith_inv p s : PyStr.startswith p s = true -> exists r, s = p +:+ r.
Proof.
  revert s. induction p as [|a p IH]; intros s E.
  - now exists s.
  - destruct s as [|b s]; [discriminate|]. simpl in E.
    destruct (Ascii.eqb_spec a b) as [->|]; [|discriminate].
    destruct (IH s E) as [r ->]. now exists r.
Qed.

Lemma contains_app p a b : PyStr.contains p (a +:+ p +:+ b) = true.
Proof.
  induction a as [|c a IH].
  - rewrite str_app_nil_l. destruct (p +:+ b) eqn:E; simpl; rewrite <- E;
      now rewrite startswith_app.
  - rewrite str_app_cons. simpl. rewrite IH. apply orb_true_r.
Qed.

Lemma contains_inv p s :
  PyStr.contains p s = true -> exists a b, s = a +:+ p +:+ b.
Proof.
  induction s as [|c s IH]; simpl; intros E.
  - rewrite orb_false_r in E. destruct (startswith_inv _ _ E) as [r ->].
    now exists "", r.
  - apply orb_true_iff in E as [E|E].
    + destruct (startswith_inv _ _ E) as [r ->]. now exists "", r.
    + destruct (IH E) as (a & b & ->). now exists (String c a), b.
Qed.


Lemma rev_app_spec s t : String.rev_app s t = String.rev s +:+ t.
Proof.
  unfold String.rev. revert t. induction s as [|a s IH]; intros t; simpl.
  - reflexivity.
  - rewrite (IH (String a t)), (IH (String a "")), str_app_assoc. reflexivity.
Qed.

Lemma rev_cons a s : String.rev (String a s) = String.rev s +:+ String a "".
Proof. unfold String.rev at 1. simpl. apply rev_app_spec. Qed.

Lemma rev_app s t : String.rev (s +:+ t) = String.rev t +:+ String.rev s.
Proof.
  induction s as [|a s IH].
  - now rewrite str_app_nil_l, str_app_nil_r.
  - now rewrite str_app_cons, !rev_cons, IH, str_app_assoc.
Qed.

Lemma rev_involutive s : String.rev (String.rev s) = s.
Proof.
  induction s as [|a s IH]; [reflexivity|].
  now rewrite rev_cons, rev_app, IH.
Qed.

Lemma contains_rev p s :
  PyStr.contains p s = true -> PyStr.contains (String.rev p) (String.rev s) = true.
Proof.
  intros E. destruct (contains_inv _ _ E) as (a & b & ->).
  rewrite !rev_app, str_app_assoc. apply contains_app.
Qed.



End StringFacts.

(** ** Retention: which directories are found *)

Section Discovery.
Context `{Torch} (env : Env).

Lemma drop_str_app a r : drop_str (String.length a) (a +:+ r) = r.
Proof. induction a as [|c a IH]; [now destruct r|]. rewrite str_app_cons. exact IH. Qed.

Lemma startswith_app_cancel a b c :
  PyStr.startswith (a +:+ b) (a +:+ c) = PyStr.startswith b c.
Proof.
  induction a as [|x a IH]; [reflexivity|].
  rewrite !str_app_cons. cbn [PyStr.startswith]. now rewrite Ascii.eqb_refl.
Qed.

(** A listed entry is the directory, a slash and one more component. *)
Lemma is_child_of_inv d p :
  is_child_of d p = true ->
  exists name, p = d +:+ "/" +:+ name /\ PyStr.contains "/" name = false.
Proof.
  unfold is_child_of. intros E.
  apply andb_true_iff in E as [Hpre E].
  destruct (startswith_inv _ _ Hpre) as [r ->].
  replace (String.length d + 1)%nat with (String.length (d +:+ "/")) in E
    by (rewrite str_length_app; reflexivity).
  rewrite drop_str_app in E.
  apply andb_true_iff in E as [E _]. apply andb_true_iff in E as [_ E].
  exists r. rewrite str_app_assoc. split; [reflexivity|].
  now apply negb_true_iff in E.
Qed.

Lemma is_child_of_name d p :
  is_child_of d p = true ->
  exists name,
    p = d +:+ "/" +:+ name
    /\ name <> "" /\ PyStr.contains "/" name = false
    /\ PyStr.startswith "." name = false.
Proof.
  unfold is_child_of. intros E.
  apply andb_true_iff in E as [Hpre E].
  destruct (startswith_inv _ _ Hpre) as [r ->].
  replace (String.length d + 1)%nat with (String.length (d +:+ "/")) in E
    by (rewrite str_length_app; reflexivity).
  rewrite drop_str_app in E.
  apply andb_true_iff in E as [E Hh]. apply andb_true_iff in E as [Hne E].
  exists r. rewrite str_app_assoc. repeat split.
  - intros ->. discriminate.
  - now apply negb_true_iff in E.
  - now apply negb_true_iff in Hh.
Qed.

(** One entry of a directory is never below another one. *)
Lemma sibling_not_below d p q :
  is_child_of d p = true -> is_child_of d q = true ->
  PyStr.startswith (q +:+ "/") p = false.
Proof.
  intros Hp Hq.
  destruct (is_child_of_inv _ _ Hp) as (n & -> & Hn).
  destruct (is_child_of_inv _ _ Hq) as (m & -> & _).
  rewrite <- (str_app_assoc d "/" n), <- (str_app_assoc d "/" m).
  rewrite str_app_assoc, startswith_app_cancel.
  destruct (PyStr.startswith (m +:+ "/") n) eqn:E; [|reflexivity].
  destruct (startswith_inv _ _ E) as [r ->].
  rewrite str_app_assoc, contains_app in Hn. discriminate.
Qed.


Lemma bool_eq_of_iff (a b : bool) : (a = true <-> b = true) -> a = b.
Proof.
  destruct a, b; intros [Hab Hba]; try reflexivity.
  - symmetry. now apply Hab.
  - now apply Hba.
Qed.

Lemma lstrip_idem c s : PyStr.lstrip c (PyStr.lstrip c s) = PyStr.lstrip c s.
Proof.
  induction s as [|a s IH]; [reflexivity|]. cbn [PyStr.lstrip].
  destruct (Ascii.eqb a c) eqn:E; [exact IH|]. cbn [PyStr.lstrip]. now rewrite E.
Qed.

Lemma rstrip_idem c s : PyStr.rstrip c (PyStr.rstrip c s) = PyStr.rstrip c s.
Proof. unfold PyStr.rstrip. now rewrite rev_involutive, lstrip_idem. Qed.

Lemma lstrip_unchanged c s :
  PyStr.startswith (String c "") s = false -> PyStr.lstrip c s = s.
Proof.
  destruct s as [|a s]; [reflexivity|]. cbn [PyStr.startswith PyStr.lstrip].
  rewrite (Ascii.eqb_sym c a). now destruct (Ascii.eqb a c).
Qed.

Lemma rstrip_unchanged c s :
  PyStr.endswith (String c "") s = false -> PyStr.rstrip c s = s.
Proof.
  unfold PyStr.endswith, PyStr.rstrip. change (String.rev (String c "")) with (String c "").
  intros E. now rewrite (lstrip_unchanged _ _ E), rev_involutive.
Qed.

(** What the function hands to [glob] never ends with a slash, so that
    the directory part of the pattern is that path itself. *)
Lemma glob_parent_normalized save_dir :
  glob_parent (normalized_save_dir save_dir) = normalized_save_dir save_dir.
Proof.
  unfold glob_parent, normalized_save_dir.
  destruct (PyStr.endswith "/" save_dir) eqn:E.
  - destruct (only_slashes _); [reflexivity|]. unfold PyStr.strip. apply rstrip_idem.
  - destruct (only_slashes save_dir); [reflexivity|]. now apply rstrip_unchanged.
Qed.

(** Stripping slashes neither adds nor removes another character. *)
Lemma contains_char_lstrip c a s :
  a <> c ->
  PyStr.contains (String a "") (PyStr.lstrip c s) = PyStr.contains (String a "") s.
Proof.
  intros Hac. induction s as [|b s IH]; [reflexivity|]. cbn [PyStr.lstrip].
  destruct (Ascii.eqb_spec b c) as [->|]; [|reflexivity].
  rewrite IH. cbn [PyStr.contains PyStr.startswith].
  destruct (Ascii.eqb_spec a c); [contradiction|reflexivity].
Qed.

Lemma contains_char_rev a s :
  PyStr.contains (String a "") (String.rev s) = PyStr.contains (String a "") s.
Proof.
  apply bool_eq_of_iff. split; intros E.
  - apply contains_rev in E. now rewrite rev_involutive in E.
  - now apply contains_rev in E.
Qed.

Lemma contains_char_strip c a s :
  a <> c ->
  PyStr.contains (String a "") (PyStr.strip c s) = PyStr.contains (String a "") s.
Proof.
  intros Hac. unfold PyStr.strip, PyStr.rstrip.
  now rewrite contains_char_rev, contains_char_lstrip, contains_char_rev,
    contains_char_lstrip.
Qed.

Lemma has_magic_normalized save_dir :
  has_magic (normalized_save_dir save_dir) = has_magic save_dir.
Proof.
  unfold normalized_save_dir. destruct (PyStr.endswith "/" save_dir); [|reflexivity].
  unfold has_magic. now rewrite !contains_char_strip by discriminate.
Qed.

(** For a save directory without pattern characters [glob] lists the
    entries of that directory, hidden ones left out. *)
Lemma glob_star_in_literal w save_dir :
  has_magic save_dir = false ->
  glob_star_in env w (normalized_save_dir save_dir)
  = glob_children (fs w) (normalized_save_dir save_dir).
Proof.
  intros Hm. unfold glob_star_in.
  now rewrite glob_parent_normalized, has_magic_normalized, Hm.
Qed.

(** The pattern matches exactly the paths that contain [global_step]: the
    digit run may be empty and the search is not anchored. *)
Lemma re_search_ckpt_dir_contains s :
  bool_decide (is_Some (re_search_ckpt_dir s)) = PyStr.contains "global_step" s.
Proof.
  induction s as [|a s IH].
  - reflexivity.
  - cbn [re_search_ckpt_dir PyStr.contains].
    destruct (PyStr.startswith "global_step" (String a s)).
    + apply bool_decide_eq_true_2. eauto.
    + exact IH.
Qed.



Lemma insert_perm x l : NaturalSort.insert x l ≡ₚ x :: l.
Proof.
  induction l as [|y l IH]; simpl; [reflexivity|].
  destruct (NaturalSort.leb x y); [reflexivity|].
  rewrite IH. apply Permutation_swap.
Qed.

(** Sorting rearranges, it neither drops nor adds a name. *)
Lemma natural_sort_perm l : natural_sort l ≡ₚ l.
Proof.
  induction l as [|x l IH]; simpl; [reflexivity|].
  unfold natural_sort in *. simpl. now rewrite insert_perm, IH.
Qed.

Lemma isdir_listed w p : In (p, true) (fs w) -> isdir w p = true.
Proof.
  intros Hin. unfold isdir. apply existsb_exists. exists (p, true).
  split; [exact Hin|]. simpl. now rewrite String.eqb_refl.
Qed.

Lemma isdir_inv w p : isdir w p = true -> In (p, true) (fs w).
Proof.
  unfold isdir. intros Hd.
  apply existsb_exists in Hd as ([q' b'] & Hq' & E). simpl in E.
  apply andb_true_iff in E as [E ->]. apply String.eqb_eq in E as ->. exact Hq'.
Qed.

Lemma glob_children_In f dir p :
  In p (glob_children f dir) <-> (exists b, In (p, b) f) /\ is_child_of dir p = true.
Proof.
  unfold glob_children. split.
  - intros Hin. apply in_map_iff in Hin as ([q b] & <- & Hq).
    apply filter_In in Hq as [Hq Hc]. split; [now exists b | exact Hc].
  - intros [[b Hb] Hc]. apply in_map_iff. exists (p, b). split; [reflexivity|].
    apply filter_In. now split.
Qed.

(** What the function's list holds: the paths [glob] lists that are
    directories and contain [global_step]. *)
Lemma all_ckpts_in_In w save_dir p :
  In p (all_ckpts_in env w save_dir)
  <-> In p (glob_star_in env w (normalized_save_dir save_dir))
      /\ In (p, true) (fs w)
      /\ PyStr.contains "global_step" p = true.
Proof.
  unfold all_ckpts_in. rewrite <- !list_elem_of_In, natural_sort_perm, !list_elem_of_In.
  rewrite filter_In. unfold is_ckpt_dir.
  rewrite andb_true_iff, re_search_ckpt_dir_contains.
  split.
  - intros (Hl & Hd & Hc). repeat split; try assumption. now apply isdir_inv.
  - intros (Hl & Hd & Hc). repeat split; try assumption. now apply isdir_listed.
Qed.


(** Every candidate is a directory that [glob] listed and whose path
    contains [global_step]; without pattern characters in the save
    directory it lies right under it. *)
Lemma candidate_is_listed w save_dir p :
  In p (all_ckpts_in env w save_dir) ->
  In (p, true) (fs w)
  /\ PyStr.contains "global_step" p = true
  /\ In p (glob_star_in env w (normalized_save_dir save_dir))
  /\ (has_magic save_dir = false ->
      is_child_of (normalized_save_dir save_dir) p = true).
Proof.
  intros Hin. apply all_ckpts_in_In in Hin as (Hl & Hd & Hc).
  repeat split; try assumption.
  intros Hm. rewrite (glob_star_in_literal _ _ Hm) in Hl.
  now apply glob_children_In in Hl as [_ Hl].
Qed.


End Discovery.

Section RetentionEffects.
Context `{Torch} (env : Env).

(** One pass of the loop body records its call and changes the file system
    by [removal], whatever it returns. *)
Lemma remove_checkpoint_effect p w :
  rmtree_calls (snd (remove_checkpoint env p w)) = (rmtree_calls w ++ [p])%list
  /\ fs (snd (remove_checkpoint env p w)) = removal env (fs w) p
  /\ stdout (snd (remove_checkpoint env p w)) = stdout w
  /\ barriers (snd (remove_checkpoint env p w)) = barriers w.
Proof.
  unfold remove_checkpoint, removal, try_except, rmtree, rmtree_effect,
    bind, modify, get, raise, ret.
  destruct w as [out tr rg f calls bar saved]. simpl.
  destruct (rmtree_fault env p) as [e|]; simpl.
  - destruct (swallow_file_not_found e) eqn:S; simpl.
    + destruct e; try discriminate. injection S as <-. repeat split.
    + repeat split.
  - destruct (existsb _ f); simpl; repeat split.
Qed.

(** The loop deals with a prefix of its list, in order. *)
Lemma delete_loop_effect l : forall w,
  exists done rest,
    l = (done ++ rest)%list
    /\ rmtree_calls (snd (for_each l (remove_checkpoint env) w))
       = (rmtree_calls w ++ done)%list
    /\ fs (snd (for_each l (remove_checkpoint env) w))
       = fold_left (removal env) done (fs w)
    /\ stdout (snd (for_each l (remove_checkpoint env) w)) = stdout w
    /\ barriers (snd (for_each l (remove_checkpoint env) w)) = barriers w.
Proof.
  induction l as [|p l IH]; intros w.
  - exists [], []. simpl. rewrite app_nil_r. repeat split.
  - destruct (remove_checkpoint_effect p w) as (C1 & F1 & S1 & B1).
    cbn [for_each]. unfold bind.
    destruct (remove_checkpoint env p w) as [[[]|e] w1]; simpl in *.
    + destruct (IH w1) as (done & rest & -> & C & F & S & B).
      exists (p :: done), rest. rewrite C, F, S, B, C1, F1, S1, B1, <- app_assoc.
      repeat split.
    + exists [p], l. rewrite C1, F1, S1, B1. repeat split.
Qed.

(** What a retention run does to the world, on every rank and for every
    outcome. *)
Lemma delete_old_checkpoints_effect save_dir keep_n w :
  exists done rest,
    oldest_beyond env w save_dir keep_n = (done ++ rest)%list
    /\ rmtree_calls (snd (delete_old_checkpoints env save_dir keep_n w))
       = (rmtree_calls w ++ done)%list
    /\ fs (snd (delete_old_checkpoints env save_dir keep_n w))
       = fold_left (removal env) done (fs w)
    /\ barriers (snd (delete_old_checkpoints env save_dir keep_n w)) = barriers w
    /\ stdout (snd (delete_old_checkpoints env save_dir keep_n w))
       = (if (get_rank env =? 0)
             && (Z.of_nat (length (all_ckpts_in env w save_dir)) - keep_n >? 0)
          then (stdout w ++ [deleting_message (oldest_beyond env w save_dir keep_n)])%list
          else stdout w)
    /\ (get_rank env <> 0 -> done = []).
Proof.
  rewrite delete_old_checkpoints_unfold.
  destruct (Z.eqb_spec (get_rank env) 0) as [R|R].
  - destruct (Z.gtb_spec (Z.of_nat (length (all_ckpts_in env w save_dir)) - keep_n) 0)
      as [Hpos|Hle].
    + change (bind (print (deleting_message (oldest_beyond env w save_dir keep_n)))
                (fun _ => for_each (oldest_beyond env w save_dir keep_n)
                            (remove_checkpoint env)) w)
        with (for_each (oldest_beyond env w save_dir keep_n) (remove_checkpoint env)
                (with_stdout (fun out =>
                   (out ++ [deleting_message (oldest_beyond env w save_dir keep_n)])%list) w)).
      destruct (delete_loop_effect (oldest_beyond env w save_dir keep_n)
                  (with_stdout (fun out =>
                     (out ++ [deleting_message (oldest_beyond env w save_dir keep_n)])%list) w))
        as (done & rest & E & C & F & S & B).
      exists done, rest. split; [exact E|].
      split; [rewrite C; now destruct w|].
      split; [rewrite F; now destruct w|].
      split; [rewrite B; now destruct w|].
      split; [rewrite S; now destruct w|].
      intros; contradiction.
    + exists [], (oldest_beyond env w save_dir keep_n). simpl. rewrite app_nil_r.
      repeat split.
  - exists [], (oldest_beyond env w save_dir keep_n). simpl. rewrite app_nil_r.
    repeat split.
Qed.

(** Whatever a retention run hands to [rmtree] is one of its candidates. *)
Lemma removed_is_candidate save_dir keep_n w p :
  In p (rmtree_calls (snd (delete_old_checkpoints env save_dir keep_n w))) ->
  In p (rmtree_calls w) \/ In p (all_ckpts_in env w save_dir).
Proof.
  destruct (delete_old_checkpoints_effect save_dir keep_n w)
    as (done & rest & E & C & _). rewrite C. intros Hin.
  apply in_app_or in Hin as [Hin|Hin]; [now left|right].
  assert (Hsub : In p (oldest_beyond env w save_dir keep_n))
    by (rewrite E; apply in_or_app; now left).
  unfold oldest_beyond in Hsub.
  apply list_elem_of_In in Hsub. apply list_elem_of_In.
  exact (subseteq_take _ _ _ Hsub).
Qed.

(** Keeping nothing hands every candidate to [rmtree], in order. *)
Lemma delete_all_candidates save_dir keep_n w :
  get_rank env = 0 ->
  keep_n <= 0 ->
  Forall (fun p => tolerated env p = true) (all_ckpts_in env w save_dir) ->
  exists w',
    delete_old_checkpoints env save_dir keep_n w = (Ok tt, w')
    /\ rmtree_calls w' = (rmtree_calls w ++ all_ckpts_in env w save_dir)%list.
Proof.
  intros R K Htol.
  assert (Hall : oldest_beyond env w save_dir keep_n = all_ckpts_in env w save_dir).
  { unfold oldest_beyond. apply take_ge. lia. }
  rewrite delete_old_checkpoints_unfold, R. simpl.
  destruct (Z.gtb_spec (Z.of_nat (length (all_ckpts_in env w save_dir)) - keep_n) 0)
    as [Hpos|Hle].
  - rewrite Hall.
    destruct (delete_loop_tolerated env _
                (with_stdout (fun out =>
                   (out ++ [deleting_message (all_ckpts_in env w save_dir)])%list) w)
                Htol) as (w' & E & C & _).
    exists w'. split; [exact E|]. rewrite C. now destruct w.
  - exists w. split; [reflexivity|].
    destruct (all_ckpts_in env w save_dir); [now rewrite app_nil_r|simpl in Hle; lia].
Qed.

End RetentionEffects.




(** Under a save directory whose path contains [global_step] every
    subdirectory competes: keeping one removes the configuration directory
    and the checkpoint, and keeps the log directory, last in the order. *)
Example retention_in_a_global_step_directory :
  rmtree_calls
    (snd (delete_old_checkpoints (Sample.env_with (Ok [1]) (None, ∅) Sample.no_fault)
            "runs/global_step_sweep/" 1 Sample.world_sweep))
  = ["runs/global_step_sweep/configs"; "runs/global_step_sweep/global_step100"].
Proof. vm_compute. reflexivity. Qed.


(** ** Decimal formatting *)

Section Formatting.

Local Open Scope N_scope.

Lemma digit_cases d :
  d < 10 -> d = 0 \/ d = 1 \/ d = 2 \/ d = 3 \/ d = 4 \/ d = 5 \/ d = 6 \/ d = 7
            \/ d = 8 \/ d = 9.
Proof. lia. Qed.

Lemma digit_val_char d : d < 10 -> NaturalSort.digit_val (PyStr.digit_char d) = d.
Proof. intros Hd. destruct (digit_cases d Hd) as [->|[->|[->|[->|[->|[->|[->|[->|[->| ->]]]]]]]]]; reflexivity. Qed.

Lemma is_digit_char d : d < 10 -> PyStr.is_digit (PyStr.digit_char d) = true.
Proof. intros Hd. destruct (digit_cases d Hd) as [->|[->|[->|[->|[->|[->|[->|[->|[->| ->]]]]]]]]]; reflexivity. Qed.

Lemma digits_value_app s t acc :
  digits_value (s +:+ t) acc = digits_value t (digits_value s acc).
Proof.
  revert acc. induction s as [|a s IH]; intros acc; [reflexivity|].
  rewrite str_app_cons. simpl. apply IH.
Qed.

Lemma all_chars_app P s t :
  all_chars P (s +:+ t) = (all_chars P s && all_chars P t)%bool.
Proof.
  induction s as [|a s IH]; [reflexivity|].
  rewrite str_app_cons. simpl. now rewrite IH, andb_assoc.
Qed.

Lemma all_chars_impl (P Q : ascii -> bool) s :
  (forall a, P a = true -> Q a = true) ->
  all_chars P s = true -> all_chars Q s = true.
Proof.
  intros HPQ. induction s as [|a s IH]; [reflexivity|]. simpl.
  intros E. apply andb_true_iff in E as [Ea Es].
  now rewrite (HPQ _ Ea), IH.
Qed.

(** The digits denote the number they were taken from, given fuel for
    every binary digit. *)
Lemma digits_of_value fuel : forall n,
  n < 2 ^ N.of_nat fuel -> digits_value (PyStr.digits_of fuel n) 0 = n.
Proof.
  induction fuel as [|fuel IH]; intros n Hn.
  - simpl in *. lia.
  - cbn [PyStr.digits_of]. rewrite digits_value_app.
    rewrite Nat2N.inj_succ, N.pow_succ_r' in Hn.
    pose proof (N.mod_lt n 10 ltac:(lia)) as Hmod.
    destruct (N.ltb_spec n 10) as [Hsmall|Hbig].
    + simpl. rewrite digit_val_char by exact Hmod.
      rewrite N.mod_small by exact Hsmall. lia.
    + rewrite IH by (apply N.Div0.div_lt_upper_bound; lia).
      simpl. rewrite digit_val_char by exact Hmod.
      pose proof (N.div_mod n 10 ltac:(lia)). lia.
Qed.

Lemma of_N_value n : digits_value (PyStr.of_N n) 0 = n.
Proof.
  unfold PyStr.of_N. apply digits_of_value.
  rewrite Nat2N.inj_succ, N2Nat.id.
  destruct (N.eq_dec n 0) as [->|Hn]; [reflexivity|].
  apply N.log2_spec. lia.
Qed.

Lemma digits_of_all_digits fuel : forall n,
  all_chars PyStr.is_digit (PyStr.digits_of fuel n) = true.
Proof.
  induction fuel as [|fuel IH]; intros n; [reflexivity|].
  cbn [PyStr.digits_of]. rewrite all_chars_app. simpl.
  rewrite is_digit_char by (apply N.mod_lt; lia).
  destruct (n <? 10); [reflexivity|]. now rewrite IH.
Qed.

(** A number below [10^(k+1)] has at most [k+1] digits. *)
Lemma digits_of_length fuel : forall n k,
  n < 10 ^ N.of_nat (S k) ->
  (String.length (PyStr.digits_of fuel n) <= S k)%nat.
Proof.
  induction fuel as [|fuel IH]; intros n k Hn; [simpl; lia|].
  cbn [PyStr.digits_of]. rewrite str_length_app. simpl.
  destruct (N.ltb_spec n 10) as [Hsmall|Hbig]; [simpl; lia|].
  destruct k as [|k].
  - change (10 ^ N.of_nat 1) with 10 in Hn. lia.
  - rewrite Nat2N.inj_succ, N.pow_succ_r' in Hn.
    specialize (IH (n / 10) k (N.Div0.div_lt_upper_bound _ _ _ Hn)). lia.
Qed.

Lemma digits_of_nonempty fuel n : (1 <= String.length (PyStr.digits_of (S fuel) n))%nat.
Proof. cbn [PyStr.digits_of]. rewrite str_length_app. simpl. lia. Qed.

Lemma zeros_length k : String.length (PyStr.zeros k) = k.
Proof. induction k as [|k IH]; simpl; [reflexivity|now rewrite IH]. Qed.

Lemma zeros_value k : digits_value (PyStr.zeros k) 0 = 0.
Proof. induction k as [|k IH]; [reflexivity|exact IH]. Qed.

Lemma zeros_all_digits k : all_chars PyStr.is_digit (PyStr.zeros k) = true.
Proof. induction k as [|k IH]; [reflexivity|exact IH]. Qed.

Lemma zfill_value w n : digits_value (PyStr.zfill w (PyStr.of_N n)) 0 = n.
Proof.
  unfold PyStr.zfill. now rewrite digits_value_app, zeros_value, of_N_value.
Qed.

Lemma zfill_all_digits w n :
  all_chars PyStr.is_digit (PyStr.zfill w (PyStr.of_N n)) = true.
Proof.
  unfold PyStr.zfill, PyStr.of_N.
  now rewrite all_chars_app, zeros_all_digits, digits_of_all_digits.
Qed.

Lemma zfill_length w n k :
  n < 10 ^ N.of_nat (S k) -> (S k <= w)%nat ->
  String.length (PyStr.zfill w (PyStr.of_N n)) = w.
Proof.
  intros Hn Hw. unfold PyStr.zfill. rewrite str_length_app, zeros_length.
  pose proof (digits_of_length (S (N.to_nat (N.log2 n))) n k Hn).
  unfold PyStr.of_N. lia.
Qed.

End Formatting.

Section FormatFacts.

Lemma digit_not_slash a : PyStr.is_digit a = true -> not_slash a = true.
Proof.
  unfold not_slash. destruct (Ascii.eqb_spec a "/") as [->|]; [discriminate|reflexivity].
Qed.

Lemma format_0d_nonneg w z :
  0 <= z -> PyStr.format_0d w z = PyStr.zfill w (PyStr.of_N (Z.to_N z)).
Proof. intros Hz. unfold PyStr.format_0d. destruct (Z.ltb_spec z 0); [lia|reflexivity]. Qed.

Lemma format_0d_neg w z :
  z < 0 ->
  PyStr.format_0d w z = String "-" (PyStr.zfill (w - 1) (PyStr.of_N (Z.to_N (- z)))).
Proof. intros Hz. unfold PyStr.format_0d. destruct (Z.ltb_spec z 0); [reflexivity|lia]. Qed.

(** Padding with zeros loses nothing: the number can be read back. *)
Lemma format_0d_inj w z z' : PyStr.format_0d w z = PyStr.format_0d w z' -> z = z'.
Proof.
  intros E. destruct (Z.lt_ge_cases z 0) as [Hz|Hz], (Z.lt_ge_cases z' 0) as [Hz'|Hz'].
  - rewrite !format_0d_neg in E by assumption. injection E as E.
    apply (f_equal (fun s => digits_value s 0)) in E. rewrite !zfill_value in E. lia.
  - rewrite format_0d_neg, format_0d_nonneg in E by assumption.
    pose proof (zfill_all_digits w (Z.to_N z')) as D. rewrite <- E in D. discriminate.
  - rewrite format_0d_nonneg, format_0d_neg in E by assumption.
    pose proof (zfill_all_digits w (Z.to_N z)) as D. rewrite E in D. discriminate.
  - rewrite !format_0d_nonneg in E by assumption.
    apply (f_equal (fun s => digits_value s 0)) in E. rewrite !zfill_value in E. lia.
Qed.

Lemma format_0d_no_slash w z : all_chars not_slash (PyStr.format_0d w z) = true.
Proof.
  destruct (Z.lt_ge_cases z 0) as [Hz|Hz].
  - rewrite format_0d_neg by assumption. simpl.
    apply (all_chars_impl _ _ _ digit_not_slash), zfill_all_digits.
  - rewrite format_0d_nonneg by assumption.
    apply (all_chars_impl _ _ _ digit_not_slash), zfill_all_digits.
Qed.

(** A number that fits the width is printed in exactly that many digits. *)
Lemma format_0d_width k z :
  0 <= z < 10 ^ Z.of_nat (S k) ->
  String.length (PyStr.format_0d (S k) z) = S k
  /\ all_chars PyStr.is_digit (PyStr.format_0d (S k) z) = true.
Proof.
  intros [Hz Hlt]. rewrite format_0d_nonneg by assumption. split.
  - apply (zfill_length _ _ k); [|lia].
    apply N2Z.inj_lt. rewrite Z2N.id by assumption.
    rewrite N2Z.inj_pow, nat_N_Z. exact Hlt.
  - apply zfill_all_digits.
Qed.

(** Two strings that agree after a first slash agree before it. *)
Lemma split_at_first_slash a : forall a' x x',
  all_chars not_slash a = true -> all_chars not_slash a' = true ->
  a +:+ String "/" x = a' +:+ String "/" x' -> a = a' /\ x = x'.
Proof.
  induction a as [|c a IH]; intros [|c' a'] x x' Ha Ha' E.
  - rewrite !str_app_nil_l in E. now injection E.
  - rewrite str_app_nil_l, str_app_cons in E. injection E as <- _.
    simpl in Ha'. discriminate.
  - rewrite str_app_nil_l, str_app_cons in E. injection E as -> _.
    simpl in Ha. discriminate.
  - rewrite !str_app_cons in E. injection E as -> E.
    simpl in Ha, Ha'. apply andb_true_iff in Ha as [_ Ha], Ha' as [_ Ha'].
    destruct (IH a' x x' Ha Ha' E) as [-> ->]. now split.
Qed.

End FormatFacts.

(** ** Checkpoint names *)

Section Naming.

Lemma path_join_step_relative path b :
  PyStr.startswith "/" b = false -> path_join_step path b = join_base path +:+ b.
Proof.
  intros Hb. unfold path_join_step, join_base. rewrite Hb.
  destruct (String.eqb path "" || PyStr.endswith "/" path)%bool; [reflexivity|].
  now rewrite str_app_assoc.
Qed.

Lemma last_char P a s :
  exists u c, String a s = u +:+ String c ""
              /\ (all_chars P (String a s) = true -> P c = true).
Proof.
  revert a. induction s as [|b s IH]; intros a.
  - exists "", a. split; [reflexivity|]. simpl. now rewrite andb_true_r.
  - destruct (IH b) as (u & c & E & Hc). exists (String a u), c.
    rewrite E. split; [reflexivity|]. rewrite <- E. intros Hall.
    apply Hc. change (all_chars P (String a (String b s)))
      with (P a && all_chars P (String b s))%bool in Hall.
    now apply andb_true_iff in Hall as [_ Hall].
Qed.

(** After a component that is not empty and holds no slash, the next one is
    appended behind a slash. *)
Lemma join_base_component p s :
  s <> "" -> all_chars not_slash s = true ->
  join_base (p +:+ s) = p +:+ s +:+ "/".
Proof.
  intros Hs Hall. destruct s as [|a s]; [contradiction|].
  destruct (last_char not_slash a s) as (u & c & E & Hc). specialize (Hc Hall).
  rewrite E, <- !str_app_assoc. unfold join_base, PyStr.endswith.
  rewrite rev_app. change (String.rev (String c "")) with (String c "").
  change (String.rev "/") with "/".
  rewrite str_app_cons, str_app_nil_l. cbn [PyStr.startswith].
  unfold not_slash in Hc. rewrite Ascii.eqb_sym.
  destruct (Ascii.eqb c "/"); [discriminate|].
  replace (String.eqb ((p +:+ u) +:+ String c "") "") with false; [reflexivity|].
  symmetry. apply String.eqb_neq. destruct (p +:+ u); discriminate.
Qed.

Lemma directory_no_slash release iteration :
  all_chars not_slash
    (if release : bool then "release" else "iter_" +:+ PyStr.format_0d 7 iteration) = true.
Proof.
  destruct release; [reflexivity|].
  rewrite all_chars_app, format_0d_no_slash. reflexivity.
Qed.

Lemma rank_directory_no_slash r :
  all_chars not_slash ("mp_rank_" +:+ PyStr.format_0d 2 r) = true.
Proof. rewrite all_chars_app, format_0d_no_slash. reflexivity. Qed.

(** The name, written out. *)
Lemma get_checkpoint_name_form own root iteration release mp_rank :
  get_checkpoint_name own root iteration release mp_rank
  = join_base root
    +:+ (if release then "release" else "iter_" +:+ PyStr.format_0d 7 iteration)
    +:+ "/" +:+ ("mp_rank_" +:+ PyStr.format_0d 2 (effective_rank own mp_rank))
    +:+ "/" +:+ "model_optim_rng.pt".
Proof.
  unfold get_checkpoint_name, path_join. cbn [fold_left].
  fold (effective_rank own mp_rank).
  set (dir := if release then "release" else "iter_" +:+ PyStr.format_0d 7 iteration).
  set (rk := "mp_rank_" +:+ PyStr.format_0d 2 (effective_rank own mp_rank)).
  assert (Hdir : dir <> "") by (unfold dir; now destruct release).
  assert (Hrk : rk <> "") by discriminate.
  rewrite (path_join_step_relative root dir) by (unfold dir; now destruct release).
  rewrite (path_join_step_relative _ rk) by reflexivity.
  rewrite (path_join_step_relative _ "model_optim_rng.pt") by reflexivity.
  rewrite (join_base_component _ dir Hdir (directory_no_slash release iteration)).
  rewrite !str_app_assoc.
  rewrite <- (str_app_assoc dir "/" rk), <- (str_app_assoc (join_base root)).
  rewrite (join_base_component _ rk Hrk (rank_directory_no_slash _)).
  now rewrite !str_app_assoc.
Qed.

End Naming.

(** C3, as the code has it: under one root a name determines the release
    flag and the rank, and for a name that is not a release the iteration
    too; release names do not depend on the iteration.  The path is the
    root, the iteration directory ([release], or [iter_] and the iteration
    padded with zeros to seven digits), the rank directory (the rank padded
    to two digits) and the payload file name, a slash between them. *)
Theorem get_checkpoint_name_injective (own : Z) (root : string) :
  (forall iteration release mp_rank,
     get_checkpoint_name own root iteration release mp_rank
     = join_base root
       +:+ (if release then "release" else "iter_" +:+ PyStr.format_0d 7 iteration)
       +:+ "/" +:+ ("mp_rank_" +:+ PyStr.format_0d 2 (effective_rank own mp_rank))
       +:+ "/" +:+ "model_optim_rng.pt")
  /\ (forall i i' release release' r r',
        get_checkpoint_name own root i release r
        = get_checkpoint_name own root i' release' r' ->
        release = release'
        /\ effective_rank own r = effective_rank own r'
        /\ (release = false -> i = i'))
  /\ (forall i i' r,
        get_checkpoint_name own root i true r = get_checkpoint_name own root i' true r)
  /\ (forall i, 0 <= i < 10000000 ->
        String.length (PyStr.format_0d 7 i) = 7%nat
        /\ all_chars PyStr.is_digit (PyStr.format_0d 7 i) = true)
  /\ (forall r, 0 <= r < 100 ->
        String.length (PyStr.format_0d 2 r) = 2%nat
        /\ all_chars PyStr.is_digit (PyStr.format_0d 2 r) = true).
Proof.
  split; [|split; [|split; [|split]]].
  - intros. apply get_checkpoint_name_form.
  - intros i i' release release' r r' E.
    rewrite !get_checkpoint_name_form in E.
    apply String.app_inj in E.
    apply (split_at_first_slash _ _
             (("mp_rank_" +:+ PyStr.format_0d 2 (effective_rank own r))
                +:+ "/" +:+ "model_optim_rng.pt")
             (("mp_rank_" +:+ PyStr.format_0d 2 (effective_rank own r'))
                +:+ "/" +:+ "model_optim_rng.pt")
             (directory_no_slash release i) (directory_no_slash release' i'))
      in E as [Edir E].
    rewrite !str_app_assoc in E. apply String.app_inj in E.
    apply (split_at_first_slash _ _ "model_optim_rng.pt" "model_optim_rng.pt"
             (format_0d_no_slash 2 _) (format_0d_no_slash 2 _)) in E as [Erk _].
    apply format_0d_inj in Erk.
    destruct release, release'; try discriminate Edir.
    + repeat split; [exact Erk | discriminate].
    + apply String.app_inj, format_0d_inj in Edir. now repeat split.
  - intros. reflexivity.
  - intros i Hi. apply (format_0d_width 6). exact Hi.
  - intros r Hr. apply (format_0d_width 1). exact Hr.
Qed.

Lemma get_checkpoint_name_injective_witness :
  get_checkpoint_name 3 "/ckpt" 1500 false None
  = "/ckpt/iter_0001500/mp_rank_03/model_optim_rng.pt"
  /\ (false = false /\ effective_rank 3 None = effective_rank 3 (Some 3)
      /\ (false = false -> 1500 = 1500))
  /\ (String.length (PyStr.format_0d 7 1500) = 7%nat
      /\ all_chars PyStr.is_digit (PyStr.format_0d 7 1500) = true)
  /\ (String.length (PyStr.format_0d 2 3) = 2%nat
      /\ all_chars PyStr.is_digit (PyStr.format_0d 2 3) = true).
Proof.
  destruct (get_checkpoint_name_injective 3 "/ckpt") as (Hform & Hinj & _ & Hit & Hrk).
  split; [|split; [|split]].
  - rewrite Hform. reflexivity.
  - exact (Hinj 1500 1500 false false None (Some 3) eq_refl).
  - apply Hit. lia.
  - apply Hrk. lia.
Defined.

(** C3, refuted as stated: two triples that differ in the iteration only
    and are both release names share one path. *)
Lemma release_names_share_a_path :
  ~ (forall own root i r b i' r' b',
       (i, r, b) <> (i', r', b') ->
       get_checkpoint_name own root i b (Some r)
       <> get_checkpoint_name own root i' b' (Some r')).
Proof.
  intros Hinj.
  apply (Hinj 0 "/ckpt" 1 0 true 2 0 true); [discriminate|reflexivity].
Qed.

Example release_name :
  get_checkpoint_name 0 "/ckpt" 1 true (Some 0) = "/ckpt/release/mp_rank_00/model_optim_rng.pt"
  /\ get_checkpoint_name 0 "/ckpt" 2 true (Some 0) = "/ckpt/release/mp_rank_00/model_optim_rng.pt".
Proof. split; reflexivity. Qed.

(** Beyond the width nothing is cut: an iteration of eight digits gets a
    directory of eight digits. *)
Example name_beyond_width :
  get_checkpoint_name 0 "/ckpt" 12345678 false (Some 0)
  = "/ckpt/iter_12345678/mp_rank_00/model_optim_rng.pt".
Proof. reflexivity. Qed.

Example natural_sort_is_numeric :
  natural_sort ["global_step1"; "global_step10"; "global_step2"]
  = ["global_step1"; "global_step2"; "global_step10"].
Proof. reflexivity. Qed.

(** * Further properties of the checkpoint code *)

(** ** Retention: what a run can and cannot remove *)


(** X1: whatever the rank, the count to keep and the outcome, a retention
    run calls [rmtree] only on paths that [glob] listed for the save
    directory as the function normalises it, that were directories and
    whose path contains [global_step].  When the save directory holds no
    pattern character these lie one component below the normalised save
    directory, under a name that does not start with a dot. *)
Theorem retention_removes_only_candidates `{Torch} (env : Env) save_dir keep_n w p :
  In p (rmtree_calls (snd (delete_old_checkpoints env save_dir keep_n w))) ->
  In p (rmtree_calls w)
  \/ (In (p, true) (fs w)
      /\ PyStr.contains "global_step" p = true
      /\ In p (glob_star_in env w (normalized_save_dir save_dir))
      /\ (has_magic save_dir = false ->
          exists name,
            p = normalized_save_dir save_dir +:+ "/" +:+ name
            /\ name <> "" /\ PyStr.contains "/" name = false
            /\ PyStr.startswith "." name = false)).
Proof.
  intros Hin.
  destruct (removed_is_candidate env save_dir keep_n w p Hin) as [Hold|Hcand];
    [now left|right].
  destruct (candidate_is_listed env w save_dir p Hcand) as (Hfs & Hc & Hl & Hchild).
  repeat split; try assumption.
  intros Hm. now apply is_child_of_name, Hchild.
Qed.

Lemma retention_removes_only_candidates_witness :
  let env := Sample.env_with (Ok [1]) (None, ∅) Sample.no_fault in
  In ("ckpts/global_step8", true) (fs Sample.world0)
  /\ PyStr.contains "global_step" "ckpts/global_step8" = true
  /\ In "ckpts/global_step8" (glob_star_in env Sample.world0 "ckpts").
Proof.
  intros env.
  destruct (retention_removes_only_candidates env
              "ckpts" 2 Sample.world0 "ckpts/global_step8") as [Hold|Hnew].
  - simpl. tauto.
  - destruct Hold.
  - destruct Hnew as (Hfs & Hc & Hl & _). repeat split; assumption.
Defined.

(** A save directory with brackets in its name is read as a pattern: the
    run removes the checkpoint of the neighbouring directory that the
    pattern matches and leaves the one of the directory it was given. *)
Example retention_reads_the_save_directory_as_a_pattern :
  let env := Sample.env_with (Ok [1]) (None, ∅) Sample.no_fault in
  let w' := snd (delete_old_checkpoints env "ck[1]pts" 0 Sample.world_brackets) in
  rmtree_calls w' = ["ck1pts/global_step1"]
  /\ fs w' = [("ck1pts", true); ("ck[1]pts", true); ("ck[1]pts/global_step1", true)].
Proof. vm_compute. split; reflexivity. Qed.

Section RetentionSafety.
Context `{Torch} (env : Env).

Lemma removal_keeps f q e :
  In e f -> fst e <> q -> PyStr.startswith (q +:+ "/") (fst e) = false ->
  In e (removal env f q).
Proof.
  intros Hin Hne Hbelow. unfold removal, rmtree_effect.
  destruct (rmtree_fault env q); [exact Hin|].
  destruct (existsb _ f); [|exact Hin].
  apply filter_In. split; [exact Hin|].
  rewrite Hbelow, orb_false_r. apply negb_true_iff, String.eqb_neq. exact Hne.
Qed.

Lemma removals_keep done : forall f e,
  In e f ->
  (forall q, In q done ->
     fst e <> q /\ PyStr.startswith (q +:+ "/") (fst e) = false) ->
  In e (fold_left (removal env) done f).
Proof.
  induction done as [|q done IH]; intros f e Hin Hall; [exact Hin|].
  simpl. apply IH.
  - destruct (Hall q (or_introl eq_refl)) as [Hne Hb]. now apply removal_keeps.
  - intros q' Hq'. apply Hall. now right.
Qed.

Lemma NoDup_map_filter {A B} (f : A -> B) (h : A -> bool) l :
  NoDup (map f l) -> NoDup (map f (List.filter h l)).
Proof.
  induction l as [|a l IH]; simpl; intros Hnd; [constructor|].
  apply NoDup_cons in Hnd as [Ha Hnd].
  destruct (h a); simpl; [|now apply IH].
  apply NoDup_cons. split; [|now apply IH].
  intros Hin. apply Ha. apply list_elem_of_In in Hin. apply list_elem_of_In.
  apply in_map_iff in Hin as (x & <- & Hx). apply filter_In in Hx as [Hx _].
  now apply in_map.
Qed.

Lemma NoDup_bool_filter {A} (h : A -> bool) (l : list A) :
  NoDup l -> NoDup (List.filter h l).
Proof.
  induction l as [|a l IH]; simpl; intros Hnd; [constructor|].
  apply NoDup_cons in Hnd as [Ha Hnd].
  destruct (h a); [|now apply IH].
  apply NoDup_cons. split; [|now apply IH].
  intros Hin. apply Ha. apply list_elem_of_In in Hin. apply list_elem_of_In.
  now apply filter_In in Hin as [Hin _].
Qed.

(** Paths that are listed once each give candidates that are listed once
    each, for a save directory without pattern characters. *)
Lemma all_ckpts_in_NoDup w save_dir :
  has_magic save_dir = false ->
  NoDup (fst <$> fs w) -> NoDup (all_ckpts_in env w save_dir).
Proof.
  intros Hm Hnd. unfold all_ckpts_in. rewrite natural_sort_perm.
  apply NoDup_bool_filter. rewrite (glob_star_in_literal env _ _ Hm).
  now apply (NoDup_map_filter fst).
Qed.

(** Nor does one of them lie below another. *)
Lemma candidates_not_nested w save_dir p q :
  has_magic save_dir = false ->
  In p (all_ckpts_in env w save_dir) -> In q (all_ckpts_in env w save_dir) ->
  PyStr.startswith (q +:+ "/") p = false.
Proof.
  intros Hm Hp Hq.
  destruct (candidate_is_listed env w save_dir p Hp) as (_ & _ & _ & Hpc).
  destruct (candidate_is_listed env w save_dir q Hq) as (_ & _ & _ & Hqc).
  exact (sibling_not_below _ _ _ (Hpc Hm) (Hqc Hm)).
Qed.

End RetentionSafety.

(** X2: in a file system that lists every path once, the last [keep_n]
    candidates in natural order are still directories after a retention
    run, whatever the rank, the injected errors and the outcome.  For a
    save directory that is a pattern this needs the directories that
    [glob] finds to give candidates that are distinct and not below one
    another. *)
Theorem retention_keeps_newest `{Torch} (env : Env) save_dir keep_n w p :
  NoDup (fst <$> fs w) ->
  let all := all_ckpts_in env w save_dir in
  (has_magic save_dir = true ->
   NoDup all
   /\ forall q q', In q all -> In q' all -> PyStr.startswith (q' +:+ "/") q = false) ->
  In p (drop (Z.to_nat (Z.of_nat (length all) - keep_n)) all) ->
  In (p, true) (fs (snd (delete_old_checkpoints env save_dir keep_n w))).
Proof.
  intros Hnd all Hpat Hp.
  assert (Hgood : NoDup all
                  /\ forall q q', In q all -> In q' all ->
                       PyStr.startswith (q' +:+ "/") q = false).
  { destruct (has_magic save_dir) eqn:Hm; [now apply Hpat|]. split.
    - now apply all_ckpts_in_NoDup.
    - intros q q'. now apply candidates_not_nested. }
  destruct Hgood as [Hnd' Hnest].
  destruct (delete_old_checkpoints_effect env save_dir keep_n w)
    as (done & rest & E & _ & F & _). rewrite F.
  set (k := Z.to_nat (Z.of_nat (length all) - keep_n)) in *.
  assert (Hall : In p all).
  { apply list_elem_of_In. apply list_elem_of_In in Hp.
    exact (subseteq_drop _ _ _ Hp). }
  destruct (candidate_is_listed env w save_dir p Hall) as (Hfs & _).
  apply removals_keep; [exact Hfs|]. intros q Hq. simpl.
  assert (Hq' : In q (take k all)).
  { change (take k all) with (oldest_beyond env w save_dir keep_n).
    rewrite E. apply in_or_app. now left. }
  assert (Hqall : In q all).
  { apply list_elem_of_In. apply list_elem_of_In in Hq'.
    exact (subseteq_take _ _ _ Hq'). }
  split; [|now apply Hnest].
  rewrite <- (take_drop k all) in Hnd'.
  apply NoDup_app in Hnd' as (_ & Hdisj & _).
  intros ->. apply (Hdisj q); now apply list_elem_of_In.
Qed.

Lemma retention_keeps_newest_witness :
  In ("ckpts/global_step12", true)
     (fs (snd (delete_old_checkpoints
                 (Sample.env_with (Ok [1]) (None, ∅)
                    (Sample.fault_on "ckpts/global_step9"
                       (PermissionError "ckpts/global_step9")))
                 "ckpts" 2 Sample.world0))).
Proof.
  apply (retention_keeps_newest _ "ckpts" 2 Sample.world0 "ckpts/global_step12").
  - apply (bool_decide_unpack _). vm_compute. exact I.
  - discriminate.
  - vm_compute. tauto.
Defined.



(** X4: a keep-last count of zero or below removes every candidate, the
    newest included. *)
Theorem retention_keep_nothing `{Torch} (env : Env) save_dir keep_n w :
  get_rank env = 0 ->
  keep_n <= 0 ->
  Forall (fun p => tolerated env p = true) (all_ckpts_in env w save_dir) ->
  exists w',
    delete_old_checkpoints env save_dir keep_n w = (Ok tt, w')
    /\ rmtree_calls w' = (rmtree_calls w ++ all_ckpts_in env w save_dir)%list.
Proof.
  intros R K Htol. now apply delete_all_candidates.
Qed.

Lemma retention_keep_nothing_witness :
  exists w',
    delete_old_checkpoints (Sample.env_with (Ok [1]) (None, ∅) Sample.no_fault)
      "ckpts" 0 Sample.world0 = (Ok tt, w')
    /\ rmtree_calls w'
       = ["ckpts/global_step8"; "ckpts/global_step9"; "ckpts/global_step10";
          "ckpts/global_step11"; "ckpts/global_step12"].
Proof.
  apply (retention_keep_nothing
           (Sample.env_with (Ok [1]) (None, ∅) Sample.no_fault)
           "ckpts" 0 Sample.world0 eq_refl).
  - lia.
  - repeat first [apply List.Forall_nil | apply List.Forall_cons; [reflexivity|]].
Defined.

(** X5: a retention run prints one line, the directories it is about to
    remove separated by commas, exactly when it is on rank 0 and has
    something to remove; the line is there also when a removal then fails. *)
Theorem retention_announces_removals `{Torch} (env : Env) save_dir keep_n w :
  stdout (snd (delete_old_checkpoints env save_dir keep_n w))
  = if (get_rank env =? 0)
       && (Z.of_nat (length (all_ckpts_in env w save_dir)) - keep_n >? 0)
    then (stdout w
          ++ ["WARNING: Deleting old checkpoints: " +:+ PyStr.newline +:+ PyStr.tab
              +:+ PyStr.join ", " (oldest_beyond env w save_dir keep_n)])%list
    else stdout w.
Proof.
  destruct (delete_old_checkpoints_effect env save_dir keep_n w)
    as (done & rest & _ & _ & _ & _ & S & _). exact S.
Qed.

(** ** Loading: what a load touches *)

Section LoadEffects.
Context `{Torch} (env : Env).

Lemma frames_restore_rng_states {B} (f : World -> B) neox_args name sd :
  (forall g w, f (with_rng g w) = f w) ->
  (forall g w, f (with_stdout g w) = f w) ->
  frames f (fun w => restore_rng_states env neox_args name sd w).
Proof.
  intros Er Es. unfold restore_rng_states.
  destruct (negb (finetune neox_args) && negb (no_load_rng neox_args));
    [|apply frames_ret].
  apply frames_try_except.
  - unfold restore_rng, state_subscript, set_state.
    repeat first
      [ apply frames_ret | apply frames_raise
      | apply frames_modify; intros ?; apply Er
      | apply frames_bind; [|intros ?]
      | match goal with
        | |- frames _ (match ?x with _ => _ end) => destruct x
        end ].
  - intros e h Hh. unfold exit_on_key_error in Hh.
    destruct e; try discriminate. injection Hh as <-.
    apply frames_bind; [now apply frames_print_rank_0 | intros _; apply frames_raise].
Qed.

Lemma frames_load_tail {B} (f : World -> B) name (it : value) :
  (forall g w, f (with_stdout g w) = f w) ->
  (forall g w, f (with_barriers g w) = f w) ->
  frames f (bind barrier (fun _ =>
              bind (if get_data_parallel_rank env =? 0
                    then print ("  successfully loaded " +:+ name) else ret tt)
                (fun _ => ret it))).
Proof.
  intros Es Eb. unfold barrier.
  apply frames_bind; [apply frames_modify; intros; apply Eb|intros _].
  apply frames_bind; [|intros _; apply frames_ret].
  destruct (get_data_parallel_rank env =? 0);
    [now apply frames_print | apply frames_ret].
Qed.

(** A load only ever changes what is printed, the barrier count, the
    model's mode and the generator state. *)
Lemma frames_load_found {B} (f : World -> B) neox_args name sd :
  (forall g w, f (with_rng g w) = f w) ->
  (forall g w, f (with_stdout g w) = f w) ->
  (forall g w, f (with_barriers g w) = f w) ->
  (forall b w, f (with_training b w) = f w) ->
  frames f (fun w => load_found env neox_args name sd w).
Proof.
  intros Er Es Eb Et. unfold load_found.
  apply frames_bind.
  { intros w. now rewrite resolve_iteration_pure. }
  intros it.
  apply frames_bind; [now apply frames_validate_args|intros _].
  apply frames_bind; [now apply frames_validate_forward|intros _].
  apply frames_bind; [now apply frames_restore_rng_states|intros _].
  now apply frames_load_tail.
Qed.

Lemma load_checkpoint_cases neox_args w :
  (exists e, load_checkpoint env neox_args w = (Raise e, w))
  \/ (exists w', load_checkpoint env neox_args w = (Ok (VScalar (SInt 0)), w')
                 /\ (w' = w \/ exists g, w' = with_stdout g w))
  \/ (exists name sd, load_checkpoint env neox_args w = load_found env neox_args name sd w).
Proof.
  unfold load_checkpoint. destruct (deepspeed neox_args); [|left; eauto].
  destruct (model_load_checkpoint env _ _ _) as [[name|] sd].
  - right. right. eauto.
  - right. left. destruct (get_data_parallel_rank env =? 0); eexists; split;
      try reflexivity; [right; eexists; reflexivity | now left].
Qed.

End LoadEffects.

(** X6: a load never removes anything: it makes no [rmtree] call, leaves
    the file system as it is and hands nothing to the engine to save, for
    every configuration, record and outcome. *)
Theorem load_checkpoint_never_deletes `{Torch} (env : Env) neox_args w :
  let w' := snd (load_checkpoint env neox_args w) in
  rmtree_calls w' = rmtree_calls w
  /\ fs w' = fs w
  /\ engine_saved w' = engine_saved w.
Proof.
  simpl.
  destruct (load_checkpoint_cases env neox_args w)
    as [[e ->]|[(w' & -> & [->|[g ->]])|(name & sd & ->)]]; simpl;
    try (repeat split; now destruct w).
  repeat split;
    apply (frames_load_found env _ neox_args name sd); now intros ? [].
Qed.

(** X7: with generator restore disabled by [no_load_rng], a load never
    sets the generators from the record: it leaves them as they were, or
    one draw of the forward-pass validation further.  They are as they were
    whenever validation is off or the record met stores its context
    tokens. *)
Theorem load_checkpoint_no_load_rng `{Torch} (env : Env) neox_args w :
  no_load_rng neox_args = true ->
  let r := load_checkpoint env neox_args w in
  (rng (snd r) = rng w \/ rng (snd r) = after_draw env neox_args (rng w))
  /\ (checkpoint_validation_with_forward_pass neox_args = false ->
      rng (snd r) = rng w)
  /\ (forall name sd,
        model_load_checkpoint env (load neox_args)
          (negb (no_load_optim neox_args)) (negb (no_load_optim neox_args))
          = (Some name, sd) ->
        validation_draws neox_args sd = false ->
        rng (snd r) = rng w).
Proof.
  intros N r.
  assert (Hskip : (negb (finetune neox_args) && negb (no_load_rng neox_args))%bool
                  = false) by (rewrite N; apply andb_false_r).
  assert (Hcases :
            rng (snd r) = rng w
            \/ exists name sd,
                 model_load_checkpoint env (load neox_args)
                   (negb (no_load_optim neox_args)) (negb (no_load_optim neox_args))
                 = (Some name, sd)
                 /\ validation_draws neox_args sd = true
                 /\ rng (snd r) = after_draw env neox_args (rng w)).
  { subst r. unfold load_checkpoint.
    destruct (deepspeed neox_args); [|now left].
    destruct (model_load_checkpoint env _ _ _) as [[name|] sd] eqn:E.
    - destruct (load_found_rng_skipped env neox_args name sd w Hskip) as [Hr|[Hd Hr]];
        [now left|right]. exists name, sd. repeat split; assumption.
    - left. unfold bind, ret, print, modify.
      destruct (get_data_parallel_rank env =? 0); [now destruct w|reflexivity]. }
  split; [|split].
  - destruct Hcases as [Hr|(name & sd & _ & _ & Hr)]; [now left | now right].
  - intros V. destruct Hcases as [Hr|(name & sd & _ & Hd & _)]; [exact Hr|].
    unfold validation_draws in Hd. rewrite V in Hd. discriminate.
  - intros name sd E Hno.
    destruct Hcases as [Hr|(name' & sd' & E' & Hd & _)]; [exact Hr|].
    rewrite E in E'. injection E' as _ <-. congruence.
Qed.

Lemma load_checkpoint_no_load_rng_witness :
  rng (snd (load_checkpoint
              (Sample.env_with (Ok [1]) (Some "ckpts/global_step5000", Sample.sd_full 5000)
                 Sample.no_fault)
              (Sample.set_rng_flags false true Sample.args) Sample.world0))
  = Sample.rng0.
Proof.
  exact (proj1 (proj2 (load_checkpoint_no_load_rng
           (Sample.env_with (Ok [1]) (Some "ckpts/global_step5000", Sample.sd_full 5000)
              Sample.no_fault)
           (Sample.set_rng_flags false true Sample.args) Sample.world0 eq_refl))
         eq_refl).
Defined.

(** ** Saving and loading generator state *)

Section RngRoundTrip.
Context `{Torch}.

(** Without forward-pass validation a save hands over the base entries,
    and the generator states unless [no_save_rng] is set. *)
Lemma save_ds_checkpoint_plain env it neox_args w :
  checkpoint_validation_with_forward_pass neox_args = false ->
  let sd := if no_save_rng neox_args then base_entries neox_args it
            else with_rng_entries (rng w) (base_entries neox_args it) in
  save_ds_checkpoint env it neox_args w
  = (Ok tt,
     with_fs (model_save_files env (save neox_args) sd)
       (with_engine_saved (fun l => (l ++ [(save neox_args, sd)])%list) w)).
Proof.
  intros V. unfold save_ds_checkpoint, model_save_checkpoint. rewrite V.
  destruct (no_save_rng neox_args); reflexivity.
Qed.

Lemma base_entries_lookup neox_args it :
  base_entries neox_args it !! "iteration" = Some (VScalar (SInt it))
  /\ base_entries neox_args it !! "total_iters" = None
  /\ base_entries neox_args it !! "args" = Some (VDict (architecture_args neox_args))
  /\ base_entries neox_args it !! "checkpoint_validation" = None
  /\ forall k, In k rng_keys -> base_entries neox_args it !! k = None.
Proof.
  unfold base_entries. repeat split;
    try (repeat (rewrite lookup_insert_ne by discriminate);
         first [apply lookup_insert_eq | apply lookup_empty]).
  intros k Hk. simpl in Hk.
  repeat (destruct Hk as [<-|Hk];
          [repeat (rewrite lookup_insert_ne by discriminate); apply lookup_empty|]).
  destruct Hk.
Qed.

Lemma with_rng_entries_lookup r sd :
  with_rng_entries r sd !! "random_rng_state" = Some (VState (random_rng_state r))
  /\ with_rng_entries r sd !! "np_rng_state" = Some (VState (np_rng_state r))
  /\ with_rng_entries r sd !! "torch_rng_state" = Some (VState (torch_rng_state r))
  /\ with_rng_entries r sd !! "cuda_rng_state" = Some (VState (cuda_rng_state r))
  /\ with_rng_entries r sd !! "rng_tracker_states" = Some (VState (rng_tracker_states r)).
Proof.
  unfold with_rng_entries. repeat split;
    repeat (rewrite lookup_insert_ne by discriminate); apply lookup_insert_eq.
Qed.

Lemma with_rng_entries_other r sd k :
  ~ In k rng_keys -> with_rng_entries r sd !! k = sd !! k.
Proof.
  intros Hk. unfold with_rng_entries.
  repeat (rewrite lookup_insert_ne by (intros <-; apply Hk; simpl; tauto)).
  reflexivity.
Qed.

(** A record with all five states sets the generators to them. *)
Lemma restore_rng_present sd r w :
  sd !! "random_rng_state" = Some (VState (random_rng_state r)) ->
  sd !! "np_rng_state" = Some (VState (np_rng_state r)) ->
  sd !! "torch_rng_state" = Some (VState (torch_rng_state r)) ->
  sd !! "cuda_rng_state" = Some (VState (cuda_rng_state r)) ->
  sd !! "rng_tracker_states" = Some (VState (rng_tracker_states r)) ->
  restore_rng sd w = (Ok tt, with_rng (fun _ => r) w).
Proof.
  intros E1 E2 E3 E4 E5. unfold restore_rng, state_subscript, set_state.
  rewrite E1, E2, E3, E4, E5. destruct w, r. reflexivity.
Qed.

(** A record that lacks one of the keys, and holds states under the
    others, stops the restore with a [KeyError]; nothing is printed on the
    way. *)
Lemma restore_rng_missing sd w :
  (exists k, In k rng_keys /\ sd !! k = None) ->
  (forall k v, In k rng_keys -> sd !! k = Some v -> exists n, v = VState n) ->
  exists k w',
    restore_rng sd w = (Raise (KeyError k), w')
    /\ stdout w' = stdout w /\ barriers w' = barriers w.
Proof.
  intros (k0 & Hk0 & Hnone) Htyped.
  unfold restore_rng, state_subscript, set_state, bind, ret, raise, modify.
  destruct (sd !! "random_rng_state") as [v1|] eqn:E1;
    [destruct (Htyped "random_rng_state" _ ltac:(simpl; tauto) E1) as [n1 ->]|eexists _, _; repeat split].
  destruct (sd !! "np_rng_state") as [v2|] eqn:E2;
    [destruct (Htyped "np_rng_state" _ ltac:(simpl; tauto) E2) as [n2 ->]
    |eexists _, _; split; [reflexivity|now destruct w]].
  destruct (sd !! "torch_rng_state") as [v3|] eqn:E3;
    [destruct (Htyped "torch_rng_state" _ ltac:(simpl; tauto) E3) as [n3 ->]
    |eexists _, _; split; [reflexivity|now destruct w]].
  destruct (sd !! "cuda_rng_state") as [v4|] eqn:E4;
    [destruct (Htyped "cuda_rng_state" _ ltac:(simpl; tauto) E4) as [n4 ->]
    |eexists _, _; split; [reflexivity|now destruct w]].
  destruct (sd !! "rng_tracker_states") as [v5|] eqn:E5;
    [|eexists _, _; split; [reflexivity|now destruct w]].
  simpl in Hk0. destruct Hk0 as [<-|[<-|[<-|[<-|[<-|[]]]]]]; congruence.
Qed.

Lemma restore_rng_states_missing env neox_args name sd w :
  finetune neox_args = false -> no_load_rng neox_args = false ->
  (exists k, In k rng_keys /\ sd !! k = None) ->
  (forall k v, In k rng_keys -> sd !! k = Some v -> exists n, v = VState n) ->
  fst (restore_rng_states env neox_args name sd w) = Raise SystemExit
  /\ stdout (snd (restore_rng_states env neox_args name sd w))
     = if get_rank env =? 0
       then (stdout w ++ [missing_rng_message name])%list else stdout w.
Proof.
  intros F N Hmiss Htyped. unfold restore_rng_states. rewrite F, N. simpl.
  destruct (restore_rng_missing sd w Hmiss Htyped) as (k & w' & E & S & _).
  unfold try_except. rewrite E. simpl.
  unfold bind, print_rank_0, print, modify, raise.
  destruct (get_rank env =? 0); simpl; [|now split].
  split; [reflexivity|]. rewrite <- S. now destruct w'.
Qed.

End RngRoundTrip.

(** X8: a record saved at a non-zero iteration with its generator states
    (no forward-pass validation) loads back under the same configuration:
    the load returns the saved iteration and leaves the process with the
    generator states the saving process had. *)
Theorem save_then_load_restores_rng `{Torch} (env_s env_l : Env) neox_args it w name w2 :
  deepspeed neox_args = true ->
  finetune neox_args = false ->
  no_save_rng neox_args = false ->
  no_load_rng neox_args = false ->
  checkpoint_validation_with_forward_pass neox_args = false ->
  it <> 0 ->
  exists sd,
    save_ds_checkpoint env_s it neox_args w
    = (Ok tt,
       with_fs (model_save_files env_s (save neox_args) sd)
         (with_engine_saved (fun l => (l ++ [(save neox_args, sd)])%list) w))
    /\ (model_load_checkpoint env_l (load neox_args)
          (negb (no_load_optim neox_args)) (negb (no_load_optim neox_args))
          = (Some name, sd) ->
        fst (load_checkpoint env_l neox_args w2) = Ok (VScalar (SInt it))
        /\ rng (snd (load_checkpoint env_l neox_args w2)) = rng w).
Proof.
  intros D F NS NL V Hit.
  exists (with_rng_entries (rng w) (base_entries neox_args it)). split.
  { rewrite save_ds_checkpoint_plain by exact V. now rewrite NS. }
  intros E. rewrite (load_checkpoint_found env_l _ _ _ _ D E).
  set (sd := with_rng_entries (rng w) (base_entries neox_args it)).
  destruct (base_entries_lookup neox_args it) as (Bi & _ & Ba & Bv & _).
  destruct (with_rng_entries_lookup (rng w) (base_entries neox_args it))
    as (R1 & R2 & R3 & R4 & R5).
  assert (Hi : sd !! "iteration" = Some (VScalar (SInt it))).
  { unfold sd. rewrite with_rng_entries_other; [exact Bi|].
    simpl. intros [|[|[|[|[|[]]]]]]; discriminate. }
  assert (Ha : sd !! "args" = Some (VDict (architecture_args neox_args))).
  { unfold sd. rewrite with_rng_entries_other; [exact Ba|].
    simpl. intros [|[|[|[|[|[]]]]]]; discriminate. }
  unfold load_found.
  rewrite (bind_ok _ _ _ _ _ (resolve_iteration_nonzero neox_args name sd w2 it F Hi Hit)).
  assert (Hargs : validate_args env_l neox_args sd w2
                  = (Ok tt, snd (print_rank_0 env_l args_validated w2))).
  { rewrite (validate_args_present env_l _ _ _ _ Ha).
    erewrite bind_ok by (apply check_checkpoint_args_agree, architecture_args_agree).
    unfold print_rank_0. now destruct (get_rank env_l =? 0). }
  rewrite (bind_ok _ _ _ _ _ Hargs).
  set (w3 := snd (print_rank_0 env_l args_validated w2)).
  assert (Hfwd : validate_forward env_l neox_args name sd w3 = (Ok tt, w3)).
  { unfold validate_forward. now rewrite V. }
  rewrite (bind_ok _ _ _ _ _ Hfwd).
  assert (Hrng : restore_rng_states env_l neox_args name sd w3
                 = (Ok tt, with_rng (fun _ => rng w) w3)).
  { unfold restore_rng_states, try_except. rewrite F, NL. cbn [negb andb].
    now rewrite (restore_rng_present sd (rng w) w3 R1 R2 R3 R4 R5). }
  rewrite (bind_ok _ _ _ _ _ Hrng).
  unfold bind, barrier, modify, ret, print.
  destruct (get_data_parallel_rank env_l =? 0); simpl; split; reflexivity.
Qed.

Lemma save_then_load_restores_rng_witness :
  let env_s := Sample.env_with (Ok [1]) (None, ∅) Sample.no_fault in
  exists sd,
    save_ds_checkpoint env_s 5000 Sample.args Sample.world0
    = (Ok tt,
       with_fs (Sample.engine_files "ckpts" sd)
         (with_engine_saved (fun l => (l ++ [("ckpts", sd)])%list) Sample.world0))
    /\ (let env_l := Sample.env_with (Ok [1]) (Some "ckpts/global_step5000", sd)
                       Sample.no_fault in
        fst (load_checkpoint env_l Sample.args Sample.world_fresh)
        = Ok (VScalar (SInt 5000))
        /\ rng (snd (load_checkpoint env_l Sample.args Sample.world_fresh))
           = Sample.rng0).
Proof.
  intros env_s.
  destruct (save_then_load_restores_rng env_s
              (Sample.env_with (Ok [1])
                 (Some "ckpts/global_step5000",
                  with_rng_entries Sample.rng0 (base_entries Sample.args 5000))
                 Sample.no_fault)
              Sample.args 5000 Sample.world0 "ckpts/global_step5000" Sample.world_fresh
              eq_refl eq_refl eq_refl eq_refl eq_refl ltac:(discriminate))
    as (sd & Hsave & Hload).
  exists sd. split; [exact Hsave|].
  assert (Hsd : sd = with_rng_entries Sample.rng0 (base_entries Sample.args 5000)).
  { rewrite save_ds_checkpoint_plain in Hsave by reflexivity.
    apply (f_equal (fun r => engine_saved (snd r))) in Hsave. simpl in Hsave.
    now injection Hsave. }
  subst sd. simpl. apply Hload. reflexivity.
Defined.

(** X9: when generator restore is requested and the record of a found
    checkpoint lacks one of the five generator keys, a load that has passed
    its checks prints the notice on rank 0 and exits; it never goes on with
    the generators it has. *)
Theorem load_checkpoint_missing_rng_key `{Torch} (env : Env) neox_args name sd w it w1 :
  deepspeed neox_args = true ->
  finetune neox_args = false ->
  no_load_rng neox_args = false ->
  model_load_checkpoint env (load neox_args)
    (negb (no_load_optim neox_args)) (negb (no_load_optim neox_args))
    = (Some name, sd) ->
  resolve_iteration neox_args name sd w = (Ok it, w) ->
  bind (fun w => validate_args env neox_args sd w)
       (fun _ w => validate_forward env neox_args name sd w) w = (Ok tt, w1) ->
  (exists k, In k rng_keys /\ sd !! k = None) ->
  (forall k v, In k rng_keys -> sd !! k = Some v -> exists n, v = VState n) ->
  fst (load_checkpoint env neox_args w) = Raise SystemExit
  /\ stdout (snd (load_checkpoint env neox_args w))
     = if get_rank env =? 0
       then (stdout w1
             ++ ["Unable to load optimizer from checkpoint " +:+ name
                 +:+ ". Specify --no-load-rng or --finetune to prevent attempting to load the optimizer state, exiting ..."])%list
       else stdout w1.
Proof.
  intros D F N E R Hchk Hmiss Htyped.
  rewrite (load_checkpoint_found env _ _ _ _ D E). unfold load_found.
  rewrite (bind_ok _ _ _ _ _ R).
  unfold bind at 1 in Hchk.
  destruct (validate_args env neox_args sd w) as [[[]|e] wa] eqn:Ha; [|discriminate].
  rewrite (bind_ok _ _ _ _ _ Ha), (bind_ok _ _ _ _ _ Hchk).
  destruct (restore_rng_states_missing env neox_args name sd w1 F N Hmiss Htyped)
    as [Ho Hs].
  destruct (restore_rng_states env neox_args name sd w1) as [[[]|e] w2] eqn:Hr;
    simpl in Ho; [discriminate|]. injection Ho as ->. simpl in Hs.
  rewrite (bind_raise _ _ _ _ _ Hr). simpl.
  split; [reflexivity|]. rewrite Hs. reflexivity.
Qed.

Lemma load_checkpoint_missing_rng_key_witness :
  let env := Sample.env_with (Ok [1])
               (Some "ckpts/global_step5", Sample.sd_iteration (SInt 5))
               Sample.no_fault in
  fst (load_checkpoint env Sample.args Sample.world0) = Raise SystemExit
  /\ stdout (snd (load_checkpoint env Sample.args Sample.world0))
     = [ " > could not find arguments in the checkpoint for validation...";
         "Unable to load optimizer from checkpoint ckpts/global_step5. Specify --no-load-rng or --finetune to prevent attempting to load the optimizer state, exiting ..." ].
Proof.
  intros env.
  refine (load_checkpoint_missing_rng_key env Sample.args "ckpts/global_step5"
            (Sample.sd_iteration (SInt 5)) Sample.world0 (VScalar (SInt 5))
            (with_stdout (fun out => (out ++ [args_not_found])%list) Sample.world0)
            eq_refl eq_refl eq_refl eq_refl eq_refl eq_refl _ _).
  - exists "np_rng_state". split; [simpl; tauto | reflexivity].
  - intros k v Hk Hv. simpl in Hk.
    destruct Hk as [<-|[<-|[<-|[<-|[<-|[]]]]]]; discriminate Hv.
Defined.

(** X10: a record saved with [no_save_rng], forward-pass validation off,
    cannot be loaded with generator restore requested: the load exits, or,
    for a record saved at iteration 0, fails before that for want of an
    iteration; either way the generators of the process are untouched. *)
Theorem save_without_rng_then_load_exits `{Torch} (env_s env_l : Env)
    neox_args it w name w2 :
  deepspeed neox_args = true ->
  finetune neox_args = false ->
  no_save_rng neox_args = true ->
  no_load_rng neox_args = false ->
  checkpoint_validation_with_forward_pass neox_args = false ->
  exists sd,
    save_ds_checkpoint env_s it neox_args w
    = (Ok tt,
       with_fs (model_save_files env_s (save neox_args) sd)
         (with_engine_saved (fun l => (l ++ [(save neox_args, sd)])%list) w))
    /\ (model_load_checkpoint env_l (load neox_args)
          (negb (no_load_optim neox_args)) (negb (no_load_optim neox_args))
          = (Some name, sd) ->
        fst (load_checkpoint env_l neox_args w2)
        = (if it =? 0
           then Raise (ValueError ("Unable to load iteration from checkpoint "
                                   +:+ name +:+ ", exiting"))
           else Raise SystemExit)
        /\ rng (snd (load_checkpoint env_l neox_args w2)) = rng w2).
Proof.
  intros D F NS NL V.
  exists (base_entries neox_args it). split.
  { rewrite save_ds_checkpoint_plain by exact V. now rewrite NS. }
  intros E. rewrite (load_checkpoint_found env_l _ _ _ _ D E).
  set (sd := base_entries neox_args it).
  destruct (base_entries_lookup neox_args it) as (Hi & Ht & Ha & _ & Hr).
  destruct (Z.eqb_spec it 0) as [->|Hit].
  { rewrite (load_found_unresolved env_l neox_args name sd w2 _
               (resolve_iteration_zero neox_args name sd w2 F Hi Ht)).
    split; reflexivity. }
  unfold load_found.
  rewrite (bind_ok _ _ _ _ _ (resolve_iteration_nonzero neox_args name sd w2 it F Hi Hit)).
  assert (Hargs : validate_args env_l neox_args sd w2
                  = (Ok tt, snd (print_rank_0 env_l args_validated w2))).
  { rewrite (validate_args_present env_l _ _ _ _ Ha).
    erewrite bind_ok by (apply check_checkpoint_args_agree, architecture_args_agree).
    unfold print_rank_0. now destruct (get_rank env_l =? 0). }
  rewrite (bind_ok _ _ _ _ _ Hargs).
  set (w3 := snd (print_rank_0 env_l args_validated w2)).
  assert (Hw3 : rng w3 = rng w2).
  { unfold w3, print_rank_0. destruct (get_rank env_l =? 0); [now destruct w2|reflexivity]. }
  assert (Hfwd : validate_forward env_l neox_args name sd w3 = (Ok tt, w3)).
  { unfold validate_forward. now rewrite V. }
  rewrite (bind_ok _ _ _ _ _ Hfwd).
  assert (Hrng : exists w4, restore_rng_states env_l neox_args name sd w3
                            = (Raise SystemExit, w4) /\ rng w4 = rng w3).
  { unfold restore_rng_states, try_except, restore_rng, state_subscript.
    rewrite F, NL. cbn [negb andb].
    unfold sd. rewrite (Hr "random_rng_state") by (simpl; tauto).
    unfold bind at 1, raise at 1. unfold exit_on_key_error.
    unfold bind, raise, print_rank_0, print, modify.
    destruct (get_rank env_l =? 0); eexists; (split; [reflexivity|]);
      [now destruct w3 | reflexivity]. }
  destruct Hrng as (w4 & Hrng & Hw4).
  rewrite (bind_raise _ _ _ _ _ Hrng). simpl. split; [reflexivity|congruence].
Qed.

Lemma save_without_rng_then_load_exits_witness :
  let a := Sample.set_rng_flags true false Sample.args in
  let env_s := Sample.env_with (Ok [1]) (None, ∅) Sample.no_fault in
  let env_l it := Sample.env_with (Ok [1])
                    (Some "ckpts/global_step13", base_entries a it) Sample.no_fault in
  engine_saved (snd (save_ds_checkpoint env_s 5000 a Sample.world0))
  = [("ckpts", base_entries a 5000)]
  /\ fst (load_checkpoint (env_l 5000) a Sample.world_fresh) = Raise SystemExit
  /\ rng (snd (load_checkpoint (env_l 5000) a Sample.world_fresh))
     = rng Sample.world_fresh
  /\ fst (load_checkpoint (env_l 0) a Sample.world_fresh)
     = Raise (ValueError
         "Unable to load iteration from checkpoint ckpts/global_step13, exiting").
Proof.
  intros a env_s env_l.
  destruct (save_without_rng_then_load_exits env_s (env_l 5000) a 5000 Sample.world0
              "ckpts/global_step13" Sample.world_fresh
              eq_refl eq_refl eq_refl eq_refl eq_refl)
    as (sd & Hsave & Hload).
  destruct (save_without_rng_then_load_exits env_s (env_l 0) a 0 Sample.world0
              "ckpts/global_step13" Sample.world_fresh
              eq_refl eq_refl eq_refl eq_refl eq_refl)
    as (sd0 & Hsave0 & Hload0).
  assert (Hsd : sd = base_entries a 5000).
  { rewrite save_ds_checkpoint_plain in Hsave by reflexivity.
    apply (f_equal (fun r => engine_saved (snd r))) in Hsave. simpl in Hsave.
    now injection Hsave. }
  assert (Hsd0 : sd0 = base_entries a 0).
  { rewrite save_ds_checkpoint_plain in Hsave0 by reflexivity.
    apply (f_equal (fun r => engine_saved (snd r))) in Hsave0. simpl in Hsave0.
    now injection Hsave0. }
  subst sd sd0. split; [now rewrite Hsave|].
  destruct (Hload eq_refl) as [Hf Hr]. destruct (Hload0 eq_refl) as [Hf0 _].
  repeat split; assumption.
Defined.

(** ** Saving with validation: the generator moves on *)

(** X24: a save with forward-pass validation draws its probe tokens from
    torch's default generator after the generator states have been put into
    the record: the process is left one draw further, while the record that
    reaches the engine holds the torch state from before the draw. *)
Theorem save_ds_checkpoint_validation_draw `{Torch} (env : Env) neox_args it w :
  checkpoint_validation_with_forward_pass neox_args = true ->
  no_save_rng neox_args = false ->
  let r := save_ds_checkpoint env it neox_args w in
  rng (snd r) = after_draw env neox_args (rng w)
  /\ (fst r = Ok tt ->
      exists sd,
        engine_saved (snd r) = (engine_saved w ++ [(save neox_args, sd)])%list
        /\ sd !! "torch_rng_state" = Some (VState (torch_rng_state (rng w)))).
Proof.
  intros V NS r.
  pose proof (do_forward_pass_rng env neox_args (IScalar SNone) w) as Hrng.
  pose proof (frames_do_forward_pass env engine_saved neox_args (IScalar SNone)
                ltac:(now intros ? []) ltac:(now intros ? [])
                ltac:(now intros ? []) w) as Hsaved.
  assert (Heq : exists sd0,
            sd0 !! "torch_rng_state" = Some (VState (torch_rng_state (rng w)))
            /\ r = match do_forward_pass env neox_args (IScalar SNone) w with
                   | (Ok a, w1) =>
                       let sd := <["checkpoint_validation" :=
                                     VDict [ ("context_tokens", ITensor (fst a));
                                             ("logits", option_item (snd a)) ]]> sd0 in
                       (Ok tt,
                        with_fs (model_save_files env (save neox_args) sd)
                          (with_engine_saved
                             (fun l => (l ++ [(save neox_args, sd)])%list) w1))
                   | (Raise e, w1) => (Raise e, w1)
                   end).
  { eexists. split; [|subst r; unfold save_ds_checkpoint, model_save_checkpoint;
                       rewrite V, NS; unfold bind, get, ret, modify; cbn [negb];
                       destruct (do_forward_pass env neox_args (IScalar SNone) w)
                         as [[a|e] w1]; reflexivity].
    repeat (rewrite lookup_insert_ne by discriminate). apply lookup_insert_eq. }
  destruct Heq as (sd0 & Hsd0 & ->).
  destruct (do_forward_pass env neox_args (IScalar SNone) w) as [[a|e] w1];
    simpl in Hrng, Hsaved.
  - cbv zeta. simpl. split; [exact Hrng|].
    intros _. eexists. split; [rewrite Hsaved; reflexivity|].
    rewrite lookup_insert_ne by discriminate. exact Hsd0.
  - simpl. split; [exact Hrng|discriminate].
Qed.

Lemma save_ds_checkpoint_validation_draw_witness :
  let env := Sample.env_with (Ok [1]) (None, ∅) Sample.no_fault in
  let r := save_ds_checkpoint env 5000 (Sample.set_validation true Sample.args)
             Sample.world0 in
  torch_rng_state (rng Sample.world0) = 3%N
  /\ torch_rng_state (rng (snd r)) = 4%N
  /\ exists sd,
       engine_saved (snd r) = [("ckpts", sd)]
       /\ sd !! "torch_rng_state" = Some (VState 3).
Proof.
  intros env r.
  destruct (save_ds_checkpoint_validation_draw env
              (Sample.set_validation true Sample.args) 5000 Sample.world0
              eq_refl eq_refl) as [Hrng Hrec].
  fold r in Hrng, Hrec. split; [reflexivity|]. split; [now rewrite Hrng|].
  apply Hrec. reflexivity.
Defined.

(** ** Retention under a save directory given with a trailing slash *)

Section TrailingSlash.
Context `{Torch} (env : Env).







End TrailingSlash.



(** ** The argument check at its edges *)

(** X11: [check_checkpoint_args] never changes the world; a stored field
    that the configuration does not have raises [AttributeError] for that
    field once the fields before it have agreed; and stored arguments that
    are not a dictionary fail the assertion on their type. *)
Theorem check_checkpoint_args_edges `{Torch} neox_args :
  (forall checkpoint_args w,
     snd (check_checkpoint_args neox_args checkpoint_args w) = w)
  /\ (forall d1 fld v d2 w,
        Forall (fun kv => entry_agrees neox_args kv = true) d1 ->
        getattr neox_args fld = None ->
        check_checkpoint_args neox_args (VDict (d1 ++ (fld, v) :: d2)%list) w
        = (Raise (AttributeError fld), w))
  /\ (forall checkpoint_args w,
        (forall d, checkpoint_args <> VDict d) ->
        check_checkpoint_args neox_args checkpoint_args w
        = (Raise (AssertionError "args stored in checkpoint is a dict"), w)).
Proof.
  split; [|split].
  - intros ca w. apply (frames_check_checkpoint_args id).
  - intros d1 fld v d2 w Hd1 Hnone. unfold check_checkpoint_args.
    induction Hd1 as [|kv d Hkv _ IH]; simpl.
    + now rewrite Hnone.
    + erewrite bind_ok by (apply check_entry_agrees; exact Hkv). exact IH.
  - intros ca w Hnd. destruct ca as [a|d|n]; try reflexivity.
    now destruct (Hnd d).
Qed.

Lemma check_checkpoint_args_edges_witness :
  check_checkpoint_args Sample.args
    (VDict [ ("num_layers", IScalar (SInt 12)); ("rotary_pct", IScalar (SInt 1));
             ("hidden_size", IScalar (SInt 1024)) ]) Sample.world0
  = (Raise (AttributeError "rotary_pct"), Sample.world0)
  /\ check_checkpoint_args Sample.args (VScalar (SStr "num_layers=12")) Sample.world0
     = (Raise (AssertionError "args stored in checkpoint is a dict"), Sample.world0).
Proof.
  destruct (@check_checkpoint_args_edges Sample.int_tensors Sample.args)
    as (_ & Hattr & Htype).
  split.
  - apply (Hattr [("num_layers", IScalar (SInt 12))] "rotary_pct" (IScalar (SInt 1))
             [("hidden_size", IScalar (SInt 1024))] Sample.world0).
    + apply List.Forall_cons; [reflexivity|apply List.Forall_nil].
    + reflexivity.
  - apply Htype. intros d. discriminate.
Defined.

(** ** Barriers *)

Section Barriers.
Context `{Torch} (env : Env).

(** A forward pass that returns has passed three barriers; one that raises
    has passed one or two. *)
Lemma do_forward_pass_barriers neox_args tokens w :
  if is_ok (fst (do_forward_pass env neox_args tokens w))
  then barriers (snd (do_forward_pass env neox_args tokens w)) = (barriers w + 3)%nat
  else (barriers w + 1 <= barriers (snd (do_forward_pass env neox_args tokens w))
        <= barriers w + 2)%nat.
Proof.
  unfold do_forward_pass, barrier, model_eval, model_train, bind, ret, raise,
    get, modify, lift.
  destruct w as [out tr rg f calls bar saved]. simpl.
  destruct tokens as [[]|t]; simpl; try lia.
  all: destruct (is_pipe_parallel neox_args); simpl.
  all: repeat match goal with
       | |- context [model_eval_batch env ?x] => destruct (model_eval_batch env x) as [[?|]|?]
       | |- context [model_call env ?x] => destruct (model_call env x)
       | |- context [get_batch env ?a ?x] => destruct (get_batch env a x) as [[? ?] ?]
       | |- context [model_is_last_stage env] => destruct (model_is_last_stage env)
       end; simpl; try lia.
  all: destruct tr; simpl; lia.
Qed.

Lemma save_ds_checkpoint_barriers it neox_args w w1 :
  save_ds_checkpoint env it neox_args w = (Ok tt, w1) ->
  barriers w1
  = (barriers w
     + if checkpoint_validation_with_forward_pass neox_args then 3 else 0)%nat.
Proof.
  unfold save_ds_checkpoint, model_save_checkpoint.
  pose proof (do_forward_pass_barriers neox_args (IScalar SNone)) as Hb.
  destruct (no_save_rng neox_args), (checkpoint_validation_with_forward_pass neox_args);
    simpl; unfold bind, ret, get, modify; simpl.
  all: try (specialize (Hb w);
            destruct (do_forward_pass env neox_args (IScalar SNone) w)
              as [[[ct lg]|e] w2]; simpl in *; [|discriminate]).
  all: intros [= <-]; simpl; lia.
Qed.

Lemma frames_delete_old_checkpoints {B} (f : World -> B) save_dir keep_n :
  (forall g w, f (with_stdout g w) = f w) ->
  (forall g w, f (with_rmtree_calls g w) = f w) ->
  (forall g w, f (with_fs g w) = f w) ->
  frames f (fun w => delete_old_checkpoints env save_dir keep_n w).
Proof.
  intros Es Ec Ef. unfold delete_old_checkpoints.
  destruct (get_rank env =? 0); [|apply frames_ret].
  unfold glob_star. apply frames_bind; [apply frames_get|intros listed].
  apply frames_bind; [apply frames_get|intros w0].
  match goal with |- frames _ (if ?b then _ else _) => destruct b end;
    [|apply frames_ret].
  apply frames_bind; [now apply frames_print|intros _].
  apply frames_for_each. intros p. unfold remove_checkpoint.
  apply frames_try_except.
  - unfold rmtree.
    apply frames_bind; [apply frames_modify; intros; apply Ec|intros _].
    destruct (rmtree_fault env p); [apply frames_raise|].
    apply frames_bind; [apply frames_get|intros present].
    destruct present; [apply frames_modify; intros; apply Ef|apply frames_raise].
  - intros e h Hh. destruct e; try discriminate. injection Hh as <-. apply frames_ret.
Qed.

End Barriers.

(** X12: a forward pass that returns has passed exactly three barriers; one
    that raises has passed only one or two, short of the barrier that the
    other ranks go on to. *)
Theorem do_forward_pass_barrier_count `{Torch} (env : Env) neox_args tokens w :
  let r := do_forward_pass env neox_args tokens w in
  (is_ok (fst r) = true -> barriers (snd r) = (barriers w + 3)%nat)
  /\ (is_ok (fst r) = false ->
      (barriers w + 1 <= barriers (snd r) <= barriers w + 2)%nat).
Proof.
  simpl. pose proof (do_forward_pass_barriers env neox_args tokens w) as Hb.
  destruct (is_ok _); split; intros; first [exact Hb | discriminate].
Qed.

Lemma do_forward_pass_barrier_count_witness :
  barriers (snd (do_forward_pass (Sample.env_with (Ok [5]) (None, ∅) Sample.no_fault)
                   Sample.args (IScalar SNone) Sample.world0)) = 3%nat
  /\ (1 <= barriers (snd (do_forward_pass
                            (Sample.env_with (Raise (RuntimeError "CUDA out of memory"))
                               (None, ∅) Sample.no_fault)
                            Sample.args (IScalar SNone) Sample.world0)) <= 2)%nat.
Proof.
  split.
  - exact (proj1 (do_forward_pass_barrier_count
                    (Sample.env_with (Ok [5]) (None, ∅) Sample.no_fault)
                    Sample.args (IScalar SNone) Sample.world0) eq_refl).
  - exact (proj2 (do_forward_pass_barrier_count
                    (Sample.env_with (Raise (RuntimeError "CUDA out of memory"))
                       (None, ∅) Sample.no_fault)
                    Sample.args (IScalar SNone) Sample.world0) eq_refl).
Defined.

Lemma outcome_with_world `{Torch} {A} (r : outcome A * World) a :
  fst r = Ok a -> r = (Ok a, snd r).
Proof. destruct r as [o w]. simpl. now intros ->. Qed.

(** X13: a save that returns has handed exactly one record to the engine,
    under the configured save path and with the iteration in it, and has
    passed two barriers (five with forward-pass validation), the same on
    every rank and whether or not anything was pruned. *)
Theorem save_checkpoint_on_return `{Torch} (env : Env) neox_args it w w' :
  save_checkpoint env neox_args it w = (Ok tt, w') ->
  barriers w'
  = (barriers w + 2
     + if checkpoint_validation_with_forward_pass neox_args then 3 else 0)%nat
  /\ exists sd,
       engine_saved w' = (engine_saved w ++ [(save neox_args, sd)])%list
       /\ sd !! "iteration" = Some (VScalar (SInt it)).
Proof.
  unfold save_checkpoint. destruct (deepspeed neox_args); [|discriminate].
  unfold bind at 1.
  destruct (save_ds_checkpoint env it neox_args w) as [[[]|e] w1] eqn:Hsave;
    [|discriminate].
  pose proof (save_ds_checkpoint_barriers env _ _ _ _ Hsave) as Hb.
  destruct (save_ds_checkpoint_client_state env _ _ _ _ Hsave) as (sd & Hs & Hi & _).
  unfold bind at 1, barrier at 1, modify at 1.
  set (w2 := with_barriers S w1).
  set (prune := match keep_last_n_checkpoints neox_args with
                | Some n => delete_old_checkpoints env (save neox_args) n
                | None => ret tt
                end).
  assert (Hprune : barriers (snd (prune w2)) = barriers w2
                   /\ engine_saved (snd (prune w2)) = engine_saved w2).
  { unfold prune. destruct (keep_last_n_checkpoints neox_args); [|now split].
    split; apply (frames_delete_old_checkpoints env _ (save neox_args) z);
      now intros ? []. }
  unfold bind at 1. destruct (prune w2) as [[[]|e] w3]; [|discriminate].
  simpl in Hprune. destruct Hprune as [Hb3 He3].
  unfold barrier, modify. intros [= <-]. simpl. rewrite Hb3, He3.
  unfold w2. destruct w1; simpl in *. split; [lia|].
  exists sd. split; [exact Hs|exact Hi].
Qed.

Lemma save_checkpoint_on_return_witness :
  let w' := snd (save_checkpoint (Sample.env_with (Ok [1]) (None, ∅) Sample.no_fault)
                   (Sample.set_validation true Sample.args) 5000 Sample.world0) in
  barriers w' = 5%nat
  /\ exists sd,
       engine_saved w' = [("ckpts", sd)]
       /\ sd !! "iteration" = Some (VScalar (SInt 5000)).
Proof.
  intros w'. subst w'.
  assert (Hf : fst (save_checkpoint (Sample.env_with (Ok [1]) (None, ∅) Sample.no_fault)
                      (Sample.set_validation true Sample.args) 5000 Sample.world0)
               = Ok tt) by (vm_compute; reflexivity).
  destruct (save_checkpoint_on_return _ _ _ _ _ (outcome_with_world _ _ Hf))
    as (Hb & sd & He & Hi).
  split; [rewrite Hb; reflexivity|].
  exists sd. split; [rewrite He; reflexivity | exact Hi].
Defined.

(** ** Loading: the legacy iteration field *)

(** X14: a record whose ['iteration'] is absent, or stored as 0, and whose
    ['total_iters'] is a non-zero integer loads as that integer (no stored
    arguments, no forward-pass validation, generator restore off). *)
Theorem load_checkpoint_legacy_iteration `{Torch} (env : Env) neox_args name sd w n :
  deepspeed neox_args = true ->
  finetune neox_args = false ->
  no_load_rng neox_args = true ->
  checkpoint_validation_with_forward_pass neox_args = false ->
  model_load_checkpoint env (load neox_args)
    (negb (no_load_optim neox_args)) (negb (no_load_optim neox_args))
    = (Some name, sd) ->
  sd !! "iteration" = None \/ sd !! "iteration" = Some (VScalar (SInt 0)) ->
  sd !! "total_iters" = Some (VScalar (SInt n)) ->
  n <> 0 ->
  sd !! "args" = None ->
  fst (load_checkpoint env neox_args w) = Ok (VScalar (SInt n)).
Proof.
  intros D F N V E Hit Htot Hn Ha.
  rewrite (load_checkpoint_found env _ _ _ _ D E). unfold load_found.
  assert (R : resolve_iteration neox_args name sd w = (Ok (VScalar (SInt n)), w)).
  { rewrite resolve_iteration_spec by assumption.
    unfold state_get. rewrite Htot. destruct Hit as [-> | ->]; simpl;
      unfold py_or; simpl; destruct (Z.eqb_spec n 0); now try contradiction. }
  rewrite (bind_ok _ _ _ _ _ R).
  rewrite (bind_ok _ _ _ _ _ (validate_args_absent env neox_args sd w Ha)).
  unfold validate_forward, restore_rng_states. rewrite V, F, N. simpl.
  unfold bind, ret, barrier, modify, print.
  destruct (get_data_parallel_rank env =? 0); reflexivity.
Qed.

Lemma load_checkpoint_legacy_iteration_witness :
  let sd : gmap string value :=
    <["total_iters" := VScalar (SInt 7000)]> (<["iteration" := VScalar (SInt 0)]> ∅) in
  fst (load_checkpoint
         (Sample.env_with (Ok [1]) (Some "ckpts/old", sd) Sample.no_fault)
         (Sample.set_rng_flags false true Sample.args) Sample.world0)
  = Ok (VScalar (SInt 7000)).
Proof.
  intros sd.
  apply (load_checkpoint_legacy_iteration
           (Sample.env_with (Ok [1]) (Some "ckpts/old", sd) Sample.no_fault)
           (Sample.set_rng_flags false true Sample.args) "ckpts/old" sd Sample.world0 7000);
    try reflexivity; [now right | discriminate].
Defined.

(** ** ensure_directory_exists *)

Section Dirname.

Lemma head_to_last_slash_none f :
  all_chars not_slash f = true -> head_to_last_slash f = "".
Proof.
  induction f as [|a f IH]; [reflexivity|]. simpl. intros E.
  apply andb_true_iff in E as [Ea Ef]. rewrite (IH Ef).
  unfold not_slash in Ea. apply negb_true_iff in Ea. now rewrite Ea.
Qed.

Lemma head_to_last_slash_app x f :
  all_chars not_slash f = true ->
  head_to_last_slash (x +:+ String "/" f) = x +:+ "/".
Proof.
  intros Hf. induction x as [|a x IH].
  - rewrite !str_app_nil_l. simpl. now rewrite (head_to_last_slash_none f Hf).
  - rewrite !str_app_cons. cbn [head_to_last_slash]. rewrite IH.
    replace (String.eqb (x +:+ "/") "") with false
      by (symmetry; apply String.eqb_neq; destruct x; discriminate).
    now rewrite orb_true_r.
Qed.

Lemma only_slashes_app s t :
  only_slashes (s +:+ t) = (only_slashes s && only_slashes t)%bool.
Proof.
  induction s as [|a s IH]; [reflexivity|].
  rewrite str_app_cons. simpl. now rewrite IH, andb_assoc.
Qed.

Lemma rstrip_after_char u c :
  Ascii.eqb c "/" = false ->
  PyStr.rstrip "/" ((u +:+ String c "") +:+ "/") = u +:+ String c "".
Proof.
  intros Hc. unfold PyStr.rstrip.
  rewrite !rev_app. change (String.rev "/") with "/".
  change (String.rev (String c "")) with (String c "").
  rewrite !str_app_cons, !str_app_nil_l. cbn [PyStr.lstrip].
  rewrite Ascii.eqb_refl. cbn [PyStr.lstrip]. rewrite Hc.
  rewrite rev_cons, rev_involutive. reflexivity.
Qed.

(** The directory of a path whose last component follows a component that
    does not end in a slash. *)
Lemma os_path_dirname_file u c f :
  Ascii.eqb c "/" = false ->
  all_chars not_slash f = true ->
  os_path_dirname ((u +:+ String c "") +:+ String "/" f) = u +:+ String c "".
Proof.
  intros Hc Hf. unfold os_path_dirname.
  rewrite (head_to_last_slash_app _ f Hf).
  replace (String.eqb ((u +:+ String c "") +:+ "/") "") with false
    by (symmetry; apply String.eqb_neq; destruct u; discriminate).
  rewrite !only_slashes_app. simpl. unfold is_slash at 1. rewrite Hc.
  rewrite andb_false_r. simpl. now apply rstrip_after_char.
Qed.

Lemma os_path_dirname_bare f :
  all_chars not_slash f = true -> os_path_dirname f = "".
Proof.
  intros Hf. unfold os_path_dirname. now rewrite (head_to_last_slash_none f Hf).
Qed.

(** The directory of a checkpoint name is its rank directory. *)
Lemma os_path_dirname_checkpoint_name own root iteration release mp_rank :
  os_path_dirname (get_checkpoint_name own root iteration release mp_rank)
  = join_base root
    +:+ (if release then "release" else "iter_" +:+ PyStr.format_0d 7 iteration)
    +:+ "/" +:+ ("mp_rank_" +:+ PyStr.format_0d 2 (effective_rank own mp_rank)).
Proof.
  rewrite get_checkpoint_name_form.
  set (dir := if release then "release" else "iter_" +:+ PyStr.format_0d 7 iteration).
  set (rk := "mp_rank_" +:+ PyStr.format_0d 2 (effective_rank own mp_rank)).
  destruct rk as [|a rk'] eqn:Erk; [discriminate|].
  destruct (last_char not_slash a rk') as (u & c & E & Hc).
  assert (Hns : all_chars not_slash (String a rk') = true).
  { rewrite <- Erk. apply rank_directory_no_slash. }
  specialize (Hc Hns). unfold not_slash in Hc. apply negb_true_iff in Hc.
  rewrite E.
  replace (join_base root +:+ dir +:+ "/" +:+ (u +:+ String c "") +:+ "/"
             +:+ "model_optim_rng.pt")
    with (((join_base root +:+ dir +:+ "/" +:+ u) +:+ String c "")
            +:+ String "/" "model_optim_rng.pt")
    by (now rewrite !str_app_assoc).
  rewrite os_path_dirname_file by (exact Hc || reflexivity).
  now rewrite !str_app_assoc.
Qed.

End Dirname.

(** X15: for a checkpoint name the function looks at the rank directory
    [<root>/<iteration directory>/mp_rank_NN] only: it does nothing when
    that path exists and otherwise calls [os.makedirs] on exactly it. *)
Theorem ensure_directory_exists_of_checkpoint_name `{Torch}
    (makedirs : string -> M unit) own root iteration (release : bool) mp_rank w :
  let rank_dir :=
    join_base root
    +:+ (if release then "release" else "iter_" +:+ PyStr.format_0d 7 iteration)
    +:+ "/" +:+ ("mp_rank_" +:+ PyStr.format_0d 2 (effective_rank own mp_rank)) in
  ensure_directory_exists makedirs
    (get_checkpoint_name own root iteration release mp_rank) w
  = if path_exists w rank_dir then (Ok tt, w) else makedirs rank_dir w.
Proof.
  simpl. unfold ensure_directory_exists.
  rewrite os_path_dirname_checkpoint_name.
  unfold bind, get. simpl. now destruct (path_exists w _).
Qed.

(** X16: for a file name without any slash the directory is the empty
    path, which never exists, so the function calls [os.makedirs] on the
    empty path. *)
Theorem ensure_directory_exists_bare_name `{Torch}
    (makedirs : string -> M unit) filename w :
  all_chars not_slash filename = true ->
  ensure_directory_exists makedirs filename w = makedirs "" w.
Proof.
  intros Hf. unfold ensure_directory_exists.
  rewrite (os_path_dirname_bare filename Hf). reflexivity.
Qed.

Lemma ensure_directory_exists_bare_name_witness :
  ensure_directory_exists Sample.makedirs_leaf "model_optim_rng.pt" Sample.world0
  = (Raise (FileNotFoundError ""), Sample.world0).
Proof.
  rewrite (ensure_directory_exists_bare_name Sample.makedirs_leaf
             "model_optim_rng.pt" Sample.world0 eq_refl).
  reflexivity.
Defined.

(** X17: when [os.makedirs] leaves the directory it was asked for in
    existence, a call that returned can be repeated without any effect. *)
Theorem ensure_directory_exists_idempotent `{Torch}
    (makedirs : string -> M unit) filename w w1 :
  (forall d w0 w0', makedirs d w0 = (Ok tt, w0') -> path_exists w0' d = true) ->
  ensure_directory_exists makedirs filename w = (Ok tt, w1) ->
  ensure_directory_exists makedirs filename w1 = (Ok tt, w1).
Proof.
  intros Hmk. unfold ensure_directory_exists, bind, get. simpl.
  destruct (path_exists w (os_path_dirname filename)) eqn:Ex; simpl.
  - intros [= <-]. now rewrite Ex.
  - intros Hrun. now rewrite (Hmk _ _ _ Hrun).
Qed.

Lemma ensure_directory_exists_idempotent_witness :
  let w1 := snd (ensure_directory_exists Sample.makedirs_leaf
                   "ckpts/global_step13/mp_rank_00_model_states.pt" Sample.world0) in
  path_exists w1 "ckpts/global_step13" = true
  /\ ensure_directory_exists Sample.makedirs_leaf
       "ckpts/global_step13/mp_rank_00_model_states.pt" w1 = (Ok tt, w1).
Proof.
  intros w1. split; [reflexivity|].
  apply (ensure_directory_exists_idempotent Sample.makedirs_leaf _ Sample.world0 w1).
  - intros d w0 w0'. unfold Sample.makedirs_leaf, path_exists.
    destruct (String.eqb d "") eqn:Ed; [discriminate|].
    unfold modify. intros [= <-]. simpl.
    rewrite existsb_app. simpl. rewrite String.eqb_refl. simpl.
    now rewrite orb_true_r.
  - reflexivity.
Defined.

(** ** train_pipeline.py: barriers around the data preparation *)



(** ** benchmarking/gpt-benchmark.py *)

Import Benchmark.

Section Pieces.

Lemma all_chars_rev P s : all_chars P (String.rev s) = all_chars P s.
Proof.
  induction s as [|a s IH]; [reflexivity|].
  rewrite rev_cons, all_chars_app, IH. simpl.
  rewrite andb_true_r. apply andb_comm.
Qed.

Lemma split_go_nonempty sep s : forall cur, split_go sep cur s <> [].
Proof.
  induction s as [|a s IH]; intros cur; simpl; [discriminate|].
  destruct (Ascii.eqb a sep); [discriminate|apply IH].
Qed.

(** No piece of a split holds the separator. *)
Lemma split_go_pieces sep s : forall cur,
  all_chars (fun a => negb (Ascii.eqb a sep)) cur = true ->
  List.Forall (fun p => all_chars (fun a => negb (Ascii.eqb a sep)) p = true)
    (split_go sep cur s).
Proof.
  induction s as [|a s IH]; intros cur Hcur; simpl.
  - apply List.Forall_cons; [now rewrite all_chars_rev|apply List.Forall_nil].
  - destruct (Ascii.eqb a sep) eqn:E.
    + apply List.Forall_cons; [now rewrite all_chars_rev|]. now apply IH.
    + apply IH. simpl. now rewrite E.
Qed.

Lemma last_piece_of (Q : string -> Prop) l :
  l <> [] -> List.Forall Q l -> exists m, last_piece l = Some m /\ Q m.
Proof.
  unfold last_piece. induction l as [|x l IH]; [contradiction|]. intros _ HQ.
  inversion HQ as [|? ? Hx Hl]; subst. destruct l as [|y l].
  - exists x. now split.
  - destruct IH as (m & E & Hm); [discriminate|assumption|].
    exists m. split; [exact E|exact Hm].
Qed.

Lemma relative_after m r :
  all_chars not_slash m = true -> PyStr.startswith "/" (m +:+ String "_" r) = false.
Proof.
  destruct m as [|a m]; [reflexivity|]. rewrite str_app_cons.
  cbn [PyStr.startswith all_chars]. unfold not_slash. rewrite (Ascii.eqb_sym "/" a).
  destruct (Ascii.eqb a "/"); [discriminate|reflexivity].
Qed.

(** The file name: the last piece of the model name, the dtype's short
    name; it is never an absolute path. *)
Lemma csv_name_form model d :
  exists m t,
    csv_name model d = Some (m +:+ "_" +:+ t +:+ "_benchmark.csv")
    /\ PyStr.startswith "/" (m +:+ "_" +:+ t +:+ "_benchmark.csv") = false.
Proof.
  destruct (last_piece_of (fun p => all_chars not_slash p = true) (split "/" model))
    as (m & Em & Hm).
  - apply split_go_nonempty.
  - apply (split_go_pieces "/" model ""). reflexivity.
  - unfold csv_name. rewrite Em.
    exists m. destruct d; eexists; (split; [reflexivity|]);
      apply relative_after, Hm.
Qed.

Lemma component_no_slash prefix z :
  all_chars not_slash prefix = true ->
  all_chars not_slash (prefix +:+ PyStr.of_Z z) = true.
Proof.
  intros Hp. rewrite all_chars_app, Hp. apply format_0d_no_slash.
Qed.

(** The directory, written out. *)
Lemma world_size_dir_form out ud mt ws :
  world_size_dir out ud mt ws
  = join_base out +:+ (if ud : bool then "deepspeed" else "hf")
    +:+ "/" +:+ ("max_tokens_" +:+ PyStr.of_Z mt)
    +:+ "/" +:+ ("world_size_" +:+ PyStr.of_Z ws).
Proof.
  unfold world_size_dir, path_join. cbn [fold_left].
  set (ds := if ud then "deepspeed" else "hf").
  set (mtd := "max_tokens_" +:+ PyStr.of_Z mt).
  set (wsd := "world_size_" +:+ PyStr.of_Z ws).
  assert (Hds : ds <> "") by (unfold ds; now destruct ud).
  assert (Hds' : all_chars not_slash ds = true) by (unfold ds; now destruct ud).
  assert (Hmtd : mtd <> "") by discriminate.
  rewrite (path_join_step_relative out ds) by (unfold ds; now destruct ud).
  rewrite (path_join_step_relative _ mtd) by reflexivity.
  rewrite (path_join_step_relative _ wsd) by reflexivity.
  rewrite (join_base_component _ ds Hds Hds').
  rewrite !str_app_assoc.
  rewrite <- (str_app_assoc ds "/" mtd), <- (str_app_assoc (join_base out)).
  rewrite (join_base_component _ mtd Hmtd (component_no_slash "max_tokens_" mt eq_refl)).
  now rewrite !str_app_assoc.
Qed.

Lemma csv_path_form out ud mt ws model dtn f :
  csv_path out ud mt ws model dtn = Some f ->
  exists rest, f = join_base out +:+ (if ud : bool then "deepspeed" else "hf") +:+ rest.
Proof.
  unfold csv_path.
  destruct (csv_name_form model (parse_dtype dtn)) as (m & t & -> & Hrel).
  intros [= <-]. unfold path_join. cbn [fold_left].
  rewrite (path_join_step_relative _ _ Hrel).
  set (p := join_base out +:+ (if ud then "deepspeed" else "hf") +:+ "/"
            +:+ ("max_tokens_" +:+ PyStr.of_Z mt) +:+ "/").
  assert (Hw : world_size_dir out ud mt ws = p +:+ ("world_size_" +:+ PyStr.of_Z ws))
    by (rewrite world_size_dir_form; unfold p; now rewrite !str_app_assoc).
  rewrite Hw, join_base_component;
    [|discriminate|exact (component_no_slash "world_size_" ws eq_refl)].
  unfold p. rewrite !str_app_assoc. eexists. reflexivity.
Qed.

Lemma str_app_cancel_l p s t : p +:+ s = p +:+ t -> s = t.
Proof.
  induction p as [|a p IH]; [easy|]. rewrite !str_app_cons. intros [= E]. now apply IH.
Qed.

End Pieces.

Section Run.

Context `{Floats} (lib : Lib).

Lemma print_all_state lines : forall s,
  print_all lines s
  = (Done tt, {| printed := (printed s ++ lines)%list; generations := generations s;
                 made_dirs := made_dirs s; csv_files := csv_files s |}).
Proof.
  induction lines as [|l lines IH]; intros s.
  - simpl. unfold bret. rewrite app_nil_r. now destruct s.
  - cbn [print_all]. unfold bbind, bprint. rewrite IH. simpl.
    now rewrite <- List.app_assoc.
Qed.

(** The trial loop when every generation succeeds: one time per trial, in
    order, and with deepspeed one model time per trial. *)
Lemma trials_loop_ok ud n : forall times mtimes s,
  (forall i, (generations s <= i < generations s + n)%nat ->
             exists t, generate lib i = Done t) ->
  exists ts ms,
    trials_loop lib ud n times mtimes s
    = (Done ((times ++ ts)%list, (mtimes ++ ms)%list),
       {| printed := printed s; generations := generations s + n;
          made_dirs := made_dirs s; csv_files := csv_files s |})
    /\ length ts = n
    /\ length ms = (if ud then n else 0)%nat
    /\ (forall i t, ts !! i = Some t -> generate lib (generations s + i) = Done t)
    /\ (forall i m, ms !! i = Some m -> m = model_time lib (generations s + i)).
Proof.
  induction n as [|n IH]; intros times mtimes s Hgen.
  - exists [], []. simpl. unfold bret. rewrite !app_nil_r, Nat.add_0_r.
    repeat split; [now destruct s|now destruct ud|discriminate|discriminate].
  - cbn [trials_loop]. unfold bbind, trial.
    destruct (Hgen (generations s)) as [t Ht]; [lia|]. rewrite Ht. cbn [fst snd].
    match goal with
    | |- context [trials_loop lib ud n ?tm ?mtm ?s1] =>
        destruct (IH tm mtm s1) as (ts & ms & E & Lt & Lm & Ht' & Hm')
    end.
    { intros i Hi. apply Hgen. simpl in Hi. lia. }
    rewrite E. cbn [printed generations made_dirs csv_files] in *.
    exists (t :: ts), (if ud then model_time lib (generations s) :: ms else ms).
    split; [|split; [|split; [|split]]].
    + rewrite <- List.app_assoc, Nat.add_succ_r. destruct ud.
      * now rewrite <- List.app_assoc.
      * reflexivity.
    + simpl. now rewrite Lt.
    + destruct ud; simpl; now rewrite Lm.
    + intros [|i] t'; simpl.
      * intros [= <-]. now rewrite Nat.add_0_r.
      * intros Hi. rewrite Nat.add_succ_r. now apply Ht'.
    + destruct ud; [|destruct ms; [discriminate|discriminate Lm]].
      intros [|i] m; simpl.
      * intros [= <-]. now rewrite Nat.add_0_r.
      * intros Hi. rewrite Nat.add_succ_r. now apply Hm'.
Qed.

(** With working libraries every run gets as far as the report, after one
    generation per trial and with nothing made or written yet. *)
Lemma benchmark_model_reaches_report model out ud dtn g k mt lr ws trials s :
  make_pipeline lib model lr = Done tt ->
  (ud = true -> init_inference lib = Done tt) ->
  (forall i, (generations s <= i < generations s + Z.to_nat trials)%nat ->
             exists t, generate lib i = Done t) ->
  exists ts ms s1,
    benchmark_model lib model out ud dtn g k mt lr ws trials s
    = report model out ud (parse_dtype dtn) mt lr ws ts ms s1
    /\ printed s1
       = (printed s
          ++ (if lr =? 0 then settings_lines model mt dtn g k ws else [])
          ++ [""])%list
    /\ generations s1 = (generations s + Z.to_nat trials)%nat
    /\ made_dirs s1 = made_dirs s /\ csv_files s1 = csv_files s
    /\ length ts = Z.to_nat trials
    /\ length ms = (if ud then Z.to_nat trials else 0)%nat
    /\ (forall i t, ts !! i = Some t -> generate lib (generations s + i) = Done t)
    /\ (forall i m, ms !! i = Some m -> m = model_time lib (generations s + i)).
Proof.
  intros Hpipe Hinit Hgen. unfold benchmark_model.
  unfold bbind at 1.
  assert (Hpre :
            (if lr =? 0
             then print_all (settings_lines model mt dtn g k ws)
             else bret tt) s
            = (Done tt,
               {| printed :=
                    (printed s
                     ++ if lr =? 0 then settings_lines model mt dtn g k ws else [])%list;
                  generations := generations s;
                  made_dirs := made_dirs s; csv_files := csv_files s |})).
  { destruct (lr =? 0); [now rewrite print_all_state|].
    unfold bret. rewrite app_nil_r. now destruct s. }
  rewrite Hpre.
  unfold bbind at 1. unfold blift at 1. rewrite Hpipe.
  unfold bbind at 1. unfold bprint at 1.
  cbn [printed generations made_dirs csv_files].
  unfold bbind at 1.
  assert (Hin : forall s0,
            (if ud then blift (init_inference lib) else bret tt) s0 = (Done tt, s0)).
  { intros s0. destruct ud; [unfold blift; now rewrite Hinit|reflexivity]. }
  rewrite Hin. unfold bbind at 1.
  match goal with
  | |- context [trials_loop lib ud ?n [] [] ?s0] =>
      destruct (trials_loop_ok ud n [] [] s0 Hgen)
        as (ts & ms & E & Lt & Lm & Ht & Hm)
  end.
  rewrite E. cbn [fst snd app]. eexists ts, ms, _. split; [reflexivity|].
  cbn [printed generations made_dirs csv_files] in *.
  rewrite <- List.app_assoc. auto 10.
Qed.

Lemma rows3_length {A} (a : list A) : forall b c,
  length b = length a -> length c = length a -> length (rows3 a b c) = length a.
Proof.
  induction a as [|x a IH]; intros [|y b] [|z c]; simpl; try discriminate; auto.
Qed.

Lemma rows2_length {A} (a : list A) : forall b,
  length b = length a -> length (rows2 a b) = length a.
Proof.
  induction a as [|x a IH]; intros [|y b]; simpl; try discriminate; auto.
Qed.

Lemma rows3_lookup {A} (a : list A) : forall b c i row,
  rows3 a b c !! i = Some row ->
  exists x y z, a !! i = Some x /\ b !! i = Some y /\ c !! i = Some z
                /\ row = [x; y; z].
Proof.
  induction a as [|x a IH]; intros [|y b] [|z c] [|i] row; simpl; try discriminate.
  - intros [= <-]. eauto 10.
  - apply IH.
Qed.

Lemma rows2_lookup {A} (a : list A) : forall b i row,
  rows2 a b !! i = Some row ->
  exists x y, a !! i = Some x /\ b !! i = Some y /\ row = [x; y].
Proof.
  induction a as [|x a IH]; intros [|y b] [|i] row; simpl; try discriminate.
  - intros [= <-]. eauto 10.
  - apply IH.
Qed.

Lemma per_token_ok mt ts s :
  mt <> 3 -> per_token mt ts s = (Done ((fun t => fdiv t (mt - 3)) <$> ts), s).
Proof.
  intros Hmt. unfold per_token. destruct ts as [|t ts]; [reflexivity|].
  destruct (Z.eqb_spec (mt - 3) 0); [lia|reflexivity].
Qed.

(** X19: with [max_tokens = 3] and at least one trial, a run whose
    libraries work raises [ZeroDivisionError]: it has made every one of
    its generations, and has neither made the output directory nor written
    a file. *)
Theorem benchmark_model_three_tokens model out ud dtn g k lr ws trials s :
  make_pipeline lib model lr = Done tt ->
  (ud = true -> init_inference lib = Done tt) ->
  (forall i, (generations s <= i < generations s + Z.to_nat trials)%nat ->
             exists t, generate lib i = Done t) ->
  0 < trials ->
  let r := benchmark_model lib model out ud dtn g k 3 lr ws trials s in
  fst r = Fail ZeroDivisionError
  /\ generations (snd r) = (generations s + Z.to_nat trials)%nat
  /\ made_dirs (snd r) = made_dirs s
  /\ csv_files (snd r) = csv_files s.
Proof.
  intros Hpipe Hinit Hgen Htrials r. subst r.
  destruct (benchmark_model_reaches_report model out ud dtn g k 3 lr ws trials s
              Hpipe Hinit Hgen)
    as (ts & ms & s1 & -> & _ & Hg & Hd & Hc & Lt & _).
  destruct ts as [|t ts]; [simpl in Lt; lia|].
  unfold report, bbind, per_token. cbn [Z.sub Z.eqb Z.add Z.opp Z.pos_sub fst snd].
  unfold bfail. cbn [fst snd]. auto.
Qed.

(** X20: on a process whose local rank is not 0 a run whose libraries work
    never returns: past the division it makes the output directory, prints
    where the result would go and raises [UnboundLocalError] for [df]
    without writing a file. *)
Theorem benchmark_model_other_ranks model out ud dtn g k mt lr ws trials s :
  make_pipeline lib model lr = Done tt ->
  (ud = true -> init_inference lib = Done tt) ->
  (forall i, (generations s <= i < generations s + Z.to_nat trials)%nat ->
             exists t, generate lib i = Done t) ->
  mt <> 3 -> lr <> 0 ->
  let r := benchmark_model lib model out ud dtn g k mt lr ws trials s in
  fst r = Fail (UnboundLocalError "df")
  /\ csv_files (snd r) = csv_files s
  /\ made_dirs (snd r) = (made_dirs s ++ [world_size_dir out ud mt ws])%list
  /\ exists f,
       csv_path out ud mt ws model dtn = Some f
       /\ printed (snd r) = (printed s ++ [""; "saving benchmark to " +:+ f])%list.
Proof.
  intros Hpipe Hinit Hgen Hmt Hlr r. subst r.
  destruct (benchmark_model_reaches_report model out ud dtn g k mt lr ws trials s
              Hpipe Hinit Hgen)
    as (ts & ms & s1 & -> & Hp & Hg & Hd & Hc & _).
  unfold report, csv_path, bbind. rewrite !(per_token_ok _ _ _ Hmt).
  destruct (Z.eqb_spec lr 0) as [|_]; [contradiction|].
  destruct (csv_name_form model (parse_dtype dtn)) as (m & t & -> & _).
  destruct ud; unfold bret, bbind, makedirs_exist_ok, bprint, bfail;
    cbn [fst snd printed generations made_dirs csv_files];
    rewrite Hd, Hc, Hp, <- List.app_assoc; eauto 10.
Qed.

(** X21: on local rank 0, with working libraries and [max_tokens] other
    than 3, the run returns the table it has written: one row per trial, in
    order, holding the time of that generation, with deepspeed the model
    time reported after it, and the time divided by [max_tokens - 3]; the
    file is the only one written and lies in the directory just made. *)
Theorem benchmark_model_rank_0 model out ud dtn g k mt ws trials s :
  make_pipeline lib model 0 = Done tt ->
  (ud = true -> init_inference lib = Done tt) ->
  (forall i, (generations s <= i < generations s + Z.to_nat trials)%nat ->
             exists t, generate lib i = Done t) ->
  mt <> 3 ->
  let r := benchmark_model lib model out ud dtn g k mt 0 ws trials s in
  exists df f,
    fst r = Done df
    /\ csv_path out ud mt ws model dtn = Some f
    /\ csv_files (snd r) = (csv_files s ++ [(f, df)])%list
    /\ made_dirs (snd r) = (made_dirs s ++ [world_size_dir out ud mt ws])%list
    /\ printed (snd r)
       = (printed s ++ settings_lines model mt dtn g k ws
          ++ [""; "saving benchmark to " +:+ f])%list
    /\ length (columns df) = (if ud then 3 else 2)%nat
    /\ length (rows df) = Z.to_nat trials
    /\ forall i row, rows df !! i = Some row ->
         exists t, generate lib (generations s + i) = Done t
                   /\ row = if ud
                            then [t; model_time lib (generations s + i); fdiv t (mt - 3)]
                            else [t; fdiv t (mt - 3)].
Proof.
  intros Hpipe Hinit Hgen Hmt r. subst r.
  destruct (benchmark_model_reaches_report model out ud dtn g k mt 0 ws trials s
              Hpipe Hinit Hgen)
    as (ts & ms & s1 & -> & Hp & Hg & Hd & Hc & Lt & Lm & Ht & Hm).
  unfold report, csv_path, bbind. rewrite !(per_token_ok _ _ _ Hmt).
  destruct (csv_name_form model (parse_dtype dtn)) as (m & t & -> & _).
  destruct ud; unfold bret, bbind, makedirs_exist_ok, bprint, to_csv;
    cbn [fst snd printed generations made_dirs csv_files Z.eqb];
    rewrite Hd, Hc, Hp; eexists _, _;
    (split; [reflexivity|]); (split; [reflexivity|]); (split; [reflexivity|]);
    (split; [reflexivity|]);
    (split; [now rewrite <- !List.app_assoc|]); (split; [reflexivity|]);
    cbn [rows columns]; split.
  - rewrite rows3_length; [exact Lt|congruence|].
    now rewrite length_fmap.
  - intros i row Hrow.
    apply rows3_lookup in Hrow as (x & y & z & Hx & Hy & Hz & ->).
    rewrite list_lookup_fmap, Hx in Hz. injection Hz as <-.
    exists x. split; [now apply Ht|]. now rewrite (Hm _ _ Hy).
  - rewrite rows2_length; [exact Lt|]. now rewrite length_fmap.
  - intros i row Hrow.
    apply rows2_lookup in Hrow as (x & y & Hx & Hy & ->).
    rewrite list_lookup_fmap, Hx in Hy. injection Hy as <-.
    exists x. split; [now apply Ht|reflexivity].
Qed.

End Run.


Lemma benchmark_model_three_tokens_witness :
  let r := benchmark_model BenchmarkSample.lib "EleutherAI/gpt-neo-125M" "/out" true
             "fp16" false true 3 0 1 2 BenchmarkSample.start in
  fst r = Fail ZeroDivisionError
  /\ generations (snd r) = 2%nat /\ made_dirs (snd r) = [] /\ csv_files (snd r) = [].
Proof.
  apply (benchmark_model_three_tokens BenchmarkSample.lib "EleutherAI/gpt-neo-125M"
           "/out" true "fp16" false true 0 1 2 BenchmarkSample.start);
    [reflexivity|reflexivity|intros i _; eexists; reflexivity|lia].
Defined.

Lemma benchmark_model_other_ranks_witness :
  let r := benchmark_model BenchmarkSample.lib "EleutherAI/gpt-neo-125M" "/out" false
             "fp32" false true 50 1 2 2 BenchmarkSample.start in
  fst r = Fail (UnboundLocalError "df")
  /\ csv_files (snd r) = []
  /\ made_dirs (snd r) = ["/out/hf/max_tokens_50/world_size_2"].
Proof.
  intros r.
  destruct (benchmark_model_other_ranks BenchmarkSample.lib "EleutherAI/gpt-neo-125M"
              "/out" false "fp32" false true 50 1 2 2 BenchmarkSample.start)
    as (Hr & Hc & Hd & _);
    [reflexivity|discriminate|intros i _; eexists; reflexivity|lia|lia|].
  fold r in Hr, Hc, Hd. rewrite Hr, Hc, Hd. repeat split.
Defined.

Lemma benchmark_model_rank_0_witness :
  exists df,
    fst (benchmark_model BenchmarkSample.lib "EleutherAI/gpt-neo-125M" "/out" true
           "fp16" false true 50 0 1 2 BenchmarkSample.start) = Done df
    /\ length (rows df) = 2%nat.
Proof.
  destruct (benchmark_model_rank_0 BenchmarkSample.lib "EleutherAI/gpt-neo-125M"
              "/out" true "fp16" false true 50 1 2 BenchmarkSample.start)
    as (df & f & Hr & _ & _ & _ & _ & _ & Hn & _);
    [reflexivity|reflexivity|intros i _; eexists; reflexivity|lia|].
  exists df. split; [exact Hr|exact Hn].
Defined.

(** X22: a deepspeed run and a Hugging Face run never write the same file,
    whatever the output directory, the models, the dtypes, the token counts
    and the world sizes: under one output directory the results of the two
    kinds of run are kept apart. *)
Theorem deepspeed_and_hf_files_differ out mt ws model dtn mt' ws' model' dtn' f f' :
  csv_path out true mt ws model dtn = Some f ->
  csv_path out false mt' ws' model' dtn' = Some f' ->
  f <> f'.
Proof.
  intros E E' ->.
  apply csv_path_form in E as [r E], E' as [r' E']. rewrite E' in E.
  apply str_app_cancel_l in E. discriminate.
Qed.


Lemma deepspeed_and_hf_files_differ_witness :
  "/out/deepspeed/max_tokens_50/world_size_1/gpt-neo-125M_float16_benchmark.csv"
  <> "/out/hf/max_tokens_50/world_size_1/gpt-neo-125M_float16_benchmark.csv".
Proof.
  apply (deepspeed_and_hf_files_differ "/out" 50 1 "EleutherAI/gpt-neo-125M" "fp16"
           50 1 "EleutherAI/gpt-neo-125M" "fp16"); reflexivity.
Defined.
